(** * Event scheduling system: the asynchronous e-mail job subsystem

    A shallow embedding of
      - [backend/config/email.js]            (module [EmailConfig]),
      - [backend/services/emailService.js]   (module [EmailService]),
      - [backend/workers/emailQueue.js]      (module [EmailQueue]),
      - [backend/worker.js]                  (module [Worker]),
      - [backend/models/bookingModel.js], [backend/models/notificationModel.js]
        and [backend/routes/bookings.js]     (modules [Models], [BookingRoutes],
        [BookingModel], [BookingApi], [NotificationModel]),
      - [backend/routes/notifications.js]    (modules [NotificationRoutes], [Api]),
      - [backend/middleware/authMiddleware.js] (module [AuthMiddleware]),
      - [backend/models/userModel.js] and [backend/routes/auth.js]
        (module [Auth]),
    with the JavaScript notions they rest on (modules [Str], [JS], [Text]),
    two example hosts ([Hosts]) and the vocabulary of the properties
    ([Props], [Vocab], [Samples]), followed by the properties of the
    specification checked against them and by further properties of the
    code.

    Conventions.  JavaScript strings are kept as [string] holding their
    UTF-8 bytes.  An [async] function is a function into [Result]: [Ok v]
    for a fulfilled promise, [Throw e] for a rejected one (or a synchronous
    [throw]).  What a function does to the outside (console, timers, the
    mail transport, PostgreSQL, the Redis queue) is recorded, in program
    order, in a list of events that it returns next to its result. *)

From stdpp Require Import gmap strings list sorting.
From Stdlib Require Import ZArith String Ascii DecimalString DecimalPos Lia Bool.

Open Scope string_scope.
Open Scope Z_scope.

(* ===================================================================== *)
(** ** Strings *)

Module Str.

(** The double quote character and the line feed, as one-character strings. *)
Definition dq : string := String (ascii_of_nat 34) EmptyString.
Definition nl : string := String (ascii_of_nat 10) EmptyString.

(** Concatenation of the pieces of a template literal. *)
Definition cat (pieces : list string) : string :=
  fold_right String.append EmptyString pieces.

(** [String.prototype.includes]. *)
Fixpoint includes (needle hay : string) : bool :=
  String.prefix needle hay ||
  match hay with
  | EmptyString => false
  | String _ rest => includes needle rest
  end.

(** [String.prototype.startsWith]. *)
Definition startsWith (pre s : string) : bool := String.prefix pre s.

(** Decimal rendering of an integer, as [String(n)] prints it. *)
Definition of_Z (n : Z) : string := NilZero.string_of_int (Z.to_int n).

End Str.

(* ===================================================================== *)
(** ** JavaScript values and results *)

Module JS.

(** The scalar values of JavaScript this program handles.  Numbers are
    the integers (identifiers, epoch milliseconds). *)
Inductive JVal : Type :=
| JUndefined
| JNull
| JBool (b : bool)
| JNum (n : Z)
| JStr (s : string).

#[global] Instance JVal_eq_dec : EqDecision JVal.
Proof. solve_decision. Defined.

(** [${v}] inside a template literal: [ToString]. *)
Definition toStr (v : JVal) : string :=
  match v with
  | JUndefined => "undefined"
  | JNull => "null"
  | JBool true => "true"
  | JBool false => "false"
  | JNum n => Str.of_Z n
  | JStr s => s
  end.

(** [!!v]: [ToBoolean]. *)
Definition truthy (v : JVal) : bool :=
  match v with
  | JUndefined | JNull => false
  | JBool b => b
  | JNum n => negb (n =? 0)
  | JStr s => negb (String.eqb s EmptyString)
  end.

(** An [Error] object: its constructor and its [message]. *)
Inductive ErrorKind : Type := PlainError | TypeError.

Record Exn : Type := { kind : ErrorKind; message : string }.

Definition Error (msg : string) : Exn := {| kind := PlainError; message := msg |}.
Definition TypeErr (msg : string) : Exn := {| kind := TypeError; message := msg |}.

(** Outcome of a call that may throw, or of an awaited promise. *)
Inductive Result (A : Type) : Type :=
| Ok (v : A)
| Throw (e : Exn).
Arguments Ok {A} v.
Arguments Throw {A} e.

Definition is_ok {A} (r : Result A) : bool :=
  match r with Ok _ => true | Throw _ => false end.

(** Evaluation in program order: what follows a throwing step is not
    evaluated. *)
Definition and_then {A B} (r : Result A) (k : A -> Result B) : Result B :=
  match r with
  | Ok v => k v
  | Throw e => Throw e
  end.

Declare Scope result_scope.
Delimit Scope result_scope with R.
Notation "x <- m ;; k" := (and_then m (fun x => k))
  (at level 100, m at next level, right associativity) : result_scope.

(** A plain object used as a record of named fields. *)
Abbreviation Obj := (gmap string JVal).

(** [o.k] on a plain object without that own property is [undefined]
    (none of the field names read by this program is inherited). *)
Definition data_get (o : Obj) (k : string) : JVal := default JUndefined (o !! k).

End JS.
Export JS.

(* ===================================================================== *)
(** ** White space and [parseInt] *)

Module Text.

(** Number of bytes of the white-space character (ECMAScript [WhiteSpace]
    or [LineTerminator], the class of [\s] and of [trim]) that starts the
    string, 0 when it starts with none.  The characters are TAB, LF, VT,
    FF, CR, SP, U+00A0, U+1680, U+2000..U+200A, U+2028, U+2029, U+202F,
    U+205F, U+3000 and U+FEFF, in their UTF-8 encoding. *)
Definition ws_len (s : string) : nat :=
  match s with
  | EmptyString => 0%nat
  | String a r =>
    let c := nat_of_ascii a in
    if ((9 <=? c) && (c <=? 13))%nat || (c =? 32)%nat then 1%nat
    else match r with
    | EmptyString => 0%nat
    | String b r' =>
      let d := nat_of_ascii b in
      if ((c =? 194) && (d =? 160))%nat then 2%nat
      else match r' with
      | EmptyString => 0%nat
      | String e _ =>
        let f := nat_of_ascii e in
        if ((c =? 225) && (d =? 154) && (f =? 128))%nat then 3%nat
        else if ((c =? 226) && (d =? 128) &&
                 (((128 <=? f) && (f <=? 138)) || (f =? 168) || (f =? 169) || (f =? 175)))%nat
             then 3%nat
        else if ((c =? 226) && (d =? 129) && (f =? 159))%nat then 3%nat
        else if ((c =? 227) && (d =? 128) && (f =? 128))%nat then 3%nat
        else if ((c =? 239) && (d =? 187) && (f =? 191))%nat then 3%nat
        else 0%nat
      end
    end
  end.

(** Drops [n] bytes. *)
Fixpoint drop_bytes (n : nat) (s : string) : string :=
  match n, s with
  | O, _ => s
  | S n', String _ r => drop_bytes n' r
  | S _, EmptyString => EmptyString
  end.

(** Skips leading white space; the fuel is the length of the string. *)
Fixpoint skip_ws_fuel (fuel : nat) (s : string) : string :=
  match fuel with
  | O => s
  | S fuel' =>
    match ws_len s with
    | O => s
    | n => skip_ws_fuel fuel' (drop_bytes n s)
    end
  end.

Definition skip_ws (s : string) : string := skip_ws_fuel (String.length s) s.

(** Value of a digit in the given radix. *)
Definition digit_val (radix : Z) (a : ascii) : option Z :=
  let c := Z.of_nat (nat_of_ascii a) in
  let v := if (48 <=? c) && (c <=? 57) then Some (c - 48)
           else if (97 <=? c) && (c <=? 122) then Some (c - 87)
           else if (65 <=? c) && (c <=? 90) then Some (c - 55)
           else None in
  match v with
  | Some d => if d <? radix then Some d else None
  | None => None
  end.

(** The longest prefix of digits, read in the radix; [None] when there is
    no digit. *)
Fixpoint read_digits (radix : Z) (acc : option Z) (s : string) : option Z :=
  match s with
  | EmptyString => acc
  | String a r =>
    match digit_val radix a with
    | Some d => read_digits radix (Some (default 0 acc * radix + d)) r
    | None => acc
    end
  end.

(** [parseInt(s)] with no radix argument; [None] is NaN.  (The result is
    the mathematical value; JavaScript rounds it to a double above 2^53.) *)
Definition parseInt (s : string) : option Z :=
  let s := skip_ws s in
  let '(neg, s) :=
    match s with
    | String "-" r => (true, r)
    | String "+" r => (false, r)
    | _ => (false, s)
    end in
  let '(radix, s) :=
    match s with
    | String "0" (String "x" r) => (16, r)
    | String "0" (String "X" r) => (16, r)
    | _ => (10, s)
    end in
  match read_digits radix None s with
  | Some n => Some (if neg then - n else n)
  | None => None
  end.

End Text.

(* ===================================================================== *)
(** ** [config/email.js] *)

Module EmailConfig.

(** [process.env]: a variable is a string or absent. *)
Abbreviation Env := (gmap string string).

Record t : Type := {
  provider : string;
  fromAddress : string;
  gmailUser : option string;
  gmailAppPassword : option string;
  smtpHost : option string;
  smtpPort : Z;
  smtpUser : option string;
  smtpPassword : option string;
  smtpSecure : bool;
  retryAttempts : Z
}.

(** [process.env.K || dflt]: absent and the empty string are falsy. *)
Definition env_or (env : Env) (k dflt : string) : string :=
  match env !! k with
  | Some s => if String.eqb s EmptyString then dflt else s
  | None => dflt
  end.

(** [parseInt(process.env.K) || dflt]: NaN and 0 are falsy.  An absent
    variable is [parseInt(undefined)], which is NaN. *)
Definition env_int_or (env : Env) (k : string) (dflt : Z) : Z :=
  match env !! k with
  | Some s =>
    match Text.parseInt s with
    | Some n => if n =? 0 then dflt else n
    | None => dflt
    end
  | None => dflt
  end.

(** [module.exports] of config/email.js. *)
Definition load (env : Env) : t := {|
  provider := env_or env "EMAIL_PROVIDER" "mock";
  fromAddress := env_or env "EMAIL_FROM" "noreply@scheduling-app.com";
  gmailUser := env !! "GMAIL_USER";
  gmailAppPassword := env !! "GMAIL_APP_PASSWORD";
  smtpHost := env !! "SMTP_HOST";
  smtpPort := env_int_or env "SMTP_PORT" 587;
  smtpUser := env !! "SMTP_USER";
  smtpPassword := env !! "SMTP_PASS";
  smtpSecure := bool_decide (env !! "SMTP_SECURE" = Some "true");
  retryAttempts := env_int_or env "EMAIL_RETRY_ATTEMPTS" 3
|}.

(** [!v] for a configuration string that may be absent. *)
Definition missing (v : option string) : bool :=
  match v with
  | Some s => String.eqb s EmptyString
  | None => true
  end.

End EmailConfig.

(* ===================================================================== *)
(** ** The host: what the Node.js process reads from its surroundings *)

(** [Date.parse], [Date.prototype.toLocaleString] and [Date.now] depend on
    the process (engine, ICU locale, time zone, clock); they are fields of
    the host a function runs on. *)
Record Host : Type := {
  dateParse : string -> option Z;        (* [Date.parse(s)]; [None] is NaN *)
  toLocaleString : Z -> string;          (* of a valid time value *)
  dateNow : Z                            (* [Date.now()] *)
}.

(** [new Date(v)] as a time value; [None] is an Invalid Date. *)
Definition newDate (h : Host) (v : JVal) : option Z :=
  match v with
  | JUndefined => None
  | JNull => Some 0
  | JBool b => Some (if b then 1 else 0)
  | JNum n => if Z.abs n <=? 8640000000000000 then Some n else None
  | JStr s => dateParse h s
  end.

(** [d.toLocaleString()]; an invalid date prints as "Invalid Date" on
    every host. *)
Definition dateToLocaleString (h : Host) (d : option Z) : string :=
  match d with
  | None => "Invalid Date"
  | Some t => toLocaleString h t
  end.

(* ===================================================================== *)
(** ** [services/emailService.js] *)

Module EmailService.

Import Str.

(** The options given to [nodemailer.createTransport]. *)
Inductive Transport : Type :=
| Gmail (user pass : string)
| Smtp (host : string) (port : Z) (secure : bool) (user pass : string).

(** *** Job data *)

(** The [data] of a job, and what a template returns from it: any value
    [JSON.parse] can give (bull stores a job as JSON), or [undefined] for
    a property that is absent.  [PDouble] is a number other than the
    integers [JNum] stands for (a fraction, a magnitude JavaScript prints
    with an exponent): all this program does with a number is print it
    and make a date of it, so it is given by what it prints as and by its
    time value.  The fields of an object are its own properties; a value
    born from JSON is never a function. *)
#[warnings="-register-all"] Inductive Payload : Type :=
| PScalar (v : JVal)
| PDouble (shown : string) (time : option Z)
| PArray (items : list Payload)
| PRecord (fields : gmap string Payload).

Coercion PScalar : JVal >-> Payload.

(** An object literal whose properties hold scalars, as the producers of
    this repository build them. *)
Definition PObj (o : Obj) : Payload := PRecord (PScalar <$> o).

(** Structural induction, through the elements of an array. *)
Fixpoint Payload_induction (P : Payload -> Prop)
    (scalar : forall v, P (PScalar v))
    (double : forall shown time, P (PDouble shown time))
    (array : forall items, Forall P items -> P (PArray items))
    (record : forall fields, P (PRecord fields))
    (v : Payload) : P v :=
  match v with
  | PScalar s => scalar s
  | PDouble shown time => double shown time
  | PArray items =>
    array items
      ((fix all (l : list Payload) : Forall P l :=
          match l with
          | [] => @List.Forall_nil Payload P
          | x :: rest =>
            @List.Forall_cons Payload P x rest
              (Payload_induction P scalar double array record x) (all rest)
          end) items)
  | PRecord fields => record fields
  end.

(** [data.k].  None of the property names this program reads is
    inherited (by an object from [Object.prototype], by an array, or by
    the wrapper of a boolean, number or string), so the read finds an own
    property of an object or gives [undefined]. *)
Definition prop (data : Payload) (k : string) : Payload :=
  match data with
  | PRecord fields => default (PScalar JUndefined) (fields !! k)
  | _ => PScalar JUndefined
  end.

Definition unprintable : Exn := TypeErr "Cannot convert object to primitive value".

(** [${v}], [String(v)] and the conversion of a property key: [ToString].
    An array prints its elements separated by commas, [null] and
    [undefined] among them as nothing ([Array.prototype.join]).  An
    object is asked for its [toString] and [valueOf]: without an own
    property [toString] it finds [Object.prototype.toString]; with one,
    which is not a function, neither method gives a primitive and the
    conversion throws. *)
Fixpoint ToString (v : Payload) : Result string :=
  match v with
  | PScalar s => Ok (toStr s)
  | PDouble shown _ => Ok shown
  | PArray items =>
    (fix join (l : list Payload) : Result string :=
       let element x :=
         match x with
         | PScalar JUndefined | PScalar JNull => Ok EmptyString
         | _ => ToString x
         end in
       match l with
       | [] => Ok EmptyString
       | [x] => element x
       | x :: rest =>
         (s <- element x ;; r <- join rest ;; Ok (s ++ "," ++ r))%R
       end) items
  | PRecord fields =>
    if bool_decide (is_Some (fields !! "toString")) then Throw unprintable
    else Ok "[object Object]"
  end.

(** [new Date(v)]: a scalar as [newDate] reads it; an object or array is
    made a primitive first, which gives the string [Date.parse] reads. *)
Definition newDateOf (h : Host) (v : Payload) : Result (option Z) :=
  match v with
  | PScalar s => Ok (newDate h s)
  | PDouble _ time => Ok time
  | _ => (s <- ToString v ;; Ok (dateParse h s))%R
  end.

(** [new Date(v).toLocaleString()]. *)
Definition newDate_toLocaleString (h : Host) (v : Payload) : Result string :=
  (d <- newDateOf h v ;; Ok (dateToLocaleString h d))%R.

(** *** The transport *)

(** The message object given to [transporter.sendMail]. *)
Record Mail : Type := {
  mail_from : string;
  mail_to : string;
  mail_subject : Payload;
  mail_html : Payload;
  mail_text : string
}.

(** The mail server behind a transporter: what [sendMail] and [verify]
    answer.  [sendMail] fulfils with [info], of which [info.messageId] is
    read. *)
Record Network : Type := {
  sendMail : Transport -> Mail -> Result string;
  verify : Transport -> Result unit
}.

(** What the service does to the outside, in program order. *)
Inductive Event : Type :=
| SetTimeout (ms : Z)
| ConsoleLog (line : string)
| ConsoleError (line : string)
| CreateTransport (t : Transport)
| CallSendMail (t : Transport) (m : Mail)
| CallVerify (t : Transport).

(** An effectful computation: the events it emitted and how it ended. *)
Definition IO (A : Type) : Type := list Event * Result A.

Definition ret {A} (v : A) : IO A := ([], Ok v).
Definition throw {A} (e : Exn) : IO A := ([], Throw e).
Definition emit (ev : Event) : IO unit := ([ev], Ok tt).
Definition lift {A} (r : Result A) : IO A := ([], r).
Definition bind {A B} (m : IO A) (k : A -> IO B) : IO B :=
  match m with
  | (evs, Ok v) => let '(evs', r) := k v in (app evs evs', r)
  | (evs, Throw e) => (evs, Throw e)
  end.

Declare Scope io_scope.
Delimit Scope io_scope with io.
Notation "x <- m ;; k" := (bind m (fun x => k))
  (at level 100, m at next level, right associativity) : io_scope.
Notation "m ;;; k" := (bind m (fun _ => k))
  (at level 100, right associativity) : io_scope.

(** *** createTransporter *)

Definition createTransporter (cfg : EmailConfig.t) : Result (option Transport) :=
  if String.eqb (EmailConfig.provider cfg) "gmail" then
    if EmailConfig.missing (EmailConfig.gmailUser cfg)
       || EmailConfig.missing (EmailConfig.gmailAppPassword cfg)
    then Throw (Error "Gmail provider requires GMAIL_USER and GMAIL_APP_PASSWORD in .env")
    else Ok (Some (Gmail (default EmptyString (EmailConfig.gmailUser cfg))
                         (default EmptyString (EmailConfig.gmailAppPassword cfg))))
  else if String.eqb (EmailConfig.provider cfg) "smtp" then
    if EmailConfig.missing (EmailConfig.smtpHost cfg)
       || EmailConfig.missing (EmailConfig.smtpUser cfg)
       || EmailConfig.missing (EmailConfig.smtpPassword cfg)
    then Throw (Error "SMTP provider requires SMTP_HOST, SMTP_USER, and SMTP_PASS in .env")
    else Ok (Some (Smtp (default EmptyString (EmailConfig.smtpHost cfg))
                        (EmailConfig.smtpPort cfg)
                        (EmailConfig.smtpSecure cfg)
                        (default EmptyString (EmailConfig.smtpUser cfg))
                        (default EmptyString (EmailConfig.smtpPassword cfg))))
  else (* case 'mock': default: *) Ok None.

(** *** Templates *)

(** A template body whose first property read is [data.first]: on
    [undefined] or [null] that read throws, otherwise the object literal
    is evaluated. *)
Definition reading {A} (data : Payload) (first : string) (body : Result A) : Result A :=
  match data with
  | PScalar JUndefined =>
    Throw (TypeErr (cat ["Cannot read properties of undefined (reading '"; first; "')"]))
  | PScalar JNull =>
    Throw (TypeErr (cat ["Cannot read properties of null (reading '"; first; "')"]))
  | _ => body
  end.

(** The object a template returns. *)
Record Rendered : Type := { subject : Payload; html : Payload }.

(* The values a template literal prints are converted first, in the order
   the literal meets them; a conversion has no effect other than throwing,
   so a value printed twice is converted once here. *)

Definition BOOKING_CONFIRMATION (h : Host) (data : Payload) : Result Rendered :=
  reading data "title"
  (title <- ToString (prop data "title") ;;
   bookingId <- ToString (prop data "bookingId") ;;
   start_date <- newDate_toLocaleString h (prop data "start") ;;
   end_date <- newDate_toLocaleString h (prop data "end") ;;
   Ok {| subject := JStr (cat ["✅ Booking Confirmed: "; dq; title; dq]);
         html := JStr (cat [
       nl;
       "            <div style="; dq; "font-family: sans-serif; max-width: 600px; margin: auto; border: 1px solid #e0e0e0; border-radius: 8px; overflow: hidden;"; dq; ">"; nl;
       "                <div style="; dq; "background:#2563eb; padding: 24px; color: white;"; dq; ">"; nl;
       "                    <h1 style="; dq; "margin:0; font-size:22px;"; dq; ">📅 Booking Confirmed</h1>"; nl;
       "                </div>"; nl;
       "                <div style="; dq; "padding: 24px;"; dq; ">"; nl;
       "                    <p>Hi there!</p>"; nl;
       "                    <p>Your booking <strong>"; dq; title; dq; "</strong> has been confirmed.</p>"; nl;
       "                    <table style="; dq; "width:100%; border-collapse:collapse; margin:16px 0;"; dq; ">"; nl;
       "                        <tr style="; dq; "background:#f3f4f6;"; dq; ">"; nl;
       "                            <td style="; dq; "padding:10px; font-weight:bold;"; dq; ">Booking ID</td>"; nl;
       "                            <td style="; dq; "padding:10px;"; dq; ">#"; bookingId; "</td>"; nl;
       "                        </tr>"; nl;
       "                        <tr>"; nl;
       "                            <td style="; dq; "padding:10px; font-weight:bold;"; dq; ">Start</td>"; nl;
       "                            <td style="; dq; "padding:10px;"; dq; ">"; start_date; "</td>"; nl;
       "                        </tr>"; nl;
       "                        <tr style="; dq; "background:#f3f4f6;"; dq; ">"; nl;
       "                            <td style="; dq; "padding:10px; font-weight:bold;"; dq; ">End</td>"; nl;
       "                            <td style="; dq; "padding:10px;"; dq; ">"; end_date; "</td>"; nl;
       "                        </tr>"; nl;
       "                    </table>"; nl;
       "                    <p style="; dq; "color:#6b7280; font-size:14px;"; dq; ">Thank you for using our scheduling system!</p>"; nl;
       "                </div>"; nl;
       "            </div>"; nl;
       "        "]) |})%R.

Definition BOOKING_CANCELLED (h : Host) (data : Payload) : Result Rendered :=
  reading data "title"
  (title <- ToString (prop data "title") ;;
   bookingId <- ToString (prop data "bookingId") ;;
   Ok {| subject := JStr (cat ["❌ Booking Cancelled: "; dq; title; dq]);
         html := JStr (cat [
       nl;
       "            <div style="; dq; "font-family: sans-serif; max-width: 600px; margin: auto; border: 1px solid #e0e0e0; border-radius: 8px; overflow: hidden;"; dq; ">"; nl;
       "                <div style="; dq; "background:#dc2626; padding: 24px; color: white;"; dq; ">"; nl;
       "                    <h1 style="; dq; "margin:0; font-size:22px;"; dq; ">🚫 Booking Cancelled</h1>"; nl;
       "                </div>"; nl;
       "                <div style="; dq; "padding: 24px;"; dq; ">"; nl;
       "                    <p>Hi there,</p>"; nl;
       "                    <p>Your booking <strong>"; dq; title; dq; "</strong> (ID: #"; bookingId; ") has been cancelled.</p>"; nl;
       "                    <p>If this was a mistake, you can create a new booking at any time.</p>"; nl;
       "                    <p style="; dq; "color:#6b7280; font-size:14px;"; dq; ">Scheduling App Team</p>"; nl;
       "                </div>"; nl;
       "            </div>"; nl;
       "        "]) |})%R.

Definition WELCOME (h : Host) (data : Payload) : Result Rendered :=
  reading data "name"
  (name <- ToString (prop data "name") ;;
   Ok {| subject := JStr (cat ["👋 Welcome to Scheduling App, "; name; "!"]);
         html := JStr (cat [
       nl;
       "            <div style="; dq; "font-family: sans-serif; max-width: 600px; margin: auto; border: 1px solid #e0e0e0; border-radius: 8px; overflow: hidden;"; dq; ">"; nl;
       "                <div style="; dq; "background:#16a34a; padding: 24px; color: white;"; dq; ">"; nl;
       "                    <h1 style="; dq; "margin:0; font-size:22px;"; dq; ">Welcome aboard! 🎉</h1>"; nl;
       "                </div>"; nl;
       "                <div style="; dq; "padding: 24px;"; dq; ">"; nl;
       "                    <p>Hi <strong>"; name; "</strong>!</p>"; nl;
       "                    <p>Your account has been created successfully. You can now create bookings, join organizations, and more.</p>"; nl;
       "                    <p style="; dq; "color:#6b7280; font-size:14px;"; dq; ">Scheduling App Team</p>"; nl;
       "                </div>"; nl;
       "            </div>"; nl;
       "        "]) |})%R.

Definition ORG_INVITE (h : Host) (data : Payload) : Result Rendered :=
  reading data "orgName"
  (orgName <- ToString (prop data "orgName") ;;
   role <- ToString (prop data "role") ;;
   Ok {| subject := JStr (cat ["🏢 You've been added to "; dq; orgName; dq]);
         html := JStr (cat [
       nl;
       "            <div style="; dq; "font-family: sans-serif; max-width: 600px; margin: auto; border: 1px solid #e0e0e0; border-radius: 8px; overflow: hidden;"; dq; ">"; nl;
       "                <div style="; dq; "background:#7c3aed; padding: 24px; color: white;"; dq; ">"; nl;
       "                    <h1 style="; dq; "margin:0; font-size:22px;"; dq; ">🏢 Organization Invite</h1>"; nl;
       "                </div>"; nl;
       "                <div style="; dq; "padding: 24px;"; dq; ">"; nl;
       "                    <p>Hi there!</p>"; nl;
       "                    <p>You've been added as a <strong>"; role; "</strong> to the organization <strong>"; dq; orgName; dq; "</strong>.</p>"; nl;
       "                    <p style="; dq; "color:#6b7280; font-size:14px;"; dq; ">Scheduling App Team</p>"; nl;
       "                </div>"; nl;
       "            </div>"; nl;
       "        "]) |})%R.

(** The own properties of [templates], in the order of [Object.keys]. *)
Definition templates : list (string * (Host -> Payload -> Result Rendered)) :=
  [ ("BOOKING_CONFIRMATION", BOOKING_CONFIRMATION);
    ("BOOKING_CANCELLED", BOOKING_CANCELLED);
    ("WELCOME", WELCOME);
    ("ORG_INVITE", ORG_INVITE) ].

Definition template_keys : list string := map fst templates.

Definition is_registered (type : string) : bool :=
  bool_decide (type ∈ template_keys).

(** [templates] is an object literal, so its prototype is
    [Object.prototype]: these names are found through the prototype chain
    and are functions. *)
Definition object_prototype_functions : list string :=
  [ "constructor"; "__defineGetter__"; "__defineSetter__"; "hasOwnProperty";
    "__lookupGetter__"; "__lookupSetter__"; "isPrototypeOf";
    "propertyIsEnumerable"; "toString"; "valueOf"; "toLocaleString" ].

(** The value of [templates[type]]. *)
Inductive Member : Type :=
| OwnTemplate (f : Host -> Payload -> Result Rendered)
| ProtoFunction (name : string)
| ProtoObject                       (* [templates.__proto__] is [Object.prototype] *)
| NoMember.                         (* [undefined] *)

Fixpoint assoc {A} (k : string) (l : list (string * A)) : option A :=
  match l with
  | [] => None
  | (k', v) :: l' => if String.eqb k k' then Some v else assoc k l'
  end.

Definition lookup (type : string) : Member :=
  match assoc type templates with
  | Some f => OwnTemplate f
  | None =>
    if bool_decide (type ∈ object_prototype_functions) then ProtoFunction type
    else if String.eqb type "__proto__" then ProtoObject
    else NoMember
  end.

(** [!templateFn]. *)
Definition falsy (m : Member) : bool :=
  match m with NoMember => true | _ => false end.

(** [const { subject, html } = templateFn(data)].  An inherited function
    is called with [this] undefined: [Object(data)] gives back the object
    (or a wrapper without these properties), [toString] gives the string
    "[object Undefined]", [isPrototypeOf] gives [false] for a primitive,
    [hasOwnProperty] and [propertyIsEnumerable] convert their argument to
    a property key first, and all but the first two fail converting
    [this] to an object. *)
Definition call_member (m : Member) (h : Host) (data : Payload) : Result Rendered :=
  match m with
  | OwnTemplate f => f h data
  | ProtoFunction name =>
    if String.eqb name "constructor" then
      Ok {| subject := prop data "subject"; html := prop data "html" |}
    else if String.eqb name "toString" then
      Ok {| subject := JUndefined; html := JUndefined |}
    else if String.eqb name "isPrototypeOf" then
      match data with
      | PScalar _ | PDouble _ _ => Ok {| subject := JUndefined; html := JUndefined |}
      | PArray _ | PRecord _ => Throw (TypeErr "Cannot convert undefined or null to object")
      end
    else if String.eqb name "hasOwnProperty" || String.eqb name "propertyIsEnumerable" then
      (_ <- ToString data ;;
       Throw (TypeErr "Cannot convert undefined or null to object"))%R
    else if String.eqb name "toLocaleString" then
      Throw (TypeErr "Object.prototype.toLocaleString called on null or undefined")
    else Throw (TypeErr "Cannot convert undefined or null to object")
  | ProtoObject => Throw (TypeErr "templateFn is not a function")
  | NoMember => Throw (TypeErr "templateFn is not a function")
  end.

(** *** toPlainText *)

(** [s.replace(/<[^>]+>/g, '')].  The pair is the result for [s] and, when
    [s] contains a [>], the result for what follows the first one. *)
Fixpoint strip_tags_aux (s : string) : string * option string :=
  match s with
  | EmptyString => (EmptyString, None)
  | String c r =>
    let '(sr, tr) := strip_tags_aux r in
    let kept := String c sr in
    let here :=
      if Ascii.eqb c "<" then
        match r with
        | String ">" _ => kept
        | _ => default kept tr
        end
      else kept in
    (here, if Ascii.eqb c ">" then Some sr else tr)
  end.

Definition strip_tags (s : string) : string := fst (strip_tags_aux s).

(** [s.replace(/\s+/g, ' ')]; the fuel is the length of the string. *)
Fixpoint collapse_ws_fuel (fuel : nat) (in_run : bool) (s : string) : string :=
  match fuel with
  | O => EmptyString
  | S fuel' =>
    match s with
    | EmptyString => EmptyString
    | String c r =>
      match Text.ws_len s with
      | O => String c (collapse_ws_fuel fuel' false r)
      | n =>
        let rest := collapse_ws_fuel fuel' true (Text.drop_bytes n s) in
        if in_run then rest else String " " rest
      end
    end
  end.

Definition collapse_ws (s : string) : string :=
  collapse_ws_fuel (String.length s) false s.

(** [s.trim()]. *)
Fixpoint trim_end (s : string) : string :=
  match s with
  | EmptyString => EmptyString
  | String c r =>
    if String.eqb (Text.skip_ws s) EmptyString then EmptyString else String c (trim_end r)
  end.

Definition trim (s : string) : string := trim_end (Text.skip_ws s).

(** [toPlainText(html)]: [html.replace] exists on strings only. *)
Definition toPlainText (html : Payload) : Result string :=
  match html with
  | PScalar (JStr s) => Ok (trim (collapse_ws (strip_tags s)))
  | PScalar JUndefined =>
    Throw (TypeErr "Cannot read properties of undefined (reading 'replace')")
  | PScalar JNull =>
    Throw (TypeErr "Cannot read properties of null (reading 'replace')")
  | _ => Throw (TypeErr "html.replace is not a function")
  end.

(** *** send *)

(** The object [send] resolves with. *)
Record SendResult : Type := {
  success : bool;
  provider : string;
  messageId : string
}.

Definition join_comma (l : list string) : string := String.concat ", " l.

Definition send (h : Host) (net : Network) (cfg : EmailConfig.t)
    (to type : string) (data : Payload) : IO SendResult :=
  let templateFn := lookup type in
  if falsy templateFn then
    throw (Error (cat ["Unknown email type: "; dq; type; dq; ". Available: ";
                       join_comma template_keys]))
  else
  (r <- lift (call_member templateFn h data) ;;
   if String.eqb (EmailConfig.provider cfg) "mock" then
     (* --- MOCK MODE --- *)
     emit (SetTimeout 500) ;;;
     emit (ConsoleLog (cat [nl; "  📧 [MOCK EMAIL]"])) ;;;
     emit (ConsoleLog (cat ["     To      : "; to])) ;;;
     printed <- lift (ToString (subject r)) ;;
     emit (ConsoleLog (cat ["     Subject : "; printed])) ;;;
     emit (ConsoleLog (cat ["     Type    : "; type])) ;;;
     emit (ConsoleLog (cat ["     (Set EMAIL_PROVIDER=gmail in .env to send real emails)"; nl])) ;;;
     ret {| success := true; provider := "mock";
            messageId := cat ["mock-"; of_Z (dateNow h)] |}
   else
     (* --- REAL SEND (Gmail or SMTP) --- *)
     transporter <- lift (createTransporter cfg) ;;
     match transporter with
     | None => throw (TypeErr "Cannot read properties of null (reading 'sendMail')")
     | Some t =>
       emit (CreateTransport t) ;;;
       text <- lift (toPlainText (html r)) ;;
       let mail := {| mail_from := cat [dq; "Scheduling App"; dq; " <";
                                        EmailConfig.fromAddress cfg; ">"];
                      mail_to := to;
                      mail_subject := subject r;
                      mail_html := html r;
                      mail_text := text |} in
       emit (CallSendMail t mail) ;;;
       info_messageId <- lift (sendMail net t mail) ;;
       emit (ConsoleLog (cat ["  📧 Email sent to "; to; " | MessageId: "; info_messageId])) ;;;
       ret {| success := true; provider := EmailConfig.provider cfg;
              messageId := info_messageId |}
     end)%io.

(** *** verifyConnection *)

(** [emailConfig.provider.toUpperCase()], evaluated only once a
    transporter exists, that is for 'gmail' and 'smtp'. *)
Definition provider_upper (t : Transport) : string :=
  match t with
  | Gmail _ _ => "GMAIL"
  | Smtp _ _ _ _ _ => "SMTP"
  end.

Definition connection_failed (cfg : EmailConfig.t) (e : Exn) : Event :=
  ConsoleError (cat ["  ❌ Email Service: Connection failed (";
                     EmailConfig.provider cfg; "): "; message e]).

(** The promise [verifyConnection()] returns always fulfils: the body
    after the mock test is inside [try], and its [catch] only logs. *)
Definition verifyConnection (net : Network) (cfg : EmailConfig.t) : IO unit :=
  if String.eqb (EmailConfig.provider cfg) "mock" then
    emit (ConsoleLog "  📧 Email Service: MOCK mode (console only)")
  else
    let attempt : IO unit :=
      (transporter <- lift (createTransporter cfg) ;;
       match transporter with
       | None => throw (TypeErr "Cannot read properties of null (reading 'verify')")
       | Some t =>
         emit (CreateTransport t) ;;;
         emit (CallVerify t) ;;;
         lift (verify net t) ;;;
         emit (ConsoleLog (cat ["  ✅ Email Service: Connected via "; provider_upper t]))
       end)%io in
    match attempt with
    | (evs, Ok _) => (evs, Ok tt)
    | (evs, Throw err) => (app evs [connection_failed cfg err], Ok tt)
    end.

End EmailService.

(* ===================================================================== *)
(** ** [workers/emailQueue.js] and the queue behind it *)

Module EmailQueue.

(** The [data] of an e-mail job: [{ email, type, data }], of which [data]
    is the payload given to the template. *)
Record JobData : Type := {
  email : string;
  type : string;
  data : EmailService.Payload
}.

(* The broker is the bull package, a dependency whose code is not part of
   the repository: emailQueue.js only constructs the queue, the routes call
   [add] and worker.js calls [process].  What the queue does with a job is
   therefore modelled from the spec (§3, §4.1 to §4.3), under the names
   bull gives to the spec's notions. *)

(** Modelled from the spec: the backoff policy input, missing from the
    repository: a base interval doubled per attempt and bounded by a
    maximum (spec §4.3). *)
Record Backoff : Type := { base : Z; maximum : Z }.

(** Modelled from the spec: the policy inputs a job can be given, missing
    from the repository: [max_attempts] (bull's [attempts] option) and the
    backoff (spec §3, §6).  Both are optional, in a call of [add] and in
    the queue's [defaultJobOptions]. *)
Record JobOptions : Type := {
  attempts : option Z;
  backoff : option Backoff
}.

(** A call of [add] without its second argument. *)
Definition no_options : JobOptions := {| attempts := None; backoff := None |}.

(** [new Redis(process.env.REDIS_URL, redisConfig)]. *)
Record RedisClient : Type := {
  url : option string;
  maxRetriesPerRequest : option Z;       (* [null] *)
  enableReadyCheck : bool;
  tls_rejectUnauthorized : bool
}.

Definition redisConfig (redis_url : option string) : RedisClient := {|
  url := redis_url;
  maxRetriesPerRequest := None;
  enableReadyCheck := false;
  tls_rejectUnauthorized := false
|}.

(** The second argument of [new Queue('emails', ...)]: the source gives
    [createClient] and nothing else; in particular no [defaultJobOptions]. *)
Record QueueOptions : Type := {
  createClient : string -> RedisClient;
  defaultJobOptions : option JobOptions
}.

(** The three connections bull asks for, and any other, are built
    alike. *)
Definition emailQueue_options (redis_url : option string) : QueueOptions := {|
  createClient := fun type =>
    if String.eqb type "client" then redisConfig redis_url
    else if String.eqb type "subscriber" then redisConfig redis_url
    else if String.eqb type "bclient" then redisConfig redis_url
    else redisConfig redis_url;
  defaultJobOptions := None
|}.

(** Modelled from the spec: the status of a Job Envelope (spec §3), missing
    from the repository, under the names bull gives them: PENDING is
    [Waiting] (or [Delayed] while a backoff delay runs), IN_FLIGHT is
    [Active], FAILED_PERMANENT is [Failed]. *)
Inductive Status : Type :=
| Waiting
| Delayed (ms : Z)
| Active
| Completed
| Failed.

#[global] Instance Status_eq_dec : EqDecision Status.
Proof. solve_decision. Defined.

(** Modelled from the spec: the Job Envelope (spec §3), missing from the
    repository.  [attemptsMade] is the spec's [attempt_count] (the name
    worker.js reads it by), [job_data] holds its type, payload and target. *)
Record Job : Type := {
  id : Z;
  job_data : JobData;
  max_attempts : Z;
  job_backoff : option Backoff;
  attemptsMade : Z;
  status : Status
}.

(** Modelled from the spec: the number of attempts of a job for which
    neither the call of [add] nor the queue's [defaultJobOptions] names one,
    missing from the repository.  The spec calls [max_attempts] a
    configuration input and gives no value for a queue that was not
    configured; the value is bull's default, a single attempt. *)
Definition unconfigured_attempts : Z := 1.

(** Modelled from the spec: how the options of a job are found, missing
    from the repository: an option named in the call of [add] wins over the
    queue's default. *)
Definition effective {A} (field : JobOptions -> option A)
    (qopts : QueueOptions) (opts : JobOptions) : option A :=
  match field opts with
  | Some v => Some v
  | None =>
    match defaultJobOptions qopts with
    | Some d => field d
    | None => None
    end
  end.

(** Modelled from the spec: the Broker's store (spec §2), missing from
    the repository: the options the queue was constructed with, the next
    identifier and the jobs, oldest first. *)
Record Queue : Type := {
  options : QueueOptions;
  next_id : Z;
  jobs : list Job
}.

(** [new Queue('emails', { createClient })], before any job is added. *)
Definition emailQueue (redis_url : option string) : Queue :=
  {| options := emailQueue_options redis_url; next_id := 1; jobs := [] |}.

(** Modelled from the spec: [enqueue] (spec §4.1), bull's
    [queue.add(data, opts)], missing from the repository: a new envelope
    with status PENDING and [attempt_count] 0, behind the jobs already
    there. *)
Definition add_with (q : Queue) (d : JobData) (opts : JobOptions) : Queue :=
  let j := {| id := next_id q;
              job_data := d;
              max_attempts := default unconfigured_attempts
                                (effective attempts (options q) opts);
              job_backoff := effective backoff (options q) opts;
              attemptsMade := 0;
              status := Waiting |} in
  {| options := options q; next_id := next_id q + 1; jobs := jobs q ++ [j] |}.

(** [emailQueue.add({ email, type, data })]: every producer of the
    repository calls [add] with the data alone. *)
Definition add (q : Queue) (d : JobData) : Queue := add_with q d no_options.

(** Modelled from the spec: the backoff delay before a failed job becomes
    claimable again (spec §4.3: base × 2^attempt, bounded by a maximum),
    missing from the repository; a job without a backoff option is retried
    without delay. *)
Definition backoff_delay (b : option Backoff) (attempt : Z) : Z :=
  match b with
  | None => 0
  | Some b => Z.min (maximum b) (base b * 2 ^ attempt)
  end.

(** Modelled from the spec: [ack] and [nack] (spec §4.1, §4.3), missing
    from the repository, applied to the outcome of the handler: success
    completes the job; a failure increments [attempt_count], and the job is
    retried while it is below [max_attempts], permanently failed
    otherwise. *)
Definition settle {A} (j : Job) (r : Result A) : Job :=
  match r with
  | Ok _ =>
    {| id := id j; job_data := job_data j; max_attempts := max_attempts j;
       job_backoff := job_backoff j; attemptsMade := attemptsMade j;
       status := Completed |}
  | Throw _ =>
    let made := attemptsMade j + 1 in
    {| id := id j; job_data := job_data j; max_attempts := max_attempts j;
       job_backoff := job_backoff j; attemptsMade := made;
       status := if made <? max_attempts j
                 then (let d := backoff_delay (job_backoff j) made in
                       if 0 <? d then Delayed d else Waiting)
                 else Failed |}
  end.

(** Modelled from the spec: [claim] (spec §4.1), missing from the
    repository: the oldest PENDING envelope, taken out of the pool. *)
Fixpoint claim (js : list Job) : option (Job * list Job) :=
  match js with
  | [] => None
  | j :: rest =>
    if bool_decide (status j = Waiting) then Some (j, rest)
    else match claim rest with
         | Some (c, rest') => Some (c, j :: rest')
         | None => None
         end
  end.

(** Modelled from the spec: the end of a backoff delay (spec §4.3),
    missing from the repository: the job is claimable again. *)
Definition promote (j : Job) : Job :=
  match status j with
  | Delayed _ =>
    {| id := id j; job_data := job_data j; max_attempts := max_attempts j;
       job_backoff := job_backoff j; attemptsMade := attemptsMade j;
       status := Waiting |}
  | _ => j
  end.

End EmailQueue.

(* ===================================================================== *)
(** ** [worker.js] *)

Module Worker.

Import Str EmailService EmailQueue.

(** What the worker process does to the outside. *)
Inductive WEvent : Type :=
| Service (e : EmailService.Event)
| RegisterProcessor                    (* [emailQueue.process(...)] *)
| RegisterListener (event : string)    (* [emailQueue.on(event, ...)] *)
| ProcessExit (code : Z).

(** The callback given to [emailQueue.process]. *)
Definition processor (h : Host) (net : Network) (cfg : EmailConfig.t)
    (job : Job) : IO SendResult :=
  (let d := job_data job in
   emit (ConsoleLog (cat ["  [Job #"; of_Z (id job); "] Processing: "; type d;
                          " → "; email d])) ;;;
   result <- send h net cfg (email d) (type d) (data d) ;;
   emit (ConsoleLog (cat ["  [Job #"; of_Z (id job); "] ✅ Done (provider: ";
                          provider result; ", id: "; messageId result; ")"])) ;;;
   ret result)%io.

(** The listeners for 'completed' and 'failed', called with the settled
    job. *)
Definition listener {A} (j : Job) (r : Result A) : list Event :=
  match r with
  | Ok _ => [ConsoleLog (cat ["  [Job #"; of_Z (id j); "] ✅ Completed"])]
  | Throw err =>
    [ConsoleError (cat ["  [Job #"; of_Z (id j); "] ❌ Failed (attempt ";
                        of_Z (attemptsMade j); "): "; message err])]
  end.

(** Modelled from the spec: one turn of the worker loop (spec §4.2), which
    runs inside bull and is missing from the repository: claim the oldest
    waiting job, run the handler, settle the job, call the listener and put
    the job back behind the others.  The result lists the events and names
    the job handled; [None] when no job is waiting. *)
Definition step_with {A} (handler : Job -> IO A) (q : Queue)
    : option (Queue * list Event * Job) :=
  match claim (jobs q) with
  | None => None
  | Some (j, rest) =>
    let '(evs, r) := handler j in
    let j' := settle j r in
    Some ({| options := options q; next_id := next_id q; jobs := rest ++ [j'] |},
          app evs (listener j' r), j')
  end.

(** One turn of the worker loop with the processor of worker.js. *)
Definition step (h : Host) (net : Network) (cfg : EmailConfig.t) (q : Queue) :=
  step_with (processor h net cfg) q.

(** Modelled from the spec: the attempts of one job until it is settled
    for good (spec §4.2, §4.3), missing from the repository: the handler is
    run, and run again while the job is retried (after its delay).  The
    result is the job at the end and the number of handler calls made. *)
Fixpoint attempts_of {A} (fuel : nat) (handler : Job -> IO A) (j : Job) : Job * nat :=
  match fuel with
  | O => (j, O)
  | S fuel' =>
    match status j with
    | Completed | Failed | Active => (j, O)
    | Waiting | Delayed _ =>
      let j' := settle (promote j) (snd (handler (promote j))) in
      let '(j'', n) := attempts_of fuel' handler j' in
      (j'', S n)
    end
  end.

(** The events of [verifyConnection()] up to its [await], and after it:
    the call is not awaited, so the script goes on at the [await]. *)
Fixpoint until_await (evs : list Event) : list Event * list Event :=
  match evs with
  | [] => ([], [])
  | CallVerify t :: rest => ([CallVerify t], rest)
  | e :: rest => let '(a, b) := until_await rest in (e :: a, b)
  end.

(** The script of worker.js, from its first line to the idle process. *)
Definition main (net : Network) (cfg : EmailConfig.t) : list WEvent :=
  let '(sync, later) := until_await (fst (verifyConnection net cfg)) in
  [Service (ConsoleLog (cat [nl; "👷 Background Worker Started..."]))]
  ++ map Service sync
  ++ [Service (ConsoleLog (cat ["   Listening for jobs in the queue..."; nl]));
      RegisterProcessor;
      RegisterListener "completed";
      RegisterListener "failed";
      RegisterListener "error"]
  ++ map Service later.

(** The worker has started its job-processing loop. *)
Definition processing (evs : list WEvent) : bool :=
  existsb (fun e => match e with RegisterProcessor => true | _ => false end) evs.

(** The worker process has ended. *)
Definition exited (evs : list WEvent) : bool :=
  existsb (fun e => match e with ProcessExit _ => true | _ => false end) evs.

End Worker.

(* ===================================================================== *)
(** ** [models/bookingModel.js] and [models/notificationModel.js] *)

Module Models.

Import Str.

(** A row of [bookings] (db/init.sql). *)
Record Booking : Type := {
  b_id : Z;
  b_user_id : Z;
  b_title : string;
  b_start_time : JVal;
  b_end_time : JVal;
  b_status : string;
  b_created_at : Z;
  b_updated_at : Z
}.

(** A row of [notifications]. *)
Record Notification : Type := {
  n_id : Z;
  n_user_id : Z;
  n_type : string;
  n_title : string;
  n_message : string;
  n_metadata : string;
  n_is_read : bool;
  n_created_at : Z
}.

(** The two tables the booking routes write, with their SERIAL counters. *)
Record Db : Type := {
  bookings : gmap Z Booking;
  next_booking_id : Z;
  notifications : list Notification;
  next_notification_id : Z
}.

(** What the PostgreSQL server decides and this model of the tables does
    not: whether a query is executed at all (the server is reachable, no
    constraint on another table rejects it), how it reads parameters into
    column types ([None]: the value is rejected and the query fails), and
    its clock. *)
Record Pg : Type := {
  booking_query_ok : bool;
  notification_query_ok : bool;
  int4_in : string -> option Z;
  varchar255_in : JVal -> option string;
  timestamp_in : JVal -> option JVal;
  current_timestamp : Z
}.

Definition query_error : Exn := Error "query failed".

(** [BookingModel.create]: INSERT INTO bookings (user_id, title,
    start_time, end_time) VALUES ($1, $2, $3, $4) RETURNING *. *)
Definition BookingModel_create (pg : Pg) (db : Db) (userId : Z)
    (title startTime endTime : JVal) : Result (Db * Booking) :=
  if negb (booking_query_ok pg) then Throw query_error else
  match varchar255_in pg title, timestamp_in pg startTime, timestamp_in pg endTime with
  | Some t, Some s, Some e =>
    let row := {| b_id := next_booking_id db;
                  b_user_id := userId;
                  b_title := t;
                  b_start_time := s;
                  b_end_time := e;
                  b_status := "confirmed";
                  b_created_at := current_timestamp pg;
                  b_updated_at := current_timestamp pg |} in
    Ok ({| bookings := <[ b_id row := row ]> (bookings db);
           next_booking_id := next_booking_id db + 1;
           notifications := notifications db;
           next_notification_id := next_notification_id db |}, row)
  | _, _, _ => Throw query_error
  end.

(** The WHERE clause of [cancel]: id = $1 AND user_id = $2 AND
    status != 'cancelled'. *)
Definition cancellable (b : Booking) (userId : Z) : bool :=
  (b_user_id b =? userId) && negb (String.eqb (b_status b) "cancelled").

(** [BookingModel.cancel]: UPDATE bookings SET status = 'cancelled',
    updated_at = CURRENT_TIMESTAMP WHERE ... RETURNING *; the result is
    [rows[0]], [None] standing for [undefined]. *)
Definition BookingModel_cancel (pg : Pg) (db : Db) (bookingId : string)
    (userId : Z) : Result (Db * option Booking) :=
  if negb (booking_query_ok pg) then Throw query_error else
  match int4_in pg bookingId with
  | None => Throw query_error
  | Some key =>
    match bookings db !! key with
    | Some b =>
      if cancellable b userId then
        let row := {| b_id := b_id b;
                      b_user_id := b_user_id b;
                      b_title := b_title b;
                      b_start_time := b_start_time b;
                      b_end_time := b_end_time b;
                      b_status := "cancelled";
                      b_created_at := b_created_at b;
                      b_updated_at := current_timestamp pg |} in
        Ok ({| bookings := <[ key := row ]> (bookings db);
               next_booking_id := next_booking_id db;
               notifications := notifications db;
               next_notification_id := next_notification_id db |}, Some row)
      else Ok (db, None)
    | None => Ok (db, None)
    end
  end.

(** [NotificationModel.create]: INSERT INTO notifications (user_id, type,
    title, message, metadata) VALUES (...) RETURNING *. *)
Definition NotificationModel_create (pg : Pg) (db : Db) (userId : Z)
    (type title message metadata : string) : Result (Db * Notification) :=
  if negb (notification_query_ok pg) then Throw query_error else
  match varchar255_in pg (JStr title) with
  | None => Throw query_error
  | Some t =>
    let row := {| n_id := next_notification_id db;
                  n_user_id := userId;
                  n_type := type;
                  n_title := t;
                  n_message := message;
                  n_metadata := metadata;
                  n_is_read := false;
                  n_created_at := current_timestamp pg |} in
    Ok ({| bookings := bookings db;
           next_booking_id := next_booking_id db;
           notifications := notifications db ++ [row];
           next_notification_id := next_notification_id db + 1 |}, row)
  end.

End Models.

(* ===================================================================== *)
(** ** [routes/bookings.js]: the two producer routes *)

Module BookingRoutes.

Import Str Models EmailService EmailQueue.

(** An authenticated request: [req.user] (set by authMiddleware from the
    token), [req.body] and [req.params.id]. *)
Record Request : Type := {
  user_id : Z;
  user_email : string;
  body : Obj;
  params_id : string
}.

(** [res.status(code).json(...)]. *)
Inductive Json : Type :=
| JsonError (error : string)
| JsonBooking (message : string) (booking : Booking).

Record Response : Type := { code : Z; json : Json }.

(** The status code of a handler's answer. *)
Definition fst_code {W} (r : Response * W) : Z := code (fst r).

(** What a handler does to PostgreSQL, to the queue and to the console, in
    program order. *)
Inductive REvent : Type :=
| BookingInserted (b : Booking)            (* BookingModel.create resolved *)
| BookingCancelled (b : Booking)           (* BookingModel.cancel resolved with a row *)
| BookingQueryRejected                     (* the awaited booking query rejected *)
| NothingCancelled                         (* BookingModel.cancel resolved with undefined *)
| Enqueued (d : JobData)                   (* emailQueue.add *)
| NotificationInserted (n : Notification)  (* NotificationModel.create resolved *)
| NotificationQueryRejected
| LoggedError (e : Exn).                   (* console.error(err) in catch *)

(** The state shared by the handlers: the database, the e-mail queue and
    the events so far. *)
Record World : Type := {
  db : Db;
  queue : Queue;
  trace : list REvent
}.

(** A handler body: it reads and changes the world and either produces a
    value or throws ([await] of a rejected promise). *)
Definition Handler (A : Type) : Type := World -> Result A * World.

Definition ret {A} (v : A) : Handler A := fun w => (Ok v, w).

Definition bind {A B} (m : Handler A) (k : A -> Handler B) : Handler B :=
  fun w =>
    match m w with
    | (Ok v, w1) => k v w1
    | (Throw e, w1) => (Throw e, w1)
    end.

Declare Scope handler_scope.
Delimit Scope handler_scope with handler.
Notation "x <- m ;; k" := (bind m (fun x => k))
  (at level 100, m at next level, right associativity) : handler_scope.
Notation "m ;;; k" := (bind m (fun _ => k))
  (at level 100, right associativity) : handler_scope.

Definition record (ev : REvent) (w : World) : World :=
  {| db := db w; queue := queue w; trace := trace w ++ [ev] |}.

Definition with_db (d : Db) (w : World) : World :=
  {| db := d; queue := queue w; trace := trace w |}.

(** [await BookingModel.create(...)]. *)
Definition await_create (pg : Pg) (userId : Z) (title start end_ : JVal)
    : Handler Booking :=
  fun w =>
    match BookingModel_create pg (db w) userId title start end_ with
    | Ok (d, b) => (Ok b, record (BookingInserted b) (with_db d w))
    | Throw e => (Throw e, record BookingQueryRejected w)
    end.

(** [await BookingModel.cancel(...)]. *)
Definition await_cancel (pg : Pg) (bookingId : string) (userId : Z)
    : Handler (option Booking) :=
  fun w =>
    match BookingModel_cancel pg (db w) bookingId userId with
    | Ok (d, Some b) => (Ok (Some b), record (BookingCancelled b) (with_db d w))
    | Ok (d, None) => (Ok None, record NothingCancelled (with_db d w))
    | Throw e => (Throw e, record BookingQueryRejected w)
    end.

(** [await NotificationModel.create(...)]. *)
Definition await_notify (pg : Pg) (userId : Z) (type title message metadata : string)
    : Handler Notification :=
  fun w =>
    match NotificationModel_create pg (db w) userId type title message metadata with
    | Ok (d, n) => (Ok n, record (NotificationInserted n) (with_db d w))
    | Throw e => (Throw e, record NotificationQueryRejected w)
    end.

(** [emailQueue.add(job)]; the promise it returns is not awaited. *)
Definition emailQueue_add (job : JobData) : Handler unit :=
  fun w =>
    (Ok tt, record (Enqueued job)
              {| db := db w; queue := add (queue w) job; trace := trace w |}).

Definition server_error : Response := {| code := 500; json := JsonError "Server error" |}.

Definition status_json (c : Z) (msg : string) : Handler Response :=
  ret {| code := c; json := JsonError msg |}.

(** [try { ... } catch (err) { console.error(err); res.status(500)... }]. *)
Definition try_catch (body : Handler Response) (w : World) : Response * World :=
  match body w with
  | (Ok r, w1) => (r, w1)
  | (Throw err, w1) => (server_error, record (LoggedError err) w1)
  end.

(** [a < b] and [a <= b] on two dates; a comparison with an invalid date
    is false. *)
Definition date_lt (a b : option Z) : bool :=
  match a, b with
  | Some x, Some y => x <? y
  | _, _ => false
  end.

Definition date_le (a b : option Z) : bool :=
  match a, b with
  | Some x, Some y => x <=? y
  | _, _ => false
  end.

(** [isNaN(d.getTime())]. *)
Definition invalid_date (d : option Z) : bool :=
  match d with Some _ => false | None => true end.

(** [JSON.stringify({ booking_id: id })]. *)
Definition booking_metadata (key : Z) : string :=
  cat ["{"; dq; "booking_id"; dq; ":"; of_Z key; "}"].

(** [router.post('/', authMiddleware, ...)]. *)
Definition post_booking (h : Host) (pg : Pg) (req : Request) (w : World)
    : Response * World :=
  try_catch
  (let title := data_get (body req) "title" in
   let start := data_get (body req) "start" in
   let end_ := data_get (body req) "end" in
   (* 1. Basic validation *)
   if negb (truthy title) || negb (truthy start) || negb (truthy end_) then
     status_json 400 "Title, start, and end are required"
   else
   (* 2. Date validation *)
   let startDate := newDate h start in
   let endDate := newDate h end_ in
   let now := Some (dateNow h) in
   if invalid_date startDate || invalid_date endDate then
     status_json 400 "Invalid date format"
   else if date_lt startDate now then
     status_json 400 "Start time cannot be in the past"
   else if date_le endDate startDate then
     status_json 400 "End time must be after start time"
   else
   (* 3. Save to DB *)
   (booking <- await_create pg (user_id req) title start end_ ;;
    (* 4. Dispatch background e-mail job *)
    emailQueue_add
      {| email := user_email req;
         type := "BOOKING_CONFIRMATION";
         data := PObj (<[ "bookingId" := JNum (b_id booking) ]>
                      (<[ "title" := JStr (b_title booking) ]>
                      (<[ "start" := b_start_time booking ]>
                      (<[ "end" := b_end_time booking ]> ∅)))) |} ;;;
    (* 5. Create a notification for the user *)
    await_notify pg (user_id req) "BOOKING_CONFIRMED"
      (cat ["Booking "; dq; toStr title; dq; " confirmed"])
      (cat ["Your booking is scheduled from "; dateToLocaleString h startDate;
            " to "; dateToLocaleString h endDate; "."])
      (booking_metadata (b_id booking)) ;;;
    (* 6. Respond *)
    ret {| code := 201; json := JsonBooking "Booking created successfully" booking |}
   )%handler) w.

(** [router.delete('/:id', authMiddleware, ...)]. *)
Definition delete_booking (pg : Pg) (req : Request) (w : World)
    : Response * World :=
  try_catch
  (cancelled <- await_cancel pg (params_id req) (user_id req) ;;
   match cancelled with
   | None => status_json 404 "Booking not found, not yours, or already cancelled"
   | Some cancelled =>
     emailQueue_add
       {| email := user_email req;
          type := "BOOKING_CANCELLED";
          data := PObj (<[ "bookingId" := JNum (b_id cancelled) ]>
                       (<[ "title" := JStr (b_title cancelled) ]> ∅)) |} ;;;
     await_notify pg (user_id req) "BOOKING_CANCELLED"
       (cat ["Booking "; dq; b_title cancelled; dq; " cancelled"])
       "Your booking has been successfully cancelled."
       (booking_metadata (b_id cancelled)) ;;;
     ret {| code := 200; json := JsonBooking "Booking cancelled successfully" cancelled |}
   end)%handler w.

End BookingRoutes.

(* ===================================================================== *)
(** ** Example hosts *)

(** Two Node.js processes that differ in their time zone only: both read
    ISO 8601 UTC date-times ("YYYY-MM-DDTHH:mm:ssZ") and print dates in the
    en-US style ("M/D/YYYY, h:mm:ss AM"), one in UTC and one in
    Africa/Nairobi (UTC+3, no daylight saving time). *)
Module Hosts.

Import Str.

(** Days since 1970-01-01 of a proleptic Gregorian date. *)
Definition days_from_civil (y m d : Z) : Z :=
  let y := if m <=? 2 then y - 1 else y in
  let era := y / 400 in
  let yoe := y - era * 400 in
  let doy := (153 * (if 2 <? m then m - 3 else m + 9) + 2) / 5 + d - 1 in
  let doe := yoe * 365 + yoe / 4 - yoe / 100 + doy in
  era * 146097 + doe - 719468.

(** The date of a day number: year, month, day. *)
Definition civil_from_days (z : Z) : Z * Z * Z :=
  let z := z + 719468 in
  let era := z / 146097 in
  let doe := z - era * 146097 in
  let yoe := (doe - doe / 1460 + doe / 36524 - doe / 146096) / 365 in
  let doy := doe - (365 * yoe + yoe / 4 - yoe / 100) in
  let mp := (5 * doy + 2) / 153 in
  let d := doy - (153 * mp + 2) / 5 + 1 in
  let m := if mp <? 10 then mp + 3 else mp - 9 in
  ((if m <=? 2 then yoe + era * 400 + 1 else yoe + era * 400), m, d).

(** The number written by a string of decimal digits only. *)
Fixpoint number (acc : Z) (s : string) : option Z :=
  match s with
  | EmptyString => Some acc
  | String a r =>
    match Text.digit_val 10 a with
    | Some d => number (acc * 10 + d) r
    | None => None
    end
  end.

Definition field (s : string) (pos len : nat) : option Z :=
  number 0 (String.substring pos len s).

Definition char_is (s : string) (pos : nat) (c : string) : bool :=
  String.eqb (String.substring pos 1 s) c.

(** [Date.parse] restricted to "YYYY-MM-DDTHH:mm:ssZ". *)
Definition parse_iso (s : string) : option Z :=
  if (String.length s =? 20)%nat && char_is s 4 "-" && char_is s 7 "-"
     && char_is s 10 "T" && char_is s 13 ":" && char_is s 16 ":" && char_is s 19 "Z"
  then
    match field s 0 4, field s 5 2, field s 8 2, field s 11 2, field s 14 2, field s 17 2 with
    | Some y, Some mo, Some d, Some hh, Some mi, Some ss =>
      if (1 <=? mo) && (mo <=? 12) && (1 <=? d) && (d <=? 31)
         && (hh <=? 23) && (mi <=? 59) && (ss <=? 59)
      then Some (days_from_civil y mo d * 86400000
                 + hh * 3600000 + mi * 60000 + ss * 1000)
      else None
    | _, _, _, _, _, _ => None
    end
  else None.

Definition two_digits (n : Z) : string :=
  if n <? 10 then cat ["0"; of_Z n] else of_Z n.

(** The en-US rendering of a time value in a zone at a fixed offset from
    UTC, given in minutes. *)
Definition format_en_US (offset_minutes : Z) (t : Z) : string :=
  let local := t + offset_minutes * 60000 in
  let '(y, m, d) := civil_from_days (local / 86400000) in
  let ms := local mod 86400000 in
  let hh := ms / 3600000 in
  let h12 := if hh mod 12 =? 0 then 12 else hh mod 12 in
  cat [of_Z m; "/"; of_Z d; "/"; of_Z y; ", ";
       of_Z h12; ":"; two_digits ((ms / 60000) mod 60); ":";
       two_digits ((ms / 1000) mod 60); " ";
       if hh <? 12 then "AM" else "PM"].

Definition utc : Host := {|
  dateParse := parse_iso;
  toLocaleString := format_en_US 0;
  dateNow := 1775034000000
|}.

Definition nairobi : Host := {|
  dateParse := parse_iso;
  toLocaleString := format_en_US 180;
  dateNow := 1775034000000
|}.

End Hosts.

(* ===================================================================== *)
(** ** Vocabulary of the properties *)

Module Props.

Import Str EmailService EmailQueue.

(** Rendering a job of the given type: [templates[type](data)]. *)
Definition render (h : Host) (type : string) (data : Payload) : Result Rendered :=
  call_member (lookup type) h data.

(** The subject of a rendering. *)
Definition subject_of (r : Result Rendered) : Result Payload :=
  match r with
  | Ok m => Ok (subject m)
  | Throw e => Throw e
  end.

(** Two hosts print the two dates of a payload alike. *)
Definition dates_agree (h1 h2 : Host) (data : Payload) : Prop :=
  newDate_toLocaleString h1 (prop data "start")
  = newDate_toLocaleString h2 (prop data "start")
  /\ newDate_toLocaleString h1 (prop data "end")
     = newDate_toLocaleString h2 (prop data "end").

(** The job carries a payload: [data] is neither [undefined] nor [null]
    (on those the first property read of a template throws). *)
Definition present (data : Payload) : bool :=
  match data with
  | PScalar JUndefined | PScalar JNull => false
  | _ => true
  end.

(** The properties of the payload the template of a registered type
    prints, in the order it prints them. *)
Definition printed_fields (type : string) : list string :=
  if String.eqb type "BOOKING_CONFIRMATION" then ["title"; "bookingId"; "start"; "end"]
  else if String.eqb type "BOOKING_CANCELLED" then ["title"; "bookingId"]
  else if String.eqb type "WELCOME" then ["name"]
  else if String.eqb type "ORG_INVITE" then ["orgName"; "role"]
  else [].

(** The template of the type can print the payload: the job carries one,
    and each property the template prints converts to a string. *)
Definition printable (type : string) (data : Payload) : bool :=
  present data
  && forallb (fun k => is_ok (ToString (prop data k))) (printed_fields type).

(** The events that reach a mail server. *)
Definition touches_network (e : Event) : bool :=
  match e with
  | CreateTransport _ | CallSendMail _ _ | CallVerify _ => true
  | _ => false
  end.

(** The messages handed to a transporter. *)
Fixpoint deliveries (evs : list Event) : list (Transport * Mail) :=
  match evs with
  | [] => []
  | CallSendMail t m :: rest => (t, m) :: deliveries rest
  | _ :: rest => deliveries rest
  end.

(** The error of [send] for a type without template. *)
Definition unknown_type_error (type : string) : Exn :=
  Error (cat ["Unknown email type: "; dq; type; dq; ". Available: ";
              "BOOKING_CONFIRMATION, BOOKING_CANCELLED, WELCOME, ORG_INVITE"]).

(** The result of [send] in mock mode. *)
Definition mock_result (h : Host) : SendResult :=
  {| success := true; provider := "mock";
     messageId := cat ["mock-"; of_Z (dateNow h)] |}.

(** A mail server that accepts every message. *)
Definition accepting : Network :=
  {| sendMail := fun _ _ => Ok "<1@scheduling-app.com>"; verify := fun _ => Ok tt |}.

(** A mail server that cannot be reached. *)
Definition unreachable : Network :=
  {| sendMail := fun _ _ => Throw (Error "connect ECONNREFUSED");
     verify := fun _ => Throw (Error "connect ECONNREFUSED") |}.

(** The configuration of a process started without any variable set, and
    of one that selects Gmail without credentials. *)
Definition default_config : EmailConfig.t := EmailConfig.load ∅.

Definition gmail_without_credentials : EmailConfig.t :=
  EmailConfig.load {[ "EMAIL_PROVIDER" := "gmail" ]}.

Definition gmail_config : EmailConfig.t :=
  EmailConfig.load (<[ "EMAIL_PROVIDER" := "gmail" ]>
                   (<[ "GMAIL_USER" := "app@gmail.com" ]>
                   {[ "GMAIL_APP_PASSWORD" := "abcd efgh ijkl mnop" ]})).

(** The payload of the happy-path scenario of the spec. *)
Definition standup : Payload :=
  PObj (<[ "title" := JStr "Standup" ]> (<[ "start" := JStr "2026-04-01T09:00:00Z" ]> ∅)).

(** The subject the BOOKING_CONFIRMATION template gives that payload. *)
Definition standup_subject : string :=
  cat ["✅ Booking Confirmed: "; dq; "Standup"; dq].

(** The job of the happy-path scenario. *)
Definition standup_job : JobData :=
  {| email := "a@example.com"; type := "BOOKING_CONFIRMATION"; data := standup |}.

(** The jobs enqueued by a sequence of route events. *)
Fixpoint enqueued (evs : list BookingRoutes.REvent) : list JobData :=
  match evs with
  | [] => []
  | BookingRoutes.Enqueued d :: rest => d :: enqueued rest
  | _ :: rest => enqueued rest
  end.

(** Among the events, one before position [i] is a booking write that
    resolved (an insertion or a cancellation). *)
Definition committed_before (evs : list BookingRoutes.REvent) (i : nat) : Prop :=
  exists k b, (k < i)%nat
    /\ (evs !! k = Some (BookingRoutes.BookingInserted b)
        \/ evs !! k = Some (BookingRoutes.BookingCancelled b)).

(** The job a route enqueues for a booking. *)
Definition confirmation_job (to : string) (b : Models.Booking) : JobData :=
  {| email := to;
     type := "BOOKING_CONFIRMATION";
     data := PObj (<[ "bookingId" := JNum (Models.b_id b) ]>
                  (<[ "title" := JStr (Models.b_title b) ]>
                  (<[ "start" := Models.b_start_time b ]>
                  (<[ "end" := Models.b_end_time b ]> ∅)))) |}.

Definition cancellation_job (to : string) (b : Models.Booking) : JobData :=
  {| email := to;
     type := "BOOKING_CANCELLED";
     data := PObj (<[ "bookingId" := JNum (Models.b_id b) ]>
                  (<[ "title" := JStr (Models.b_title b) ]> ∅)) |}.

(** A PostgreSQL server that executes every query, reads decimal
    integers, keeps strings of at most 255 bytes and takes every
    timestamp as it is written. *)
Definition pg_up : Models.Pg := {|
  Models.booking_query_ok := true;
  Models.notification_query_ok := true;
  Models.int4_in := fun s => Hosts.number 0 s;
  Models.varchar255_in := fun v =>
    if (String.length (toStr v) <=? 255)%nat then Some (toStr v) else None;
  Models.timestamp_in := fun v => Some v;
  Models.current_timestamp := 1775034000000
|}.

(** The same server, unreachable. *)
Definition pg_down : Models.Pg := {|
  Models.booking_query_ok := false;
  Models.notification_query_ok := false;
  Models.int4_in := fun s => Hosts.number 0 s;
  Models.varchar255_in := fun v => Some (toStr v);
  Models.timestamp_in := fun v => Some v;
  Models.current_timestamp := 1775034000000
|}.

(** A booking of user 7 that is already cancelled, alone in the table. *)
Definition cancelled_booking : Models.Booking := {|
  Models.b_id := 1; Models.b_user_id := 7; Models.b_title := "Standup";
  Models.b_start_time := JStr "2026-04-01T09:00:00Z";
  Models.b_end_time := JStr "2026-04-01T09:30:00Z";
  Models.b_status := "cancelled";
  Models.b_created_at := 1775000000000; Models.b_updated_at := 1775000000000
|}.

Definition world_with (b : Models.Booking) : BookingRoutes.World := {|
  BookingRoutes.db := {| Models.bookings := {[ Models.b_id b := b ]};
                         Models.next_booking_id := Models.b_id b + 1;
                         Models.notifications := [];
                         Models.next_notification_id := 1 |};
  BookingRoutes.queue := emailQueue (Some "rediss://queue");
  BookingRoutes.trace := []
|}.

(** Requests of user 7: cancel booking 1; create a booking for tomorrow;
    create one in the past. *)
Definition cancel_request : BookingRoutes.Request := {|
  BookingRoutes.user_id := 7; BookingRoutes.user_email := "a@example.com";
  BookingRoutes.body := ∅; BookingRoutes.params_id := "1"
|}.

Definition create_request (start end_ : string) : BookingRoutes.Request := {|
  BookingRoutes.user_id := 7; BookingRoutes.user_email := "a@example.com";
  BookingRoutes.body := <[ "title" := JStr "Standup" ]>
                       (<[ "start" := JStr start ]> (<[ "end" := JStr end_ ]> ∅));
  BookingRoutes.params_id := EmptyString
|}.

(** A job of a type no template exists for: each attempt fails. *)
Definition unsupported_job : JobData :=
  {| email := "a@example.com"; type := "PASSWORD_RESET"; data := PObj ∅ |}.

(** The job as [add] creates it in the empty queue, and as a failed and a
    completed attempt leave it. *)
Definition fresh (d : JobData) : Job :=
  {| id := 1; job_data := d; max_attempts := 1; job_backoff := None;
     attemptsMade := 0; status := Waiting |}.

Definition failed_once (d : JobData) : Job :=
  {| id := 1; job_data := d; max_attempts := 1; job_backoff := None;
     attemptsMade := 1; status := Failed |}.

Definition completed (d : JobData) : Job :=
  {| id := 1; job_data := d; max_attempts := 1; job_backoff := None;
     attemptsMade := 0; status := Completed |}.

End Props.

(* ===================================================================== *)
(** ** Further vocabulary *)

Module Vocab.

Import Str EmailService.

(** The string contains the character. *)
Fixpoint contains_char (c : ascii) (s : string) : bool :=
  match s with
  | EmptyString => false
  | String a r => Ascii.eqb a c || contains_char c r
  end.

(** Some position of the string matches [<[^>]+>]: a [<], then at least
    one character other than [>], then a [>]. *)
Fixpoint has_tag (s : string) : bool :=
  match s with
  | EmptyString => false
  | String c r =>
    (Ascii.eqb c "<"
     && match r with
        | String d _ => negb (Ascii.eqb d ">")
        | EmptyString => false
        end
     && contains_char ">" r)
    || has_tag r
  end.

(** The provider names [createTransporter] and [send] know. *)
Definition known_provider (p : string) : bool :=
  String.eqb p "mock" || String.eqb p "gmail" || String.eqb p "smtp".

End Vocab.

(* ===================================================================== *)
(** ** [models/bookingModel.js]: the reads and [update] *)

Module BookingModel.

Import Models.

(** [BookingModel.findById]: SELECT * FROM bookings WHERE id = $1; the
    result is [rows[0]]. *)
Definition findById (pg : Pg) (d : Db) (bookingId : string) : Result (option Booking) :=
  if negb (booking_query_ok pg) then Throw query_error else
  match int4_in pg bookingId with
  | None => Throw query_error
  | Some key => Ok (bookings d !! key)
  end.

(** ORDER BY start_time DESC, for a list of rows: [order] gives the
    instant a stored timestamp denotes.  (Where two rows have the same
    instant SQL leaves their order open; here they keep the order of the
    table.) *)
Definition by_start_desc (order : JVal -> Z) (a b : Booking) : Prop :=
  order (b_start_time b) <= order (b_start_time a).

#[global] Instance by_start_desc_dec (order : JVal -> Z) (a b : Booking) :
  Decision (by_start_desc order a b).
Proof. unfold by_start_desc. apply _. Defined.

(** [BookingModel.findAllByUser]: SELECT * FROM bookings WHERE
    user_id = $1 ORDER BY start_time DESC. *)
Definition findAllByUser (pg : Pg) (order : JVal -> Z) (d : Db) (userId : Z)
    : Result (list Booking) :=
  if negb (booking_query_ok pg) then Throw query_error else
  Ok (merge_sort (by_start_desc order)
        (filter (fun b => b_user_id b = userId) (snd <$> map_to_list (bookings d)))).

(** A parameter of [update] for a NOT NULL column: [undefined] leaves the
    column out of the SET list; otherwise the value is assigned, which
    fails for [null] and for a value the column type rejects. *)
Definition assign {A} (read : JVal -> option A) (v : JVal) (old : A) : Result A :=
  match v with
  | JUndefined => Ok old
  | JNull => Throw query_error
  | _ => match read v with
         | Some x => Ok x
         | None => Throw query_error
         end
  end.

(** The timestamp parameters are read when the statement is bound, before
    any row is looked at. *)
Definition binds (pg : Pg) (v : JVal) : bool :=
  match v with
  | JUndefined | JNull => true
  | _ => bool_decide (is_Some (timestamp_in pg v))
  end.

(** [BookingModel.update]: with no field defined it returns [null]
    without a query; otherwise UPDATE bookings SET <the defined fields>,
    updated_at = CURRENT_TIMESTAMP WHERE id = $n AND user_id = $m
    RETURNING *, and the result is [rows[0]]. *)
Definition update (pg : Pg) (d : Db) (bookingId : string) (userId : Z)
    (title start end_ : JVal) : Result (Db * option Booking) :=
  if bool_decide (title = JUndefined) && bool_decide (start = JUndefined)
     && bool_decide (end_ = JUndefined)
  then Ok (d, None)
  else if negb (booking_query_ok pg) then Throw query_error
  else if negb (binds pg start && binds pg end_) then Throw query_error
  else
  match int4_in pg bookingId with
  | None => Throw query_error
  | Some key =>
    match bookings d !! key with
    | Some b =>
      if b_user_id b =? userId then
        match assign (varchar255_in pg) title (b_title b),
              assign (timestamp_in pg) start (b_start_time b),
              assign (timestamp_in pg) end_ (b_end_time b) with
        | Ok t, Ok s, Ok e =>
          let row := {| b_id := b_id b;
                        b_user_id := b_user_id b;
                        b_title := t;
                        b_start_time := s;
                        b_end_time := e;
                        b_status := b_status b;
                        b_created_at := b_created_at b;
                        b_updated_at := current_timestamp pg |} in
          Ok ({| bookings := <[ key := row ]> (bookings d);
                 next_booking_id := next_booking_id d;
                 notifications := notifications d;
                 next_notification_id := next_notification_id d |}, Some row)
        | _, _, _ => Throw query_error
        end
      else Ok (d, None)
    | None => Ok (d, None)
    end
  end.

End BookingModel.

(* ===================================================================== *)
(** ** [routes/bookings.js]: the list, view and update routes *)

Module BookingApi.

Import Str Models BookingRoutes.

(** What these routes answer: [res.status(code).json(body)]; [res.json]
    alone answers 200. *)
Inductive Body : Type :=
| BodyError (error : string)
| BodyBooking (booking : Booking)                         (* the row itself *)
| BodyMessage (message : string) (booking : Booking)
| BodyBookings (rows : list Booking).

Record Answer : Type := { status : Z; body_of : Body }.

Definition answer (c : Z) (b : Body) : Handler Answer :=
  fun w => (Ok {| status := c; body_of := b |}, w).

(** [try { ... } catch (err) { console.error(err); res.status(500)... }]. *)
Definition try_catch (body : Handler Answer) (w : World) : Answer * World :=
  match body w with
  | (Ok r, w1) => (r, w1)
  | (Throw err, w1) =>
    ({| status := 500; body_of := BodyError "Server error" |}, record (LoggedError err) w1)
  end.

(** [await] of a model call that reads: the database stays as it is. *)
Definition await_read {A} (q : Db -> Result A) : Handler A :=
  fun w =>
    match q (db w) with
    | Ok v => (Ok v, w)
    | Throw e => (Throw e, record BookingQueryRejected w)
    end.

(** [await BookingModel.update(...)]. *)
Definition await_update (pg : Pg) (bookingId : string) (userId : Z)
    (title start end_ : JVal) : Handler (option Booking) :=
  fun w =>
    match BookingModel.update pg (db w) bookingId userId title start end_ with
    | Ok (d, r) => (Ok r, with_db d w)
    | Throw e => (Throw e, record BookingQueryRejected w)
    end.

(** [router.get('/', authMiddleware, ...)]: list my bookings. *)
Definition get_bookings (pg : Pg) (order : JVal -> Z) (req : Request) (w : World)
    : Answer * World :=
  try_catch
  (bookings <- await_read (fun d => BookingModel.findAllByUser pg order d (user_id req)) ;;
   answer 200 (BodyBookings bookings))%handler w.

(** [router.get('/:id', authMiddleware, ...)]: view a single booking. *)
Definition get_booking (pg : Pg) (req : Request) (w : World) : Answer * World :=
  try_catch
  (booking <- await_read (fun d => BookingModel.findById pg d (params_id req)) ;;
   match booking with
   | None => answer 404 (BodyError "Booking not found")
   | Some booking =>
     if negb (b_user_id booking =? user_id req) then
       answer 403 (BodyError "Forbidden: Not your booking")
     else answer 200 (BodyBooking booking)
   end)%handler w.

(** [router.patch('/:id', authMiddleware, ...)]: update a booking. *)
Definition patch_booking (h : Host) (pg : Pg) (req : Request) (w : World)
    : Answer * World :=
  try_catch
  (let title := data_get (body req) "title" in
   let start := data_get (body req) "start" in
   let end_ := data_get (body req) "end" in
   if negb (truthy title) && negb (truthy start) && negb (truthy end_) then
     answer 400 (BodyError "Provide at least one field to update")
   else
   (* Validate dates if provided *)
   if truthy start && invalid_date (newDate h start) then
     answer 400 (BodyError "Invalid start date format")
   else if truthy start && date_lt (newDate h start) (Some (dateNow h)) then
     answer 400 (BodyError "Start time cannot be in the past")
   else if truthy end_ && truthy start && date_le (newDate h end_) (newDate h start) then
     answer 400 (BodyError "End time must be after start time")
   else
   (updated <- await_update pg (params_id req) (user_id req) title start end_ ;;
    match updated with
    | None => answer 404 (BodyError "Booking not found or not yours")
    | Some updated => answer 200 (BodyMessage "Booking updated successfully" updated)
    end)%handler) w.

(** A call of one of the five booking routes, with the host and the
    database server of the moment. *)
Inductive Call : Type :=
| POST (h : Host) (pg : Pg) (req : Request)
| GET_list (pg : Pg) (order : JVal -> Z) (req : Request)
| GET_one (pg : Pg) (req : Request)
| PATCH (h : Host) (pg : Pg) (req : Request)
| DELETE (pg : Pg) (req : Request).

(** The requester of a call. *)
Definition caller (c : Call) : Z :=
  match c with
  | POST _ _ req | GET_list _ _ req | GET_one _ req | PATCH _ _ req | DELETE _ req =>
    user_id req
  end.

(** The world after a call. *)
Definition after (c : Call) (w : World) : World :=
  match c with
  | POST h pg req => snd (post_booking h pg req w)
  | GET_list pg order req => snd (get_bookings pg order req w)
  | GET_one pg req => snd (get_booking pg req w)
  | PATCH h pg req => snd (patch_booking h pg req w)
  | DELETE pg req => snd (delete_booking pg req w)
  end.

(** The world after a sequence of calls. *)
Definition after_all (cs : list Call) (w : World) : World :=
  fold_left (fun w c => after c w) cs w.

(** The table is well formed: a row is stored under its own id, and the
    ids handed out are below the next value of the SERIAL counter. *)
Definition well_formed (d : Db) : Prop :=
  forall key b, bookings d !! key = Some b -> b_id b = key /\ key < next_booking_id d.

(** What a row may become through a call made by [who]: identity, owner
    and creation time stay, a cancelled row stays cancelled, and a row of
    somebody else stays as it is. *)
Definition evolves (who : Z) (b b' : Booking) : Prop :=
  b_id b' = b_id b /\ b_user_id b' = b_user_id b /\ b_created_at b' = b_created_at b
  /\ (b_status b = "cancelled" -> b_status b' = "cancelled")
  /\ (b_user_id b <> who -> b' = b).

(** The database after a call made by [who], against the database
    before: it is well formed, no id is taken back, every row is still
    there and evolved, and a new row is the one row the call created, for
    [who], with status 'confirmed'. *)
Definition db_step (who : Z) (d d' : Db) : Prop :=
  well_formed d'
  /\ next_booking_id d <= next_booking_id d'
  /\ (forall key b, bookings d !! key = Some b ->
        exists b', bookings d' !! key = Some b' /\ evolves who b b')
  /\ (forall key b', bookings d !! key = None -> bookings d' !! key = Some b' ->
        key = next_booking_id d /\ b_id b' = key /\ b_user_id b' = who
        /\ b_status b' = "confirmed").

End BookingApi.

(* ===================================================================== *)
(** ** [models/notificationModel.js]: reading, marking and deleting *)

(** The table is the list [notifications] of the database.  The order of
    the list stands for the order in which a scan meets the rows; SQL
    leaves it open, and it is used here only where SQL leaves the result
    open as well: among rows that ORDER BY does not tell apart, and for
    [rows[0]] of a RETURNING that has several rows. *)
Module NotificationModel.

Import Models.

(** The database with another notifications table. *)
Definition with_notifications (d : Db) (rows : list Notification) : Db :=
  {| bookings := bookings d;
     next_booking_id := next_booking_id d;
     notifications := rows;
     next_notification_id := next_notification_id d |}.

(** SET is_read = TRUE. *)
Definition read (n : Notification) : Notification :=
  {| n_id := n_id n;
     n_user_id := n_user_id n;
     n_type := n_type n;
     n_title := n_title n;
     n_message := n_message n;
     n_metadata := n_metadata n;
     n_is_read := true;
     n_created_at := n_created_at n |}.

(** WHERE user_id = $1. *)
Definition of_user (userId : Z) (n : Notification) : bool :=
  n_user_id n =? userId.

(** WHERE user_id = $1 AND is_read = FALSE. *)
Definition unread_of (userId : Z) (n : Notification) : bool :=
  (n_user_id n =? userId) && negb (n_is_read n).

(** WHERE id = $1 AND user_id = $2. *)
Definition is_row (key userId : Z) (n : Notification) : bool :=
  (n_id n =? key) && (n_user_id n =? userId).

(** ORDER BY created_at DESC: [a] may stand before [b]. *)
Definition newest_first (a b : Notification) : Prop :=
  n_created_at b <= n_created_at a.

#[global] Instance newest_first_dec (a b : Notification) : Decision (newest_first a b).
Proof. unfold newest_first. apply _. Defined.

(** ORDER BY is_read ASC, created_at DESC. *)
Definition unread_then_newest (a b : Notification) : Prop :=
  if bool_decide (n_is_read a = n_is_read b)
  then n_created_at b <= n_created_at a
  else n_is_read a = false.

#[global] Instance unread_then_newest_dec (a b : Notification) :
  Decision (unread_then_newest a b).
Proof. unfold unread_then_newest. destruct (bool_decide _); apply _. Defined.

(** The largest value of a bigint parameter. *)
Definition int8_max : Z := 9223372036854775807.

(** [findAllByUser(userId, limit)]: SELECT * FROM notifications WHERE
    user_id = $1 ORDER BY is_read ASC, created_at DESC LIMIT $2.  [limit]
    is an integer JavaScript number, sent in decimal and read as a bigint;
    PostgreSQL rejects one that is out of range and a negative LIMIT. *)
Definition findAllByUser (pg : Pg) (d : Db) (userId limit : Z)
    : Result (list Notification) :=
  if negb (notification_query_ok pg) then Throw query_error else
  if (limit <? 0) || (int8_max <? limit) then Throw query_error else
  Ok (take (Z.to_nat limit)
        (merge_sort unread_then_newest
           (filter (fun n => of_user userId n) (notifications d)))).

(** [findUnreadByUser(userId)]: SELECT * ... WHERE user_id = $1 AND
    is_read = FALSE ORDER BY created_at DESC. *)
Definition findUnreadByUser (pg : Pg) (d : Db) (userId : Z)
    : Result (list Notification) :=
  if negb (notification_query_ok pg) then Throw query_error else
  Ok (merge_sort newest_first
        (filter (fun n => unread_of userId n) (notifications d))).

(** [getUnreadCount(userId)]: SELECT the count of the rows, cast to
    int, WHERE user_id = $1 AND is_read = FALSE; the cast fails above the
    largest int4. *)
Definition getUnreadCount (pg : Pg) (d : Db) (userId : Z) : Result Z :=
  if negb (notification_query_ok pg) then Throw query_error else
  let count := Z.of_nat (List.length (filter (fun n => unread_of userId n) (notifications d))) in
  if 2147483647 <? count then Throw query_error else Ok count.

(** [markAsRead(notificationId, userId)]: UPDATE notifications SET
    is_read = TRUE WHERE id = $1 AND user_id = $2 RETURNING *; the result
    is [rows[0]], [None] standing for [undefined]. *)
Definition markAsRead (pg : Pg) (d : Db) (notificationId : string) (userId : Z)
    : Result (Db * option Notification) :=
  if negb (notification_query_ok pg) then Throw query_error else
  match int4_in pg notificationId with
  | None => Throw query_error
  | Some key =>
    Ok (with_notifications d
          ((fun n => if is_row key userId n then read n else n) <$> notifications d),
        head (read <$> filter (fun n => is_row key userId n) (notifications d)))
  end.

(** [markAllAsRead(userId)]: UPDATE ... SET is_read = TRUE WHERE
    user_id = $1 AND is_read = FALSE RETURNING id; the result is
    [rows.length]. *)
Definition markAllAsRead (pg : Pg) (d : Db) (userId : Z) : Result (Db * Z) :=
  if negb (notification_query_ok pg) then Throw query_error else
  Ok (with_notifications d
        ((fun n => if unread_of userId n then read n else n) <$> notifications d),
      Z.of_nat (List.length (filter (fun n => unread_of userId n) (notifications d)))).

(** [deleteById(notificationId, userId)]: DELETE FROM notifications WHERE
    id = $1 AND user_id = $2 RETURNING id; the result is [rows[0]], an
    object with the id. *)
Definition deleteById (pg : Pg) (d : Db) (notificationId : string) (userId : Z)
    : Result (Db * option Z) :=
  if negb (notification_query_ok pg) then Throw query_error else
  match int4_in pg notificationId with
  | None => Throw query_error
  | Some key =>
    Ok (with_notifications d
          (filter (fun n => negb (is_row key userId n)) (notifications d)),
        n_id <$> head (filter (fun n => is_row key userId n) (notifications d)))
  end.

End NotificationModel.

(* ===================================================================== *)
(** ** [routes/notifications.js] *)

Module NotificationRoutes.

Import Str Models BookingRoutes.

(** What the routes answer. *)
Inductive Body : Type :=
| NError (error : string)
| NRows (rows : list Notification)                           (* the array itself *)
| NUnread (unread : Z)
| NUpdated (message : string) (updated : Z)
| NMarked (message : string) (notification : Notification)
| NMessage (message : string).

Record Reply : Type := { reply_status : Z; reply_body : Body }.

Definition reply (c : Z) (b : Body) : Handler Reply :=
  fun w => (Ok {| reply_status := c; reply_body := b |}, w).

(** [try { ... } catch (err) { console.error(err); res.status(500)... }]. *)
Definition try_catch (body : Handler Reply) (w : World) : Reply * World :=
  match body w with
  | (Ok r, w1) => (r, w1)
  | (Throw err, w1) =>
    ({| reply_status := 500; reply_body := NError "Server error" |},
     record (LoggedError err) w1)
  end.

(** [await] of a model call that reads. *)
Definition await_read {A} (q : Db -> Result A) : Handler A :=
  fun w =>
    match q (db w) with
    | Ok v => (Ok v, w)
    | Throw e => (Throw e, record NotificationQueryRejected w)
    end.

(** [await] of a model call that writes. *)
Definition await_write {A} (q : Db -> Result (Db * A)) : Handler A :=
  fun w =>
    match q (db w) with
    | Ok (d, v) => (Ok v, with_db d w)
    | Throw e => (Throw e, record NotificationQueryRejected w)
    end.

(** [parseInt(req.query.limit) || 50]; [limit] is the text of
    [req.query.limit] ([parseInt] reads its argument as a string), [None]
    when the query has no such parameter. *)
Definition query_limit (limit : option string) : Z :=
  match limit with
  | Some s =>
    match Text.parseInt s with
    | Some n => if n =? 0 then 50 else n
    | None => 50
    end
  | None => 50
  end.

(** [router.get('/', ...)]: list all my notifications. *)
Definition get_notifications (pg : Pg) (limit : option string) (req : Request)
    (w : World) : Reply * World :=
  try_catch
  (let limit := query_limit limit in
   notifications <- await_read
     (fun d => NotificationModel.findAllByUser pg d (user_id req) limit) ;;
   reply 200 (NRows notifications))%handler w.

(** [router.get('/unread', ...)]. *)
Definition get_unread (pg : Pg) (req : Request) (w : World) : Reply * World :=
  try_catch
  (notifications <- await_read
     (fun d => NotificationModel.findUnreadByUser pg d (user_id req)) ;;
   reply 200 (NRows notifications))%handler w.

(** [router.get('/count', ...)]. *)
Definition get_count (pg : Pg) (req : Request) (w : World) : Reply * World :=
  try_catch
  (count <- await_read (fun d => NotificationModel.getUnreadCount pg d (user_id req)) ;;
   reply 200 (NUnread count))%handler w.

(** [router.patch('/read-all', ...)]. *)
Definition patch_read_all (pg : Pg) (req : Request) (w : World) : Reply * World :=
  try_catch
  (updatedCount <- await_write
     (fun d => NotificationModel.markAllAsRead pg d (user_id req)) ;;
   reply 200 (NUpdated "All notifications marked as read" updatedCount))%handler w.

(** [router.patch('/:id/read', ...)]. *)
Definition patch_read (pg : Pg) (req : Request) (w : World) : Reply * World :=
  try_catch
  (notification <- await_write
     (fun d => NotificationModel.markAsRead pg d (params_id req) (user_id req)) ;;
   match notification with
   | None => reply 404 (NError "Notification not found")
   | Some notification => reply 200 (NMarked "Notification marked as read" notification)
   end)%handler w.

(** [router.delete('/:id', ...)]. *)
Definition delete_notification (pg : Pg) (req : Request) (w : World) : Reply * World :=
  try_catch
  (deleted <- await_write
     (fun d => NotificationModel.deleteById pg d (params_id req) (user_id req)) ;;
   match deleted with
   | None => reply 404 (NError "Notification not found")
   | Some _ => reply 200 (NMessage "Notification deleted")
   end)%handler w.

End NotificationRoutes.

(* ===================================================================== *)
(** ** Calls of the booking and notification routes *)

Module Api.

Import Models BookingRoutes.

(** A call of one of the eleven routes. *)
Inductive Call : Type :=
| Bookings (c : BookingApi.Call)
| LIST (pg : Pg) (limit : option string) (req : Request)
| UNREAD (pg : Pg) (req : Request)
| COUNT (pg : Pg) (req : Request)
| READ_ALL (pg : Pg) (req : Request)
| READ (pg : Pg) (req : Request)
| DELETE (pg : Pg) (req : Request).

Definition caller (c : Call) : Z :=
  match c with
  | Bookings c => BookingApi.caller c
  | LIST _ _ req | UNREAD _ req | COUNT _ req | READ_ALL _ req | READ _ req
  | DELETE _ req => user_id req
  end.

Definition after (c : Call) (w : World) : World :=
  match c with
  | Bookings c => BookingApi.after c w
  | LIST pg limit req => snd (NotificationRoutes.get_notifications pg limit req w)
  | UNREAD pg req => snd (NotificationRoutes.get_unread pg req w)
  | COUNT pg req => snd (NotificationRoutes.get_count pg req w)
  | READ_ALL pg req => snd (NotificationRoutes.patch_read_all pg req w)
  | READ pg req => snd (NotificationRoutes.patch_read pg req w)
  | DELETE pg req => snd (NotificationRoutes.delete_notification pg req w)
  end.

Definition after_all (cs : list Call) (w : World) : World :=
  fold_left (fun w c => after c w) cs w.

(** The notification [n] is what a booking route called by [u] has
    written: the table [d'] is [d] with [n] added, [n] is unread, of type
    [ty], for [u], under the next id. *)
Definition written (ty : string) (u : Z) (d d' : Db) (n : Notification) : Prop :=
  notifications d' = (notifications d ++ [n])%list
  /\ n_user_id n = u /\ n_is_read n = false /\ n_type n = ty
  /\ n_id n = next_notification_id d.

End Api.

(* ===================================================================== *)
(** ** [middleware/authMiddleware.js] *)

Module AuthMiddleware.

Import Str.

(** [s.split(' ')]: the first element of the array and the others. *)
Fixpoint split_space (s : string) : string * list string :=
  match s with
  | EmptyString => (EmptyString, [])
  | String c r =>
    let '(seg, rest) := split_space r in
    if Ascii.eqb c " " then (EmptyString, seg :: rest) else (String c seg, rest)
  end.

(** The payload of a token, as [generateToken] of routes/auth.js signs
    it. *)
Record Decoded : Type := { id : Z; email : string; role : string }.

(** [jwt.verify(token, process.env.JWT_SECRET)]; [None] when it throws. *)
Definition Jwt : Type := string -> option Decoded.

(** What the middleware does: [req.user = decoded; next()], or
    [res.status(401).json({ error })]. *)
Inductive Outcome : Type :=
| Next (user : Decoded)
| Unauthorized (error : string).

(** [authMiddleware]; [authorization] is [req.headers.authorization]. *)
Definition authMiddleware (verify : Jwt) (authorization : option string) : Outcome :=
  match authorization with
  | None => Unauthorized "Unauthorized: No token provided"
  | Some authHeader =>
    if String.eqb authHeader EmptyString || negb (startsWith "Bearer " authHeader) then
      Unauthorized "Unauthorized: No token provided"
    else
      match head (snd (split_space authHeader)) with
      | Some token =>
        match verify token with
        | Some decoded => Next decoded
        | None => Unauthorized "Unauthorized: Invalid token"
        end
      | None => Unauthorized "Unauthorized: Invalid token"
      end
  end.

End AuthMiddleware.

(* ===================================================================== *)
(** ** [models/userModel.js] and [routes/auth.js]: register and login *)

Module Auth.

Import Str Models EmailService EmailQueue Vocab.

(** A row of [users] (db/init.sql). *)
Record User : Type := {
  u_id : Z;
  u_email : string;
  u_password_hash : string;
  u_name : string;
  u_role : string;
  u_created_at : Z
}.

(** The users table and the e-mail queue. *)
Record State : Type := {
  users : list User;
  emails : Queue
}.

(** What the route leaves to others: whether PostgreSQL executes a query
    on [users], the next value of the sequence behind [users.id], how a
    parameter is read into VARCHAR(100), bcryptjs ([genSalt] and [hash]
    together, and [compare]) and [jwt.sign] with the secret of the
    process.  [Throw] is a rejected promise or a thrown error. *)
Record Services : Type := {
  users_query_ok : bool;
  users_id_seq : Z;
  varchar100_in : JVal -> option string;
  bcrypt_hash : JVal -> Result string;
  bcrypt_compare : JVal -> string -> Result bool;
  jwt_sign : Z -> string -> string -> Result string
}.

(** Number of UTF-16 code units of a string given by its UTF-8 bytes: one
    for each character, two for a character of four bytes. *)
Definition utf16_units (c : ascii) : nat :=
  let n := nat_of_ascii c in
  if ((128 <=? n) && (n <? 192))%nat then 0%nat
  else if (240 <=? n)%nat then 2%nat
  else 1%nat.

Fixpoint utf16_length (s : string) : nat :=
  match s with
  | EmptyString => 0%nat
  | String c r => (utf16_units c + utf16_length r)%nat
  end.

(** [password.length < 6]: a number or boolean has no [length], and
    [undefined < 6] is false. *)
Definition too_short (password : JVal) : bool :=
  match password with
  | JStr s => (utf16_length s <? 6)%nat
  | _ => false
  end.

(** No white-space character starts at any position. *)
Fixpoint no_space (s : string) : bool :=
  match s with
  | EmptyString => true
  | String _ r => (Text.ws_len s =? 0)%nat && no_space r
  end.

(** The string before the first [c] and the string after it. *)
Fixpoint split_at (c : ascii) (s : string) : option (string * string) :=
  match s with
  | EmptyString => None
  | String a r =>
    if Ascii.eqb a c then Some (EmptyString, r)
    else match split_at c r with
         | Some (pre, post) => Some (String a pre, post)
         | None => None
         end
  end.

(** Some '.' of the string has a character before it and one after it. *)
Fixpoint dot_then_more (s : string) : bool :=
  match s with
  | EmptyString => false
  | String c r => (Ascii.eqb c "." && negb (String.eqb r EmptyString)) || dot_then_more r
  end.

Definition inner_dot (s : string) : bool :=
  match s with
  | EmptyString => false
  | String _ r => dot_then_more r
  end.

(** [/^[^\s@]+@[^\s@]+\.[^\s@]+$/.test(s)]: the string is a@b.c with a, b
    and c not empty and free of white space and of '@'.  So it has no
    white space, its first '@' is its only one and is not its first
    character, and what follows the '@' has a '.' that is neither its
    first nor its last character. *)
Definition emailRegex_test (s : string) : bool :=
  no_space s
  && match split_at "@" s with
     | Some (a, d) =>
       negb (String.eqb a EmptyString) && negb (contains_char "@" d) && inner_dot d
     | None => false
     end.

(** [UserModel.findByEmail]: SELECT * FROM users WHERE email = $1; the
    result is [rows[0]].  The parameter is sent as text. *)
Definition findByEmail (sv : Services) (w : State) (email : JVal)
    : Result (option User) :=
  if negb (users_query_ok sv) then Throw query_error else
  Ok (head (filter (fun u => u_email u = toStr email) (users w))).

(** [UserModel.create]: INSERT INTO users (name, email, password_hash)
    VALUES ($1, $2, $3) RETURNING id, name, email, role, created_at; the
    id is the next value of the sequence, the role the default 'member';
    [id] is the primary key and [email] is UNIQUE. *)
Definition create (sv : Services) (pg : Pg) (w : State) (name email : JVal)
    (passwordHash : string) : Result (State * User) :=
  if negb (users_query_ok sv) then Throw query_error else
  match varchar100_in sv name, varchar255_in pg email,
        varchar255_in pg (JStr passwordHash) with
  | Some n, Some e, Some p =>
    if existsb (fun u => (u_id u =? users_id_seq sv) || String.eqb (u_email u) e) (users w)
    then Throw query_error
    else
      let row := {| u_id := users_id_seq sv;
                    u_email := e;
                    u_password_hash := p;
                    u_name := n;
                    u_role := "member";
                    u_created_at := current_timestamp pg |} in
      Ok ({| users := (users w ++ [row])%list; emails := emails w |}, row)
  | _, _, _ => Throw query_error
  end.

(** [generateToken(user)]. *)
Definition generateToken (sv : Services) (user : User) : Result string :=
  jwt_sign sv (u_id user) (u_email user) (u_role user).

(** What the two routes answer. *)
Inductive Body : Type :=
| AError (error : string)
| ARegistered (message token : string) (id : Z) (name email : string)
| ALoggedIn (message token : string) (id : Z) (name email role : string).

Record Reply : Type := { status : Z; body_of : Body }.

Definition bad_request (msg : string) : Reply :=
  {| status := 400; body_of := AError msg |}.

Definition unauthorized : Reply :=
  {| status := 401; body_of := AError "Invalid credentials" |}.

(** The [catch] of both routes. *)
Definition server_error : Reply :=
  {| status := 500; body_of := AError "Server error" |}.

(** The job [register] enqueues for a new user. *)
Definition welcome_job (newUser : User) : JobData :=
  {| email := u_email newUser;
     type := "WELCOME";
     data := PObj {[ "name" := JStr (u_name newUser) ]} |}.

(** [router.post('/register', ...)]. *)
Definition register (sv : Services) (pg : Pg) (body : Obj) (w : State)
    : Reply * State :=
  let name := data_get body "name" in
  let email := data_get body "email" in
  let password := data_get body "password" in
  (* 1. Validation *)
  if negb (truthy name) || negb (truthy email) || negb (truthy password) then
    (bad_request "All fields are required", w)
  else if too_short password then
    (bad_request "Password must be at least 6 characters", w)
  else if negb (emailRegex_test (toStr email)) then
    (bad_request "Invalid email format", w)
  else
  (* 2. Check overlap *)
  match findByEmail sv w email with
  | Throw _ => (server_error, w)
  | Ok (Some _) => (bad_request "Email already in use", w)
  | Ok None =>
    (* 3. Hash Password *)
    match bcrypt_hash sv password with
    | Throw _ => (server_error, w)
    | Ok passwordHash =>
      (* 4. Create User *)
      match create sv pg w name email passwordHash with
      | Throw _ => (server_error, w)
      | Ok (w1, newUser) =>
        (* 5. Generate Token *)
        match generateToken sv newUser with
        | Throw _ => (server_error, w1)
        | Ok token =>
          (* 6. Queue a welcome email (fire and forget) *)
          ({| status := 201;
              body_of := ARegistered "User registered successfully" token
                           (u_id newUser) (u_name newUser) (u_email newUser) |},
           {| users := users w1; emails := add (emails w1) (welcome_job newUser) |})
        end
      end
    end
  end.

(** [router.post('/login', ...)]. *)
Definition login (sv : Services) (body : Obj) (w : State) : Reply * State :=
  let email := data_get body "email" in
  let password := data_get body "password" in
  if negb (truthy email) || negb (truthy password) then
    (bad_request "Email and password are required", w)
  else
  (* 1. Find User *)
  match findByEmail sv w email with
  | Throw _ => (server_error, w)
  | Ok None => (unauthorized, w)
  | Ok (Some user) =>
    (* 2. Check Password *)
    match bcrypt_compare sv password (u_password_hash user) with
    | Throw _ => (server_error, w)
    | Ok false => (unauthorized, w)
    | Ok true =>
      (* 3. Generate Token *)
      match generateToken sv user with
      | Throw _ => (server_error, w)
      | Ok token =>
        ({| status := 200;
            body_of := ALoggedIn "Login successful" token (u_id user) (u_name user)
                         (u_email user) (u_role user) |}, w)
      end
    end
  end.

(** The services with a [jwt.sign] that throws [e], as it does when the
    process has no JWT_SECRET. *)
Definition without_secret (sv : Services) (e : Exn) : Services := {|
  users_query_ok := users_query_ok sv;
  users_id_seq := users_id_seq sv;
  varchar100_in := varchar100_in sv;
  bcrypt_hash := bcrypt_hash sv;
  bcrypt_compare := bcrypt_compare sv;
  jwt_sign := fun _ _ _ => Throw e
|}.

End Auth.

(* ===================================================================== *)
(** ** Sample requests and tables *)

Module Samples.

Import Models BookingRoutes BookingApi Props.

(** A confirmed booking of user 7, alone in the table. *)
Definition confirmed_booking : Booking := {|
  b_id := 1; b_user_id := 7; b_title := "Standup";
  b_start_time := JStr "2026-04-02T09:00:00Z";
  b_end_time := JStr "2026-04-02T09:30:00Z";
  b_status := "confirmed";
  b_created_at := 1775000000000; b_updated_at := 1775000000000
|}.

(** User 7 renames booking 1; user 8 tries to cancel it. *)
Definition rename_request : Request := {|
  user_id := 7; user_email := "a@example.com";
  body := {[ "title" := JStr "Weekly" ]}; params_id := "1"
|}.

Definition intruder_request : Request := {|
  user_id := 8; user_email := "b@example.com";
  body := {[ "title" := JStr "Mine now" ]}; params_id := "1"
|}.

(** The server [pg], except that it rejects every query on the
    notifications table. *)
Definition without_notifications (pg : Pg) : Pg := {|
  booking_query_ok := booking_query_ok pg;
  notification_query_ok := false;
  int4_in := int4_in pg;
  varchar255_in := varchar255_in pg;
  timestamp_in := timestamp_in pg;
  current_timestamp := current_timestamp pg
|}.

(** User 7 books tomorrow's standup. *)
Definition standup_request : Request :=
  create_request "2026-04-02T09:00:00Z" "2026-04-02T09:30:00Z".

(** The empty tables and an empty queue. *)
Definition empty_world : World := {|
  db := {| bookings := ∅; next_booking_id := 1;
           notifications := []; next_notification_id := 1 |};
  queue := EmailQueue.emailQueue None;
  trace := []
|}.

(** The instant of a stored timestamp, for the sample server: the
    milliseconds of an ISO date-time, 0 for anything else. *)
Definition sample_order (v : JVal) : Z :=
  match v with
  | JStr s => default 0 (Hosts.parse_iso s)
  | _ => 0
  end.

(** Three notifications: an unread and a read one of user 7, and an
    unread one of user 8. *)
Definition note (key userId : Z) (is_read : bool) (created_at : Z) : Notification := {|
  n_id := key; n_user_id := userId; n_type := "BOOKING_CONFIRMED";
  n_title := "Booking confirmed"; n_message := "Your booking is scheduled.";
  n_metadata := "{}"; n_is_read := is_read; n_created_at := created_at
|}.

Definition inbox : World := {|
  db := {| bookings := ∅; next_booking_id := 1;
           notifications := [note 1 7 false 100; note 2 7 true 200; note 3 8 false 300];
           next_notification_id := 4 |};
  queue := EmailQueue.emailQueue None;
  trace := []
|}.

(** A process with working services: every users query is executed, the
    next user id is 1, names of at most 100 bytes are kept, and the
    password 's3cret!' is the one [bcrypt.compare] accepts. *)
Definition services : Auth.Services := {|
  Auth.users_query_ok := true;
  Auth.users_id_seq := 1;
  Auth.varchar100_in := fun v =>
    if (String.length (toStr v) <=? 100)%nat then Some (toStr v) else None;
  Auth.bcrypt_hash := fun _ => Ok "$2a$10$N9qo8uLOickgx2ZMRZoMyeIjZAgcfl7p92ldGxad68LJZdL17lhWy";
  Auth.bcrypt_compare := fun v _ => Ok (bool_decide (v = JStr "s3cret!"));
  Auth.jwt_sign := fun id _ _ => Ok (Str.cat ["token-"; Str.of_Z id])
|}.

(** Ann registers; nobody has registered yet. *)
Definition ann_request : Obj :=
  <[ "name" := JStr "Ann" ]>
  (<[ "email" := JStr "ann@example.com" ]> (<[ "password" := JStr "s3cret!" ]> ∅)).

Definition ann : Auth.User := {|
  Auth.u_id := 1; Auth.u_email := "ann@example.com";
  Auth.u_password_hash := "$2a$10$N9qo8uLOickgx2ZMRZoMyeIjZAgcfl7p92ldGxad68LJZdL17lhWy";
  Auth.u_name := "Ann"; Auth.u_role := "member"; Auth.u_created_at := 1775034000000
|}.

Definition no_users : Auth.State :=
  {| Auth.users := []; Auth.emails := EmailQueue.emailQueue None |}.

End Samples.

(* ===================================================================== *)
(** * Properties *)

(** ** Sanity checks of the embedding on concrete inputs *)

Example parseInt_examples :
  Text.parseInt "  42px" = Some 42 /\ Text.parseInt "0x1f" = Some 31 /\
  Text.parseInt "-7" = Some (-7) /\ Text.parseInt "abc" = None /\
  Text.parseInt EmptyString = None.
Proof. repeat split; reflexivity. Qed.

Example load_defaults :
  EmailConfig.provider (EmailConfig.load ∅) = "mock" /\
  EmailConfig.retryAttempts (EmailConfig.load ∅) = 3 /\
  EmailConfig.retryAttempts (EmailConfig.load {[ "EMAIL_RETRY_ATTEMPTS" := "5" ]}) = 5.
Proof. repeat split; vm_compute; reflexivity. Qed.

Example toPlainText_example :
  EmailService.toPlainText
    (EmailService.PScalar (JStr "  <p>Hi   <b>Ann</b></p>  <> a < b > c <open "))
  = Ok "Hi Ann <> a c <open".
Proof. vm_compute. reflexivity. Qed.

Example createTransporter_examples :
  EmailService.createTransporter Props.default_config = Ok None
  /\ EmailService.createTransporter Props.gmail_config
     = Ok (Some (EmailService.Gmail "app@gmail.com" "abcd efgh ijkl mnop"))
  /\ EmailService.createTransporter (EmailConfig.load {[ "EMAIL_PROVIDER" := "sendgrid" ]})
     = Ok None.
Proof. repeat split; vm_compute; reflexivity. Qed.

Example send_unknown_type :
  EmailService.send Hosts.utc Props.accepting Props.default_config "a@example.com"
    "PASSWORD_RESET" (EmailService.PObj ∅)
  = ([], Throw (Props.unknown_type_error "PASSWORD_RESET")).
Proof. vm_compute. reflexivity. Qed.

Example send_without_payload :
  snd (EmailService.send Hosts.utc Props.accepting Props.default_config "a@example.com"
         "WELCOME" (EmailService.PScalar JUndefined))
  = Throw (TypeErr "Cannot read properties of undefined (reading 'name')").
Proof. vm_compute. reflexivity. Qed.

Example send_gmail_deliveries :
  map (fun d => EmailService.mail_subject (snd d))
      (Props.deliveries
         (fst (EmailService.send Hosts.utc Props.accepting Props.gmail_config
                 "a@example.com" "BOOKING_CONFIRMATION" Props.standup)))
  = [EmailService.PScalar (JStr Props.standup_subject)].
Proof. vm_compute. reflexivity. Qed.

(** Had the queue been given the configured retry count, the policy of the
    spec would make three attempts. *)
Example configured_retries :
  let job := {| EmailQueue.id := 1; EmailQueue.job_data := Props.unsupported_job;
                EmailQueue.max_attempts := EmailConfig.retryAttempts Props.default_config;
                EmailQueue.job_backoff := Some {| EmailQueue.base := 1000;
                                                  EmailQueue.maximum := 60000 |};
                EmailQueue.attemptsMade := 0; EmailQueue.status := EmailQueue.Waiting |} in
  let '(j, calls) := Worker.attempts_of 10
                       (Worker.processor Hosts.utc Props.accepting Props.default_config) job in
  (EmailQueue.status j, EmailQueue.attemptsMade j, calls) = (EmailQueue.Failed, 3, 3%nat).
Proof. vm_compute. reflexivity. Qed.

Example worker_main_unknown_provider :
  Worker.main Props.accepting (EmailConfig.load {[ "EMAIL_PROVIDER" := "sendgrid" ]})
  = [ Worker.Service (EmailService.ConsoleLog
        (Str.cat [Str.nl; "👷 Background Worker Started..."]));
      Worker.Service (EmailService.ConsoleError
        "  ❌ Email Service: Connection failed (sendgrid): Cannot read properties of null (reading 'verify')");
      Worker.Service (EmailService.ConsoleLog
        (Str.cat ["   Listening for jobs in the queue..."; Str.nl]));
      Worker.RegisterProcessor;
      Worker.RegisterListener "completed";
      Worker.RegisterListener "failed";
      Worker.RegisterListener "error" ].
Proof. vm_compute. reflexivity. Qed.

(** With credentials, the outcome of [verify] is logged after the
    processor is registered. *)
Example worker_main_unreachable :
  Worker.main Props.unreachable Props.gmail_config
  = [ Worker.Service (EmailService.ConsoleLog
        (Str.cat [Str.nl; "👷 Background Worker Started..."]));
      Worker.Service (EmailService.CreateTransport
        (EmailService.Gmail "app@gmail.com" "abcd efgh ijkl mnop"));
      Worker.Service (EmailService.CallVerify
        (EmailService.Gmail "app@gmail.com" "abcd efgh ijkl mnop"));
      Worker.Service (EmailService.ConsoleLog
        (Str.cat ["   Listening for jobs in the queue..."; Str.nl]));
      Worker.RegisterProcessor;
      Worker.RegisterListener "completed";
      Worker.RegisterListener "failed";
      Worker.RegisterListener "error";
      Worker.Service (EmailService.ConsoleError
        "  ❌ Email Service: Connection failed (gmail): connect ECONNREFUSED") ].
Proof. vm_compute. reflexivity. Qed.

Example post_booking_created :
  let r := BookingRoutes.post_booking Hosts.utc Props.pg_up
             (Props.create_request "2026-04-02T09:00:00Z" "2026-04-02T09:30:00Z")
             (Props.world_with Props.cancelled_booking) in
  BookingRoutes.code (fst r) = 201
  /\ Props.enqueued (BookingRoutes.trace (snd r))
     = [ {| EmailQueue.email := "a@example.com";
            EmailQueue.type := "BOOKING_CONFIRMATION";
            EmailQueue.data := EmailService.PObj
              (<[ "bookingId" := JNum 2 ]>
              (<[ "title" := JStr "Standup" ]>
              (<[ "start" := JStr "2026-04-02T09:00:00Z" ]>
              (<[ "end" := JStr "2026-04-02T09:30:00Z" ]> ∅)))) |} ]
  /\ List.length (EmailQueue.jobs (BookingRoutes.queue (snd r))) = 1%nat.
Proof. vm_compute. repeat split; reflexivity. Qed.

Example post_booking_rejections :
  BookingRoutes.fst_code (BookingRoutes.post_booking Hosts.utc Props.pg_up
     (Props.create_request "2020-01-01T10:00:00Z" "2020-01-01T11:00:00Z")
     (Props.world_with Props.cancelled_booking)) = 400
  /\ BookingRoutes.fst_code (BookingRoutes.post_booking Hosts.utc Props.pg_up
     (Props.create_request "2026-04-02T09:30:00Z" "2026-04-02T09:00:00Z")
     (Props.world_with Props.cancelled_booking)) = 400
  /\ BookingRoutes.fst_code (BookingRoutes.post_booking Hosts.utc Props.pg_up
     (Props.create_request "tomorrow" "2026-04-02T09:00:00Z")
     (Props.world_with Props.cancelled_booking)) = 400
  /\ BookingRoutes.fst_code (BookingRoutes.post_booking Hosts.utc Props.pg_down
     (Props.create_request "2026-04-02T09:00:00Z" "2026-04-02T09:30:00Z")
     (Props.world_with Props.cancelled_booking)) = 500.
Proof. vm_compute. repeat split; reflexivity. Qed.

(** Cancelling a confirmed booking, then cancelling it again. *)
Example delete_twice :
  let confirmed := {| Models.b_id := 1; Models.b_user_id := 7; Models.b_title := "Standup";
                      Models.b_start_time := JStr "2026-04-02T09:00:00Z";
                      Models.b_end_time := JStr "2026-04-02T09:30:00Z";
                      Models.b_status := "confirmed";
                      Models.b_created_at := 0; Models.b_updated_at := 0 |} in
  let r1 := BookingRoutes.delete_booking Props.pg_up Props.cancel_request
              (Props.world_with confirmed) in
  let r2 := BookingRoutes.delete_booking Props.pg_up Props.cancel_request (snd r1) in
  BookingRoutes.fst_code r1 = 200 /\ BookingRoutes.fst_code r2 = 404
  /\ List.length (Props.enqueued (BookingRoutes.trace (snd r2))) = 1%nat
  /\ Models.bookings (BookingRoutes.db (snd r2)) = Models.bookings (BookingRoutes.db (snd r1)).
Proof. vm_compute. repeat split; reflexivity. Qed.

Example parse_iso_example :
  Hosts.parse_iso "2026-04-01T09:00:00Z" = Some 1775034000000 /\
  Hosts.parse_iso "tomorrow" = None.
Proof. split; vm_compute; reflexivity. Qed.

Example format_en_US_example :
  Hosts.format_en_US 0 1775034000000 = "4/1/2026, 9:00:00 AM" /\
  Hosts.format_en_US 180 1775034000000 = "4/1/2026, 12:00:00 PM" /\
  Hosts.format_en_US 0 0 = "1/1/1970, 12:00:00 AM" /\
  Hosts.format_en_US 0 951825599000 = "2/29/2000, 11:59:59 AM".
Proof. repeat split; vm_compute; reflexivity. Qed.

(* ===================================================================== *)
(** ** Shared lemmas *)

Section StringFacts.

Lemma prefix_app (x rest : string) : String.prefix x (x ++ rest) = true.
Proof.
  induction x as [|a x IH].
  - change (EmptyString ++ rest) with rest. destruct rest; reflexivity.
  - change (String a x ++ rest) with (String a (x ++ rest)).
    cbn [String.prefix]. destruct (ascii_dec a a) as [_|Hne]; [exact IH | congruence].
Qed.

Lemma includes_here (x rest : string) : Str.includes x (x ++ rest) = true.
Proof.
  pose proof (prefix_app x rest) as H.
  destruct (x ++ rest); cbn [Str.includes]; rewrite H; reflexivity.
Qed.

Lemma includes_app (pre x rest : string) : Str.includes x (pre ++ x ++ rest) = true.
Proof.
  induction pre as [|a pre IH].
  - change (EmptyString ++ x ++ rest) with (x ++ rest). apply includes_here.
  - change (String a pre ++ x ++ rest) with (String a (pre ++ x ++ rest)).
    cbn [Str.includes]. rewrite IH. apply orb_true_r.
Qed.

End StringFacts.

Section Registry.

Import EmailService.

Lemma registered_cases (type : string) :
  is_registered type = true ->
  type = "BOOKING_CONFIRMATION" \/ type = "BOOKING_CANCELLED" \/
  type = "WELCOME" \/ type = "ORG_INVITE".
Proof.
  unfold is_registered. intros H. apply bool_decide_eq_true in H.
  change template_keys
    with ["BOOKING_CONFIRMATION"; "BOOKING_CANCELLED"; "WELCOME"; "ORG_INVITE"] in H.
  rewrite !elem_of_cons in H. rewrite elem_of_nil in H. tauto.
Qed.

Lemma lookup_registered (type : string) :
  is_registered type = true ->
  exists f, lookup type = OwnTemplate f /\ In (type, f) templates.
Proof.
  intros H. destruct (registered_cases _ H) as [-> | [-> | [-> | ->]]];
    eexists; (split; [reflexivity | unfold templates; simpl; tauto]).
Qed.

Lemma assoc_Some_registered {A} (type : string) (l : list (string * A)) (v : A) :
  assoc type l = Some v -> type ∈ map fst l.
Proof.
  induction l as [|[k x] l IH]; simpl; [discriminate |].
  destruct (String.eqb type k) eqn:E.
  - apply String.eqb_eq in E. subst. intros _. apply elem_of_cons. by left.
  - intros H. apply elem_of_cons. right. by apply IH.
Qed.

Lemma assoc_None_unregistered {A} (type : string) (l : list (string * A)) :
  assoc type l = None -> type ∉ map fst l.
Proof.
  induction l as [|[k x] l IH]; simpl.
  - intros _. apply not_elem_of_nil.
  - destruct (String.eqb type k) eqn:E; [discriminate |].
    apply String.eqb_neq in E. intros H. apply not_elem_of_cons. split; [exact E | by apply IH].
Qed.

(** An own property of [templates] is selected exactly for the registered
    types. *)
Lemma own_template_iff_registered (type : string) :
  (exists f, lookup type = OwnTemplate f) <-> is_registered type = true.
Proof.
  split.
  - intros [f H]. unfold lookup in H. destruct (assoc type templates) eqn:E.
    + apply bool_decide_eq_true. eapply assoc_Some_registered, E.
    + repeat case_match; discriminate.
  - intros H. destruct (lookup_registered _ H) as (f & Hf & _). eauto.
Qed.

End Registry.

(* ===================================================================== *)
(** ** Rendering *)

Section Rendering.

Import Str EmailService Props.

(** Conversion to a string fails in one way only. *)
Lemma ToString_error (v : Payload) (e : Exn) :
  ToString v = Throw e -> e = unprintable.
Proof.
  revert e. induction v as [s | shown time | items IH | fields] using Payload_induction;
    intros e; cbn [ToString].
  - discriminate.
  - discriminate.
  - induction IH as [| x rest Hx Hrest IHrest]; [discriminate |].
    assert (Helt : forall e',
      match x with
      | PScalar JUndefined | PScalar JNull => Ok EmptyString
      | _ => ToString x
      end = Throw e' -> e' = unprintable).
    { intros e'. destruct x as [[]| | |]; try discriminate; apply Hx. }
    destruct rest as [| y rest'].
    + apply Helt.
    + destruct (match x with
                | PScalar JUndefined | PScalar JNull => Ok EmptyString
                | _ => ToString x
                end) as [s|e'] eqn:Ex.
      * cbn [and_then].
        match goal with
        | |- and_then ?r _ = _ -> _ => destruct r as [r'|e''] eqn:Er
        end; cbn [and_then]; [discriminate |].
        intros H. injection H as <-. by apply IHrest.
      * cbn [and_then]. intros H. injection H as <-. by apply Helt.
  - case_bool_decide; [| discriminate]. intros Hthrow. by injection Hthrow as <-.
Qed.

(** Printing a date fails exactly when the conversion of its argument to
    a string does, on every host and with the same error. *)
Lemma date_printing (h : Host) (v : Payload) :
  (exists s t, ToString v = Ok s /\ newDate_toLocaleString h v = Ok t)
  \/ (exists e, ToString v = Throw e /\ newDate_toLocaleString h v = Throw e).
Proof.
  unfold newDate_toLocaleString, newDateOf.
  destruct v as [s | shown time | items | fields].
  - left. eexists _, _. split; reflexivity.
  - left. eexists _, _. split; reflexivity.
  - destruct (ToString (PArray items)) as [s|e]; [left | right]; cbn [and_then]; eauto.
  - destruct (ToString (PRecord fields)) as [s|e]; [left | right]; cbn [and_then]; eauto.
Qed.

Lemma reading_present {A} (data : Payload) (first : string) (body : Result A) :
  present data = true -> reading data first body = body.
Proof. destruct data as [[]| | |]; try discriminate; reflexivity. Qed.

Lemma reading_absent {A} (data : Payload) (first : string) (body : Result A) :
  present data = false ->
  exists e, reading data first body = Throw e
            /\ kind e = TypeError /\ message e <> EmptyString.
Proof.
  destruct data as [[]| | |]; try discriminate; intros _;
    eexists; (split; [reflexivity | split; [reflexivity | discriminate]]).
Qed.

Lemma lookup_own :
  lookup "BOOKING_CONFIRMATION" = OwnTemplate BOOKING_CONFIRMATION
  /\ lookup "BOOKING_CANCELLED" = OwnTemplate BOOKING_CANCELLED
  /\ lookup "WELCOME" = OwnTemplate WELCOME
  /\ lookup "ORG_INVITE" = OwnTemplate ORG_INVITE.
Proof. repeat split; reflexivity. Qed.

Ltac rewrite_lookup :=
  first [ rewrite (proj1 lookup_own)
        | rewrite (proj1 (proj2 lookup_own))
        | rewrite (proj1 (proj2 (proj2 lookup_own)))
        | rewrite (proj2 (proj2 (proj2 lookup_own))) ].

Lemma render_registered (h : Host) (type : string) (data : Payload) :
  is_registered type = true ->
  exists f, In (type, f) templates /\ render h type data = f h data.
Proof.
  intros H. unfold render.
  destruct (lookup_registered _ H) as (f & -> & Hin). eauto.
Qed.

(** What rendering gives for a registered type, in terms of the payload
    alone: it throws when the payload is absent or a printed property does
    not convert, and otherwise gives two strings. *)
Lemma render_cases (h : Host) (type : string) (data : Payload) :
  is_registered type = true ->
  (printable type data = true
   /\ exists s b, render h type data = Ok {| subject := JStr s; html := JStr b |})
  \/ (printable type data = false
      /\ exists e, render h type data = Throw e
                   /\ kind e = TypeError /\ message e <> EmptyString).
Proof.
  intros H. unfold printable.
  destruct (present data) eqn:Hp.
  2:{ right. split; [reflexivity |].
      destruct (registered_cases _ H) as [-> | [-> | [-> | ->]]];
        unfold render; rewrite_lookup; cbn [call_member];
        match goal with |- context [?f h data] => unfold f end;
        by apply reading_absent. }
  assert (Hdate : forall v, is_ok (newDate_toLocaleString h v) = is_ok (ToString v)).
  { intros v. destruct (date_printing h v) as [(s & t & -> & ->) | (e & -> & ->)]; reflexivity. }
  assert (Hbad : forall v e, ToString v = Throw e ->
            kind e = TypeError /\ message e <> EmptyString).
  { intros v e He. apply ToString_error in He. subst e. split; [reflexivity | discriminate]. }
  destruct (registered_cases _ H) as [-> | [-> | [-> | ->]]];
    unfold render; rewrite_lookup; cbn [call_member];
    match goal with |- context [?f h data] => unfold f end;
    rewrite reading_present by assumption;
    match goal with
    | |- context [printed_fields ?t] =>
      let l := eval cbv in (printed_fields t) in
      change (printed_fields t) with l
    end; cbn [forallb andb].
  - destruct (ToString (prop data "title")) as [t|e] eqn:E1; cbn [and_then is_ok andb];
      [| right; split; [reflexivity | eexists; split; [reflexivity | by eapply Hbad]]].
    destruct (ToString (prop data "bookingId")) as [i|e] eqn:E2; cbn [and_then is_ok andb];
      [| right; split; [reflexivity | eexists; split; [reflexivity | by eapply Hbad]]].
    destruct (date_printing h (prop data "start")) as [(s1 & t1 & -> & ->) | (e & He & ->)];
      cbn [and_then is_ok andb];
      [| rewrite He; right; split; [reflexivity | eexists; split; [reflexivity | by eapply Hbad]]].
    destruct (date_printing h (prop data "end")) as [(s2 & t2 & -> & ->) | (e & He & ->)];
      cbn [and_then is_ok andb];
      [| rewrite He; right; split; [reflexivity | eexists; split; [reflexivity | by eapply Hbad]]].
    left. split; [reflexivity |]. eexists _, _. reflexivity.
  - destruct (ToString (prop data "title")) as [t|e] eqn:E1; cbn [and_then is_ok andb];
      [| right; split; [reflexivity | eexists; split; [reflexivity | by eapply Hbad]]].
    destruct (ToString (prop data "bookingId")) as [i|e] eqn:E2; cbn [and_then is_ok andb];
      [| right; split; [reflexivity | eexists; split; [reflexivity | by eapply Hbad]]].
    left. split; [reflexivity |]. eexists _, _. reflexivity.
  - destruct (ToString (prop data "name")) as [t|e] eqn:E1; cbn [and_then is_ok andb];
      [| right; split; [reflexivity | eexists; split; [reflexivity | by eapply Hbad]]].
    left. split; [reflexivity |]. eexists _, _. reflexivity.
  - destruct (ToString (prop data "orgName")) as [t|e] eqn:E1; cbn [and_then is_ok andb];
      [| right; split; [reflexivity | eexists; split; [reflexivity | by eapply Hbad]]].
    destruct (ToString (prop data "role")) as [i|e] eqn:E2; cbn [and_then is_ok andb];
      [| right; split; [reflexivity | eexists; split; [reflexivity | by eapply Hbad]]].
    left. split; [reflexivity |]. eexists _, _. reflexivity.
Qed.

Lemma render_printable (h : Host) (type : string) (data : Payload) :
  is_registered type = true ->
  is_ok (render h type data) = printable type data.
Proof.
  intros H.
  destruct (render_cases h type data H) as [[-> (s & b & ->)] | [-> (e & -> & _)]];
    reflexivity.
Qed.

Lemma render_strings (h : Host) (type : string) (data : Payload) (m : Rendered) :
  is_registered type = true -> render h type data = Ok m ->
  exists s b, m = {| subject := JStr s; html := JStr b |}.
Proof.
  intros H Hm.
  destruct (render_cases h type data H) as [[_ (s & b & Hr)] | [_ (e & Hr & _)]];
    rewrite Hr in Hm; [injection Hm as <-; eauto | discriminate].
Qed.

Lemma render_error_message (h : Host) (type : string) (data : Payload) (e : Exn) :
  is_registered type = true -> render h type data = Throw e ->
  message e <> EmptyString.
Proof.
  intros H He.
  destruct (render_cases h type data H) as [[_ (s & b & Hr)] | [_ (e' & Hr & _ & Hmsg)]];
    rewrite Hr in He; [discriminate | by injection He as <-].
Qed.

(** The subject of a BOOKING_CONFIRMATION is the fixed text around the
    title of the payload, converted to a string. *)
Lemma confirmation_subject (h : Host) (data : Payload) (m : Rendered) :
  render h "BOOKING_CONFIRMATION" data = Ok m ->
  exists title, ToString (prop data "title") = Ok title
    /\ subject m = JStr (cat ["✅ Booking Confirmed: "; dq; title; dq]).
Proof.
  unfold render.
  change (lookup "BOOKING_CONFIRMATION") with (OwnTemplate BOOKING_CONFIRMATION).
  cbn [call_member]. unfold BOOKING_CONFIRMATION.
  destruct (present data) eqn:Hp.
  2:{ destruct (reading_absent data "title"
                  (A := Rendered) (Throw unprintable) Hp) as (e & He & _).
      destruct data as [[]| | |]; try discriminate Hp; discriminate. }
  rewrite reading_present by assumption.
  destruct (ToString (prop data "title")) as [t|e]; cbn [and_then]; [| discriminate].
  destruct (ToString (prop data "bookingId")) as [i|e]; cbn [and_then]; [| discriminate].
  destruct (newDate_toLocaleString h (prop data "start")) as [s1|e]; cbn [and_then];
    [| discriminate].
  destruct (newDate_toLocaleString h (prop data "end")) as [s2|e]; cbn [and_then];
    [| discriminate].
  intros H. injection H as <-. exists t. split; reflexivity.
Qed.

Lemma render_other_templates (h1 h2 : Host) (type : string) (data : Payload) :
  is_registered type = true -> type <> "BOOKING_CONFIRMATION" ->
  render h1 type data = render h2 type data.
Proof.
  intros Hreg Hne.
  destruct (registered_cases _ Hreg) as [-> | [-> | [-> | ->]]];
    [congruence | reflexivity | reflexivity | reflexivity].
Qed.

Lemma render_subject_any_host (h1 h2 : Host) (type : string) (data : Payload) :
  is_registered type = true ->
  subject_of (render h1 type data) = subject_of (render h2 type data).
Proof.
  intros Hreg.
  destruct (decide (type = "BOOKING_CONFIRMATION")) as [-> | Hne];
    [| by rewrite (render_other_templates h1 h2)].
  unfold render. change (lookup "BOOKING_CONFIRMATION") with (OwnTemplate BOOKING_CONFIRMATION).
  cbn [call_member]. unfold BOOKING_CONFIRMATION, reading.
  destruct data as [[]| | |]; try reflexivity;
    (destruct (ToString (prop _ "title")) as [t|e]; cbn [and_then]; [| reflexivity];
     destruct (ToString (prop _ "bookingId")) as [i|e]; cbn [and_then]; [| reflexivity];
     match goal with
     | |- context [newDate_toLocaleString h1 ?v] =>
       destruct (date_printing h1 v) as [(s1 & t1 & Hs1 & ->) | (e1 & Hs1 & ->)];
       destruct (date_printing h2 v) as [(s2 & t2 & Hs2 & ->) | (e2 & Hs2 & ->)];
       rewrite Hs1 in Hs2; try discriminate Hs2; cbn [and_then];
       [| by injection Hs2 as <-]
     end;
     match goal with
     | |- context [newDate_toLocaleString h1 ?v] =>
       destruct (date_printing h1 v) as [(s3 & t3 & Hs3 & ->) | (e3 & Hs3 & ->)];
       destruct (date_printing h2 v) as [(s4 & t4 & Hs4 & ->) | (e4 & Hs4 & ->)];
       rewrite Hs3 in Hs4; try discriminate Hs4; cbn [and_then];
       [reflexivity | by injection Hs4 as <-]
     end).
Qed.

Lemma render_booking_confirmation (h1 h2 : Host) (data : Payload) :
  dates_agree h1 h2 data ->
  render h1 "BOOKING_CONFIRMATION" data = render h2 "BOOKING_CONFIRMATION" data.
Proof.
  intros [Hs He]. unfold render.
  change (lookup "BOOKING_CONFIRMATION") with (OwnTemplate BOOKING_CONFIRMATION).
  cbn [call_member]. unfold BOOKING_CONFIRMATION. rewrite Hs, He. reflexivity.
Qed.

(** C2, as stated, fails: the same BOOKING_CONFIRMATION payload renders to
    different html on two hosts that differ in their time zone, because the
    template prints [data.start] with [toLocaleString]. *)
Lemma rendering_differs_across_hosts :
  is_registered "BOOKING_CONFIRMATION" = true /\
  render Hosts.utc "BOOKING_CONFIRMATION" standup
  <> render Hosts.nairobi "BOOKING_CONFIRMATION" standup.
Proof.
  split; [reflexivity |].
  intros H.
  apply (f_equal (fun r => match r with
                           | Ok {| html := PScalar v |} =>
                             Str.includes "12:00:00 PM" (toStr v)
                           | _ => false
                           end)) in H.
  vm_compute in H. discriminate H.
Qed.

(** C2 (amended): rendering is a function of the payload and of the way
    the rendering host prints dates.  For every registered type and every
    payload, the subject (or the error thrown instead) is the same on all
    hosts, depending on the payload alone, and two renderings are identical
    whenever the two hosts print the payload's start and end dates alike (in
    particular on one host) or the type is not BOOKING_CONFIRMATION.
    The template is a function into [Result Rendered]: it emits no event,
    so it reaches neither the network nor the database. *)
Theorem rendering_deterministic_given_host
    (h1 h2 : Host) (type : string) (data : Payload) :
  is_registered type = true ->
  subject_of (render h1 type data) = subject_of (render h2 type data)
  /\ (dates_agree h1 h2 data \/ type <> "BOOKING_CONFIRMATION" ->
      render h1 type data = render h2 type data).
Proof.
  intros Hreg. split; [by apply render_subject_any_host |].
  intros Hcase.
  destruct (decide (type = "BOOKING_CONFIRMATION")) as [-> | Hne].
  - destruct Hcase as [Hd | Hne]; [by apply render_booking_confirmation | congruence].
  - by apply render_other_templates.
Qed.

Lemma rendering_deterministic_given_host_witness :
  subject_of (render Hosts.utc "BOOKING_CONFIRMATION" standup)
  = subject_of (render Hosts.nairobi "BOOKING_CONFIRMATION" standup)
  /\ render Hosts.utc "BOOKING_CONFIRMATION" standup
     = render Hosts.utc "BOOKING_CONFIRMATION" standup
  /\ render Hosts.utc "WELCOME" standup = render Hosts.nairobi "WELCOME" standup.
Proof.
  split; [| split].
  - apply (rendering_deterministic_given_host Hosts.utc Hosts.nairobi
             "BOOKING_CONFIRMATION" standup). reflexivity.
  - apply (rendering_deterministic_given_host Hosts.utc Hosts.utc
             "BOOKING_CONFIRMATION" standup); [reflexivity | left; split; reflexivity].
  - apply (rendering_deterministic_given_host Hosts.utc Hosts.nairobi
             "WELCOME" standup); [reflexivity | right; discriminate].
Defined.

End Rendering.

(* ===================================================================== *)
(** ** [send] *)

Section Send.

Import Str EmailService Props.

Lemma send_unfold (h : Host) (net : Network) (cfg : EmailConfig.t)
    (to type : string) (data : Payload) :
  falsy (lookup type) = false ->
  send h net cfg to type data
  = bind (lift (call_member (lookup type) h data)) (fun r =>
      if String.eqb (EmailConfig.provider cfg) "mock" then
        match ToString (subject r) with
        | Throw e =>
          ([SetTimeout 500;
            ConsoleLog (cat [nl; "  📧 [MOCK EMAIL]"]);
            ConsoleLog (cat ["     To      : "; to])],
           Throw e)
        | Ok printed =>
          ([SetTimeout 500;
            ConsoleLog (cat [nl; "  📧 [MOCK EMAIL]"]);
            ConsoleLog (cat ["     To      : "; to]);
            ConsoleLog (cat ["     Subject : "; printed]);
            ConsoleLog (cat ["     Type    : "; type]);
            ConsoleLog (cat ["     (Set EMAIL_PROVIDER=gmail in .env to send real emails)"; nl])],
           Ok (mock_result h))
        end
      else
        match createTransporter cfg with
        | Throw e => ([], Throw e)
        | Ok None => ([], Throw (TypeErr "Cannot read properties of null (reading 'sendMail')"))
        | Ok (Some t) =>
          match toPlainText (html r) with
          | Throw e => ([CreateTransport t], Throw e)
          | Ok text =>
            let mail := {| mail_from := cat [dq; "Scheduling App"; dq; " <";
                                             EmailConfig.fromAddress cfg; ">"];
                           mail_to := to;
                           mail_subject := subject r;
                           mail_html := html r;
                           mail_text := text |} in
            match sendMail net t mail with
            | Throw e => ([CreateTransport t; CallSendMail t mail], Throw e)
            | Ok mid =>
              ([CreateTransport t; CallSendMail t mail;
                ConsoleLog (cat ["  📧 Email sent to "; to; " | MessageId: "; mid])],
               Ok {| success := true; provider := EmailConfig.provider cfg;
                     messageId := mid |})
            end
          end
        end).
Proof.
  intros Hf. unfold send. rewrite Hf.
  unfold bind at 1. unfold lift at 1.
  unfold bind at 1. unfold lift at 1.
  destruct (call_member (lookup type) h data) as [r|e]; [| reflexivity].
  destruct (String.eqb (EmailConfig.provider cfg) "mock").
  { cbn [bind lift emit ret throw app].
    destruct (ToString (subject r)) as [printed|e]; reflexivity. }
  destruct (createTransporter cfg) as [[t|]|e]; try reflexivity.
  cbn [bind lift emit ret throw app].
  destruct (toPlainText (html r)) as [text|e]; [| reflexivity].
  cbn [bind lift emit ret throw app].
  destruct (sendMail net t _) as [mid|e]; reflexivity.
Qed.

Lemma falsy_registered (type : string) :
  is_registered type = true -> falsy (lookup type) = false.
Proof.
  intros H. destruct (lookup_registered _ H) as (f & -> & _). reflexivity.
Qed.

(** [send] for a registered type, by the outcome of rendering. *)
Lemma send_registered (h : Host) (net : Network) (cfg : EmailConfig.t)
    (to type : string) (data : Payload) :
  is_registered type = true ->
  match render h type data with
  | Throw e => send h net cfg to type data = ([], Throw e)
  | Ok m =>
    exists s b, m = {| subject := JStr s; html := JStr b |} /\
    send h net cfg to type data =
    if String.eqb (EmailConfig.provider cfg) "mock" then
      ([SetTimeout 500;
        ConsoleLog (cat [nl; "  📧 [MOCK EMAIL]"]);
        ConsoleLog (cat ["     To      : "; to]);
        ConsoleLog (cat ["     Subject : "; s]);
        ConsoleLog (cat ["     Type    : "; type]);
        ConsoleLog (cat ["     (Set EMAIL_PROVIDER=gmail in .env to send real emails)"; nl])],
       Ok (mock_result h))
    else
      match createTransporter cfg with
      | Throw e => ([], Throw e)
      | Ok None => ([], Throw (TypeErr "Cannot read properties of null (reading 'sendMail')"))
      | Ok (Some t) =>
        let mail := {| mail_from := cat [dq; "Scheduling App"; dq; " <";
                                         EmailConfig.fromAddress cfg; ">"];
                       mail_to := to;
                       mail_subject := JStr s;
                       mail_html := JStr b;
                       mail_text := trim (collapse_ws (strip_tags b)) |} in
        match sendMail net t mail with
        | Throw e => ([CreateTransport t; CallSendMail t mail], Throw e)
        | Ok mid =>
          ([CreateTransport t; CallSendMail t mail;
            ConsoleLog (cat ["  📧 Email sent to "; to; " | MessageId: "; mid])],
           Ok {| success := true; provider := EmailConfig.provider cfg;
                 messageId := mid |})
        end
      end
  end.
Proof.
  intros H. rewrite send_unfold by (by apply falsy_registered).
  destruct (render h type data) as [m|e] eqn:Hr; unfold render in Hr; rewrite Hr;
    [| reflexivity].
  destruct (render_strings h type data m H Hr) as (s & b & ->).
  exists s, b. split; [reflexivity |].
  cbn [bind lift app subject html ToString toStr toPlainText].
  destruct (String.eqb (EmailConfig.provider cfg) "mock"); [reflexivity |].
  destruct (createTransporter cfg) as [[t|]|e]; try reflexivity.
  cbv zeta. destruct (sendMail net t _) as [mid|e]; reflexivity.
Qed.

(** The [throw] of "Unknown email type" is reached exactly when
    [templates[type]] is [undefined]; no registered type reaches it. *)
Lemma unknown_type_thrown (h : Host) (net : Network) (cfg : EmailConfig.t)
    (to type : string) (data : Payload) :
  falsy (lookup type) = true ->
  send h net cfg to type data = ([], Throw (unknown_type_error type)).
Proof. intros H. unfold send. rewrite H. reflexivity. Qed.

Lemma falsy_unregistered (type : string) :
  falsy (lookup type) = true -> is_registered type = false.
Proof.
  intros H. destruct (is_registered type) eqn:E; [| reflexivity].
  rewrite (falsy_registered _ E) in H. discriminate.
Qed.

Lemma mock_id_prefix (h : Host) :
  startsWith "mock-" (messageId (mock_result h)) = true.
Proof.
  unfold mock_result, messageId, startsWith.
  change (cat ["mock-"; of_Z (dateNow h)]) with ("mock-" ++ cat [of_Z (dateNow h)]).
  apply prefix_app.
Qed.

(** C3 (the code departs from it): "toString" is not a registered type,
    yet [send] raises no "Unknown email type" error for it: in mock mode
    it resolves with a success, on every host, for every recipient and
    payload.  [templates["toString"]] is the function inherited from
    [Object.prototype], which is truthy. *)
Theorem inherited_name_is_not_rejected :
  is_registered "toString" = false /\
  forall (h : Host) (net : Network) (to : string) (data : Payload),
    snd (send h net default_config to "toString" data) = Ok (mock_result h).
Proof.
  split; [reflexivity |].
  intros h net to data. rewrite send_unfold by reflexivity. reflexivity.
Qed.

Lemma call_member_error_message (h : Host) (type : string) (data : Payload) (e : Exn) :
  call_member (lookup type) h data = Throw e -> message e <> EmptyString.
Proof.
  destruct (is_registered type) eqn:Hreg.
  { apply (render_error_message h type data e Hreg). }
  unfold lookup. destruct (assoc type templates) as [f|] eqn:E.
  { apply assoc_Some_registered in E.
    unfold is_registered in Hreg. apply bool_decide_eq_false in Hreg.
    by destruct Hreg. }
  destruct (bool_decide _).
  - cbn [call_member].
    destruct (ToString data) as [s|e'] eqn:Hs; [| apply ToString_error in Hs; subst e'];
      cbn [and_then]; repeat case_match; intros Hthrow; try discriminate Hthrow;
      injection Hthrow as <-; discriminate.
  - destruct (String.eqb type "__proto__"); cbn [call_member];
      intros H; injection H as <-; discriminate.
Qed.

Lemma toPlainText_error_message (v : Payload) (e : Exn) :
  toPlainText v = Throw e -> message e <> EmptyString.
Proof.
  destruct v as [[]| | |]; cbn [toPlainText]; intros H; try discriminate H;
    injection H as <-; discriminate.
Qed.

Lemma createTransporter_error_message (cfg : EmailConfig.t) (e : Exn) :
  createTransporter cfg = Throw e -> message e <> EmptyString.
Proof.
  unfold createTransporter. repeat case_match; intros Hthrow; try discriminate Hthrow;
    injection Hthrow as <-; discriminate.
Qed.

Lemma createTransporter_mock (cfg : EmailConfig.t) (t : Transport) :
  createTransporter cfg = Ok (Some t) -> EmailConfig.provider cfg <> "mock".
Proof.
  unfold createTransporter. intros H Hm. rewrite Hm in H. discriminate H.
Qed.

(** [send] for any type: what it hands to the transport and how it ends. *)
Lemma send_cases (h : Host) (net : Network) (cfg : EmailConfig.t)
    (to type : string) (data : Payload) :
  (deliveries (fst (send h net cfg to type data)) = []
   /\ forall r, snd (send h net cfg to type data) = Ok r ->
        EmailConfig.provider cfg = "mock" /\ r = mock_result h)
  /\ (forall e, snd (send h net cfg to type data) = Throw e -> message e <> EmptyString)
  \/ exists t m mail,
       deliveries (fst (send h net cfg to type data)) = [(t, mail)]
       /\ createTransporter cfg = Ok (Some t)
       /\ render h type data = Ok m
       /\ mail_to mail = to
       /\ mail_subject mail = subject m
       /\ mail_html mail = html m
       /\ toPlainText (html m) = Ok (mail_text mail)
       /\ snd (send h net cfg to type data)
          = match sendMail net t mail with
            | Ok mid => Ok {| success := true; provider := EmailConfig.provider cfg;
                              messageId := mid |}
            | Throw e => Throw e
            end.
Proof.
  destruct (falsy (lookup type)) eqn:Hf.
  { left. rewrite unknown_type_thrown by assumption.
    split; [split; [reflexivity | discriminate] |].
    intros e He. injection He as <-. discriminate. }
  rewrite send_unfold by assumption. unfold render. unfold bind, lift.
  destruct (call_member (lookup type) h data) as [m|e'] eqn:Hc.
  2:{ left. split; [split; [reflexivity | discriminate] |].
      intros e He. injection He as <-. by eapply call_member_error_message. }
  destruct (String.eqb (EmailConfig.provider cfg) "mock") eqn:Hp.
  { apply String.eqb_eq in Hp. left.
    destruct (ToString (subject m)) as [printed|e'] eqn:Hs; cbn [fst snd app].
    - split; [split; [reflexivity |] | discriminate].
      intros r Hr. injection Hr as <-. by split.
    - split; [split; [reflexivity | discriminate] |].
      intros e He. injection He as <-. apply ToString_error in Hs. subst. discriminate. }
  destruct (createTransporter cfg) as [[t|]|e'] eqn:Ht.
  - destruct (toPlainText (html m)) as [text|e'] eqn:Hx.
    + right.
      match goal with
      | |- context [sendMail net t ?mm] => set (mail := mm) in *
      end.
      exists t, m, mail.
      destruct (sendMail net t mail) as [mid|e']; cbn [fst snd app deliveries];
        repeat split; reflexivity || assumption.
    + left. cbn [fst snd app deliveries]. split; [split; [reflexivity | discriminate] |].
      intros e He. injection He as <-. by eapply toPlainText_error_message.
  - left. cbn [fst snd app deliveries]. split; [split; [reflexivity | discriminate] |].
    intros e He. injection He as <-. discriminate.
  - left. cbn [fst snd app deliveries]. split; [split; [reflexivity | discriminate] |].
    intros e He. injection He as <-. by eapply createTransporter_error_message.
Qed.

(** C9, as stated, fails: with the mock provider, [send] to a registered
    type rejects when the job carries no payload (the first property read
    of the template throws), and when a printed property is an object that
    cannot be converted to a string. *)
Lemma mock_send_fails_on_unprintable_payload :
  EmailConfig.provider default_config = "mock"
  /\ is_registered "WELCOME" = true
  /\ send Hosts.utc accepting default_config "a@example.com" "WELCOME" (PScalar JNull)
     = ([], Throw (TypeErr "Cannot read properties of null (reading 'name')"))
  /\ send Hosts.utc accepting default_config "a@example.com" "WELCOME"
       (PRecord {[ "name" := PRecord {[ "toString" := PScalar JNull ]} ]})
     = ([], Throw (TypeErr "Cannot convert object to primitive value")).
Proof. repeat split; vm_compute; reflexivity. Qed.

(** C9 (amended): with the mock provider, [send] to a registered type
    succeeds for every recipient and every payload the template of the type
    can print (a payload that is neither [null] nor [undefined] and whose
    printed properties convert to strings): it resolves with {success:
    true, provider: 'mock'} and a messageId that starts with "mock-".  On
    any other payload the attempt fails with the error the template threw;
    the template can print a payload exactly when rendering it does not
    throw, so the attempt succeeds exactly when rendering does.
    For every type and payload, none of the events of [send] creates a
    transporter or reaches a mail server.  Hence a failed attempt in mock
    mode has an unknown type, or a payload its template cannot print, or an
    inherited name whose call threw or returned a subject that cannot be
    printed. *)
Theorem mock_send_succeeds_on_printable_payloads
    (h : Host) (net : Network) (cfg : EmailConfig.t)
    (to type : string) (data : Payload) :
  EmailConfig.provider cfg = "mock" ->
  forallb (fun e => negb (touches_network e)) (fst (send h net cfg to type data)) = true
  /\ (is_registered type = true -> printable type data = true ->
        snd (send h net cfg to type data) = Ok (mock_result h)
        /\ success (mock_result h) = true
        /\ provider (mock_result h) = "mock"
        /\ startsWith "mock-" (messageId (mock_result h)) = true)
  /\ (is_registered type = true -> printable type data = false ->
        exists e, send h net cfg to type data = ([], Throw e)
                  /\ render h type data = Throw e)
  /\ (is_registered type = true ->
        is_ok (render h type data) = printable type data
        /\ is_ok (snd (send h net cfg to type data)) = is_ok (render h type data))
  /\ (forall e, snd (send h net cfg to type data) = Throw e ->
        (falsy (lookup type) = true /\ is_registered type = false
         /\ e = unknown_type_error type)
        \/ (is_registered type = true /\ printable type data = false
            /\ render h type data = Throw e)
        \/ (is_registered type = false /\ falsy (lookup type) = false
            /\ (render h type data = Throw e
                \/ exists m, render h type data = Ok m
                             /\ ToString (subject m) = Throw e))).
Proof.
  intros Hmock.
  assert (Hm : String.eqb (EmailConfig.provider cfg) "mock" = true)
    by (by apply String.eqb_eq).
  split; [| split; [| split; [| split]]].
  - destruct (falsy (lookup type)) eqn:Hf.
    { by rewrite unknown_type_thrown. }
    rewrite send_unfold by assumption. unfold bind, lift. rewrite Hm.
    destruct (call_member (lookup type) h data) as [m|e]; [| reflexivity].
    destruct (ToString (subject m)); reflexivity.
  - intros Hreg Hp.
    pose proof (send_registered h net cfg to type data Hreg) as Hs.
    destruct (render_cases h type data Hreg) as [[_ (s & b & Hr)] | [Hn _]];
      [| congruence].
    rewrite Hr in Hs. destruct Hs as (s' & b' & _ & ->). rewrite Hm.
    repeat split. apply mock_id_prefix.
  - intros Hreg Hp.
    pose proof (send_registered h net cfg to type data Hreg) as Hs.
    destruct (render_cases h type data Hreg) as [[Hn _] | [_ (e & Hr & _)]];
      [congruence |].
    rewrite Hr in Hs. eauto.
  - intros Hreg. split; [by apply render_printable |].
    pose proof (send_registered h net cfg to type data Hreg) as Hs.
    destruct (render h type data) as [m|e].
    + destruct Hs as (s & b & _ & ->). by rewrite Hm.
    + by rewrite Hs.
  - intros e He.
    destruct (falsy (lookup type)) eqn:Hf.
    { left. rewrite unknown_type_thrown in He by assumption. injection He as <-.
      split; [reflexivity | split; [by apply falsy_unregistered | reflexivity]]. }
    right. destruct (is_registered type) eqn:Hreg.
    + left. split; [reflexivity |].
      pose proof (send_registered h net cfg to type data Hreg) as Hs.
      destruct (render_cases h type data Hreg) as [[_ (s & b & Hr)] | [Hn (e' & Hr & _)]];
        rewrite Hr in Hs.
      * destruct Hs as (s' & b' & _ & Hs). rewrite Hs, Hm in He. discriminate.
      * rewrite Hs in He. injection He as <-. by split.
    + right. split; [reflexivity | split; [reflexivity |]].
      rewrite send_unfold in He by assumption. unfold bind, lift in He.
      unfold render. rewrite Hm in He.
      destruct (call_member (lookup type) h data) as [m|e'];
        [| left; by injection He as <-].
      right. exists m. split; [reflexivity |].
      destruct (ToString (subject m)) as [p|e']; [discriminate | by injection He as <-].
Qed.

Lemma mock_send_succeeds_on_printable_payloads_witness :
  snd (send Hosts.utc unreachable default_config "a@example.com"
         "BOOKING_CONFIRMATION" standup) = Ok (mock_result Hosts.utc).
Proof.
  apply (mock_send_succeeds_on_printable_payloads Hosts.utc unreachable default_config
           "a@example.com" "BOOKING_CONFIRMATION" standup); reflexivity.
Defined.

(** C5: the contract between the pipeline and the transport.  Whatever
    the outcome, [send] hands at most one message to the transport; when it
    hands one over, the message is for the recipient and carries the
    subject and the html the template rendered, unchanged, with the plain
    text of that html, the transporter is the one built from the
    configuration, and [send] ends as the transporter does: it resolves
    with the three fields success (true), provider (the configured one)
    and messageId (the one the transporter reported), or rejects with the
    transporter's error.  For a registered type, rendering succeeds exactly
    on the payloads the template can print, and the rendered message is a
    pair of two strings.  For a registered type and a payload its template
    can print, [send] succeeds with {success, provider: 'mock', messageId:
    "mock-" and the clock} when the provider is 'mock', handing nothing
    over, and hands exactly one message over when a transporter can be
    built.  A success has [success] true and the configured provider.  A
    failure carries a description: an error that did not come from the
    transporter has a non-empty message, and so has every error when the
    transporter's have. *)
Theorem pipeline_transport_contract (h : Host) (net : Network) (cfg : EmailConfig.t)
    (to type : string) (data : Payload) :
  (deliveries (fst (send h net cfg to type data)) = []
   \/ exists t m mail,
        deliveries (fst (send h net cfg to type data)) = [(t, mail)]
        /\ createTransporter cfg = Ok (Some t)
        /\ render h type data = Ok m
        /\ mail_to mail = to
        /\ mail_subject mail = subject m
        /\ mail_html mail = html m
        /\ toPlainText (html m) = Ok (mail_text mail)
        /\ snd (send h net cfg to type data)
           = match sendMail net t mail with
             | Ok mid => Ok {| success := true; provider := EmailConfig.provider cfg;
                               messageId := mid |}
             | Throw e => Throw e
             end)
  /\ (is_registered type = true ->
      is_ok (render h type data) = printable type data
      /\ forall m, render h type data = Ok m ->
           exists s b, m = {| subject := JStr s; html := JStr b |})
  /\ (is_registered type = true -> printable type data = true ->
      (EmailConfig.provider cfg = "mock" ->
         snd (send h net cfg to type data) = Ok (mock_result h)
         /\ deliveries (fst (send h net cfg to type data)) = [])
      /\ (forall t, createTransporter cfg = Ok (Some t) ->
            exists mail, deliveries (fst (send h net cfg to type data)) = [(t, mail)]))
  /\ (forall r, snd (send h net cfg to type data) = Ok r ->
        success r = true /\ provider r = EmailConfig.provider cfg
        /\ ((EmailConfig.provider cfg = "mock" /\ r = mock_result h)
            \/ exists t mail,
                 deliveries (fst (send h net cfg to type data)) = [(t, mail)]
                 /\ sendMail net t mail = Ok (messageId r)))
  /\ (forall e, snd (send h net cfg to type data) = Throw e ->
        message e <> EmptyString
        \/ exists t mail,
             deliveries (fst (send h net cfg to type data)) = [(t, mail)]
             /\ sendMail net t mail = Throw e)
  /\ ((forall t mail e, sendMail net t mail = Throw e -> message e <> EmptyString) ->
      forall e, snd (send h net cfg to type data) = Throw e -> message e <> EmptyString).
Proof.
  pose proof (send_cases h net cfg to type data) as Hcases.
  split; [| split; [| split; [| split; [| split]]]].
  - destruct Hcases as [[[Hd _] _] | Hc]; [by left | by right].
  - intros Hreg. split; [by apply render_printable |].
    intros m Hm. by eapply render_strings.
  - intros Hreg Hp.
    pose proof (send_registered h net cfg to type data Hreg) as Hs.
    destruct (render_cases h type data Hreg) as [[_ (s & b & Hr)] | [Hn _]];
      [| congruence].
    rewrite Hr in Hs. destruct Hs as (s' & b' & _ & ->). split.
    + intros Hmock. apply String.eqb_eq in Hmock. rewrite Hmock. by split.
    + intros t Ht. pose proof (createTransporter_mock cfg t Ht) as Hnm.
      apply String.eqb_neq in Hnm. rewrite Hnm, Ht. cbv zeta.
      eexists. destruct (sendMail net t _); reflexivity.
  - intros r Hr. destruct Hcases as [[[_ Hok] _] | (t & m & mail & Hd & _ & _ & _ & _ & _ & _ & Hs)].
    + destruct (Hok r Hr) as [Hmock ->]. repeat split; [by rewrite Hmock | by left].
    + rewrite Hs in Hr. destruct (sendMail net t mail) as [mid|e] eqn:Hsm; [| discriminate].
      injection Hr as <-. repeat split. right. by exists t, mail.
  - intros e He. destruct Hcases as [[_ Hmsg] | (t & m & mail & Hd & _ & _ & _ & _ & _ & _ & Hs)].
    + left. by apply Hmsg.
    + rewrite Hs in He. destruct (sendMail net t mail) as [mid|e'] eqn:Hsm; [discriminate |].
      injection He as ->. right. by exists t, mail.
  - intros Hnet e He.
    destruct Hcases as [[_ Hmsg] | (t & m & mail & Hd & _ & _ & _ & _ & _ & _ & Hs)].
    + by apply Hmsg.
    + rewrite Hs in He. destruct (sendMail net t mail) as [mid|e'] eqn:Hsm; [discriminate |].
      injection He as ->. by eapply Hnet.
Qed.

Lemma pipeline_transport_contract_witness :
  (exists mail,
     deliveries (fst (send Hosts.utc accepting gmail_config "a@example.com"
                        "WELCOME" (PObj {[ "name" := JStr "Ann" ]})))
     = [(Gmail "app@gmail.com" "abcd efgh ijkl mnop", mail)])
  /\ (forall e,
        snd (send Hosts.utc unreachable gmail_config "a@example.com"
               "WELCOME" (PObj {[ "name" := JStr "Ann" ]})) = Throw e ->
        message e <> EmptyString).
Proof.
  split.
  - apply (pipeline_transport_contract Hosts.utc accepting gmail_config
             "a@example.com" "WELCOME" (PObj {[ "name" := JStr "Ann" ]}));
      reflexivity.
  - apply (pipeline_transport_contract Hosts.utc unreachable gmail_config
             "a@example.com" "WELCOME" (PObj {[ "name" := JStr "Ann" ]})).
    intros t mail e He. vm_compute in He. injection He as <-. discriminate.
Defined.

End Send.

(* ===================================================================== *)
(** ** Worker start-up *)

Section Startup.

Import Str EmailService Worker Props.

Lemma existsb_map_Service (p : WEvent -> bool) (evs : list Event) :
  (forall e, p (Service e) = false) -> existsb p (map Service evs) = false.
Proof.
  intros Hp. induction evs as [|e evs IH]; [reflexivity |].
  cbn [map existsb]. by rewrite Hp, IH.
Qed.

Lemma main_processing (net : Network) (cfg : EmailConfig.t) :
  processing (main net cfg) = true.
Proof.
  unfold processing, main.
  destruct (until_await (fst (verifyConnection net cfg))) as [sync later].
  rewrite !existsb_app. cbn [existsb].
  rewrite existsb_map_Service by reflexivity.
  reflexivity.
Qed.

Lemma main_not_exited (net : Network) (cfg : EmailConfig.t) :
  exited (main net cfg) = false.
Proof.
  unfold exited, main.
  destruct (until_await (fst (verifyConnection net cfg))) as [sync later].
  rewrite !existsb_app. cbn [existsb].
  rewrite !existsb_map_Service by reflexivity.
  reflexivity.
Qed.

Lemma verifyConnection_resolves (net : Network) (cfg : EmailConfig.t) :
  snd (verifyConnection net cfg) = Ok tt.
Proof.
  unfold verifyConnection.
  destruct (String.eqb (EmailConfig.provider cfg) "mock"); [reflexivity |].
  match goal with |- snd (match ?a with _ => _ end) = _ => destruct a as [evs [[]|e]] end;
    reflexivity.
Qed.

Lemma createTransporter_throw_not_mock (cfg : EmailConfig.t) (e : Exn) :
  createTransporter cfg = Throw e ->
  String.eqb (EmailConfig.provider cfg) "mock" = false.
Proof.
  unfold createTransporter.
  destruct (String.eqb (EmailConfig.provider cfg) "gmail") eqn:Eg.
  { apply String.eqb_eq in Eg. rewrite Eg. reflexivity. }
  destruct (String.eqb (EmailConfig.provider cfg) "smtp") eqn:Es.
  { apply String.eqb_eq in Es. rewrite Es. reflexivity. }
  discriminate.
Qed.

(** C4, as stated, fails: with EMAIL_PROVIDER=gmail and no credentials the
    transporter cannot be built, and with credentials but an unreachable
    mail server [verify] rejects; in both cases the worker registers its
    job processor and does not exit. *)
Lemma worker_starts_with_invalid_transport :
  is_ok (createTransporter gmail_without_credentials) = false
  /\ processing (main unreachable gmail_without_credentials) = true
  /\ exited (main unreachable gmail_without_credentials) = false
  /\ processing (main unreachable gmail_config) = true
  /\ exited (main unreachable gmail_config) = false.
Proof. repeat split; vm_compute; reflexivity. Qed.

(** C4 (amended): an invalid transport configuration does not keep the
    worker from starting.  For every configuration and every mail server,
    [verifyConnection] resolves (its [catch] only logs the failure), the
    worker registers its job processor and the process does not exit.  When
    the transporter cannot be built from the configuration (gmail or smtp
    with missing credentials), the jobs fail at run time: no attempt to
    send succeeds or reaches a mail server, whatever the type and the
    payload.  An attempt whose template call returns (for a registered type:
    whose payload the template can print) fails with the error of the
    configuration; any other attempt fails before the transporter is
    built, with the unknown-type error or the error the template threw. *)
Theorem worker_starts_for_every_configuration
    (net : Network) (cfg : EmailConfig.t) :
  snd (verifyConnection net cfg) = Ok tt
  /\ processing (main net cfg) = true
  /\ exited (main net cfg) = false
  /\ forall e h to type data,
       createTransporter cfg = Throw e ->
       fst (send h net cfg to type data) = []
       /\ is_ok (snd (send h net cfg to type data)) = false
       /\ (is_registered type = true -> printable type data = true ->
             send h net cfg to type data = ([], Throw e))
       /\ (is_registered type = true -> printable type data = false ->
             exists e', render h type data = Throw e'
                        /\ send h net cfg to type data = ([], Throw e'))
       /\ (forall m, falsy (lookup type) = false -> render h type data = Ok m ->
             send h net cfg to type data = ([], Throw e))
       /\ (forall e', falsy (lookup type) = false -> render h type data = Throw e' ->
             send h net cfg to type data = ([], Throw e'))
       /\ (falsy (lookup type) = true ->
             send h net cfg to type data = ([], Throw (unknown_type_error type))).
Proof.
  split; [apply verifyConnection_resolves |].
  split; [apply main_processing |].
  split; [apply main_not_exited |].
  intros e h to type data Hc.
  pose proof (createTransporter_throw_not_mock _ _ Hc) as Hnm.
  assert (Hok : forall m, falsy (lookup type) = false -> render h type data = Ok m ->
                  send h net cfg to type data = ([], Throw e)).
  { intros m Hf Hm. rewrite send_unfold by assumption. unfold render in Hm.
    rewrite Hm, Hnm, Hc. reflexivity. }
  assert (Hthrow : forall e', falsy (lookup type) = false -> render h type data = Throw e' ->
                     send h net cfg to type data = ([], Throw e')).
  { intros e' Hf Hm. rewrite send_unfold by assumption. unfold render in Hm.
    rewrite Hm. reflexivity. }
  assert (Hall : fst (send h net cfg to type data) = []
                 /\ is_ok (snd (send h net cfg to type data)) = false).
  { destruct (falsy (lookup type)) eqn:Hf.
    - rewrite unknown_type_thrown by assumption. by split.
    - destruct (render h type data) as [m|e'] eqn:Hm.
      + rewrite (Hok m) by reflexivity || assumption. by split.
      + rewrite (Hthrow e') by reflexivity || assumption. by split. }
  destruct Hall as [Hfst Hsnd].
  split; [exact Hfst |]. split; [exact Hsnd |].
  split; [| split; [| split; [exact Hok | split; [exact Hthrow | by apply unknown_type_thrown]]]].
  - intros Hreg Hp.
    destruct (render_cases h type data Hreg) as [[_ (s & b & Hr)] | [Hn _]]; [| congruence].
    apply (Hok _ (falsy_registered _ Hreg) Hr).
  - intros Hreg Hp.
    destruct (render_cases h type data Hreg) as [[Hn _] | [_ (e' & Hr & _)]]; [congruence |].
    exists e'. split; [exact Hr |]. apply (Hthrow _ (falsy_registered _ Hreg) Hr).
Qed.

Lemma worker_starts_for_every_configuration_witness :
  send Hosts.utc unreachable gmail_without_credentials "a@example.com" "WELCOME"
    (PObj {[ "name" := JStr "Ann" ]})
  = ([], Throw (Error "Gmail provider requires GMAIL_USER and GMAIL_APP_PASSWORD in .env"))
  /\ is_ok (snd (send Hosts.utc unreachable gmail_without_credentials "a@example.com"
                   "WELCOME" (PScalar JNull))) = false.
Proof.
  split.
  - apply (proj2 (proj2 (proj2 (worker_starts_for_every_configuration
                                  unreachable gmail_without_credentials))));
      reflexivity.
  - apply (proj2 (proj2 (proj2 (worker_starts_for_every_configuration
                                  unreachable gmail_without_credentials)))
             (Error "Gmail provider requires GMAIL_USER and GMAIL_APP_PASSWORD in .env")).
    reflexivity.
Defined.

End Startup.

(* ===================================================================== *)
(** ** The queue and the retry policy *)

Section Retry.

Import Str EmailService EmailQueue Worker Props.

Lemma deliveries_app (a b : list Event) :
  deliveries (a ++ b)%list = (deliveries a ++ deliveries b)%list.
Proof.
  induction a as [|e a IH]; [reflexivity |].
  destruct e; cbn [deliveries app]; rewrite IH; reflexivity.
Qed.

(** Every job the producers enqueue carries the unconfigured policy: one
    attempt and no backoff, whatever the e-mail configuration says. *)
Lemma add_policy (url : option string) (d : JobData) :
  jobs (add (emailQueue url) d) = [fresh d].
Proof. reflexivity. Qed.

Lemma claim_fresh (d : JobData) : claim [fresh d] = Some (fresh d, []).
Proof. reflexivity. Qed.

(** The policy of the spec, on a job whose handler always fails: the
    handler is called until [attemptsMade] reaches [max_attempts], and the
    job is then failed for good. *)
Lemma always_failing_exhausts {A} (handler : Job -> IO A) (fuel : nat) :
  (forall x, exists e, snd (handler x) = Throw e) ->
  forall j,
    (status j = Waiting \/ exists d, status j = Delayed d) ->
    attemptsMade j < max_attempts j ->
    (Z.to_nat (max_attempts j - attemptsMade j) <= fuel)%nat ->
    status (fst (attempts_of fuel handler j)) = Failed
    /\ attemptsMade (fst (attempts_of fuel handler j)) = max_attempts j
    /\ Z.of_nat (snd (attempts_of fuel handler j)) = max_attempts j - attemptsMade j.
Proof.
  intros Hfail. induction fuel as [|fuel IH]; intros j Hst Hlt Hfuel.
  { lia. }
  cbn [attempts_of].
  assert (Hgo : attempts_of (S fuel) handler j
                = let j' := settle (promote j) (snd (handler (promote j))) in
                  let '(j'', n) := attempts_of fuel handler j' in (j'', S n)).
  { cbn [attempts_of]. destruct Hst as [-> | [d ->]]; reflexivity. }
  cbn [attempts_of] in Hgo. rewrite Hgo. clear Hgo.
  destruct (Hfail (promote j)) as [e He]. rewrite He.
  assert (Hp : attemptsMade (promote j) = attemptsMade j
               /\ max_attempts (promote j) = max_attempts j).
  { unfold promote. destruct (status j); split; reflexivity. }
  destruct Hp as [Hpm Hpx].
  set (j' := settle (promote j) (Throw e)).
  assert (Hm : attemptsMade j' = attemptsMade j + 1) by (cbn; lia).
  assert (Hx : max_attempts j' = max_attempts j) by (cbn; lia).
  destruct (Z.ltb_spec (attemptsMade j + 1) (max_attempts j)) as [Hmore | Hlast].
  - assert (Hst' : status j' = Waiting \/ exists d, status j' = Delayed d).
    { cbn. rewrite Hpm, Hpx. destruct (Z.ltb_spec (attemptsMade j + 1) (max_attempts j)); [| lia].
      destruct (0 <? _); eauto. }
    specialize (IH j' Hst' ltac:(lia) ltac:(lia)).
    destruct (attempts_of fuel handler j') as [jf n]. cbn [fst snd] in *.
    destruct IH as (H1 & H2 & H3). repeat split; [assumption | lia | lia].
  - assert (Hst' : status j' = Failed).
    { cbn. rewrite Hpm, Hpx. destruct (Z.ltb_spec (attemptsMade j + 1) (max_attempts j)); [lia | reflexivity]. }
    destruct fuel as [|fuel]; cbn [attempts_of]; [| rewrite Hst'];
      cbn [fst snd]; repeat split; try assumption; lia.
Qed.

Lemma processor_unknown_type (h : Host) (net : Network) (cfg : EmailConfig.t) (j : Job) :
  falsy (lookup (type (job_data j))) = true ->
  snd (processor h net cfg j) = Throw (unknown_type_error (type (job_data j))).
Proof.
  intros Hf. unfold processor.
  rewrite unknown_type_thrown by assumption. reflexivity.
Qed.

(** C1 (the code departs from it): a job whose handler fails on every
    attempt is not re-dispatched until [attempt_count] reaches the
    configured 3.  The queue is created without [defaultJobOptions] and
    [add] is called without options, so the job has the unconfigured single
    attempt whatever [retryAttempts] is: for every host, mail server and
    configuration, the job of an unsupported type is handled once, ends
    failed with [attemptsMade] 1, and is never claimed again. *)
Theorem retry_count_not_wired
    (url : option string) (h : Host) (net : Network) (cfg : EmailConfig.t) :
  EmailConfig.retryAttempts default_config = 3
  /\ jobs (add (emailQueue url) unsupported_job) = [fresh unsupported_job]
  /\ (exists q1 evs,
        step h net cfg (add (emailQueue url) unsupported_job)
        = Some (q1, evs, failed_once unsupported_job)
        /\ jobs q1 = [failed_once unsupported_job]
        /\ step h net cfg q1 = None)
  /\ forall fuel,
       attempts_of (S fuel) (processor h net cfg) (fresh unsupported_job)
       = (failed_once unsupported_job, 1%nat).
Proof.
  split; [reflexivity |]. split; [reflexivity |].
  assert (Hp : snd (processor h net cfg (fresh unsupported_job))
               = Throw (unknown_type_error "PASSWORD_RESET"))
    by (by apply processor_unknown_type).
  split.
  - unfold step, step_with. rewrite add_policy, claim_fresh.
    destruct (processor h net cfg (fresh unsupported_job)) as [evs r].
    cbn [snd] in Hp. subst r.
    eexists _, _. split; [reflexivity |]. split; reflexivity.
  - intros fuel. cbn [attempts_of status fresh].
    change (promote (fresh unsupported_job)) with (fresh unsupported_job).
    rewrite Hp.
    change (settle (fresh unsupported_job) (Throw (unknown_type_error "PASSWORD_RESET")))
      with (failed_once unsupported_job).
    destruct fuel; reflexivity.
Qed.

(** The subject of a BOOKING_CONFIRMATION contains the title it prints. *)
Lemma confirmation_subject_embeds_title (title : string) :
  includes title (cat ["✅ Booking Confirmed: "; dq; title; dq]) = true.
Proof.
  change (cat ["✅ Booking Confirmed: "; dq; title; dq])
    with (("✅ Booking Confirmed: " ++ dq) ++ title ++ cat [dq]).
  apply includes_app.
Qed.

Lemma render_standup (h : Host) :
  exists b, render h "BOOKING_CONFIRMATION" standup
            = Ok {| subject := JStr standup_subject; html := JStr b |}.
Proof. eexists. reflexivity. Qed.

(** C8: the happy path.  One turn of the worker on the queue holding the
    scenario's job makes exactly one delivery, whose subject is the one
    rendered from the payload and contains "Standup", completes the job
    with [attemptsMade] still 0 and leaves nothing to claim; the handler is
    called once.  With the mock provider the turn always goes this way,
    and the delivery is the mock e-mail the run logs; with a transporter
    built from the configuration the one message is handed to it, and the
    turn goes this way when the transporter accepts the message.  For
    every payload the template can print (any other makes it throw) the
    BOOKING_CONFIRMATION subject embeds [data.title], and that subject is
    the one [send] logs or hands over. *)
Theorem happy_path (url : option string) (h : Host) (net : Network) (cfg : EmailConfig.t) :
  (EmailConfig.provider cfg = "mock" ->
     (exists q1,
        step h net cfg (add (emailQueue url) standup_job)
        = Some (q1,
                [ConsoleLog (cat ["  [Job #"; "1"; "] Processing: "; "BOOKING_CONFIRMATION";
                                  " → "; "a@example.com"]);
                 SetTimeout 500;
                 ConsoleLog (cat [nl; "  📧 [MOCK EMAIL]"]);
                 ConsoleLog (cat ["     To      : "; "a@example.com"]);
                 ConsoleLog (cat ["     Subject : "; standup_subject]);
                 ConsoleLog (cat ["     Type    : "; "BOOKING_CONFIRMATION"]);
                 ConsoleLog (cat ["     (Set EMAIL_PROVIDER=gmail in .env to send real emails)"; nl]);
                 ConsoleLog (cat ["  [Job #"; "1"; "] ✅ Done (provider: "; "mock"; ", id: ";
                                  cat ["mock-"; of_Z (dateNow h)]; ")"]);
                 ConsoleLog (cat ["  [Job #"; "1"; "] ✅ Completed"])],
                completed standup_job)
        /\ jobs q1 = [completed standup_job]
        /\ step h net cfg q1 = None)
     /\ forall fuel, attempts_of (S fuel) (processor h net cfg) (fresh standup_job)
                     = (completed standup_job, 1%nat))
  /\ (forall t, createTransporter cfg = Ok (Some t) ->
        exists mail q1 evs j,
          step h net cfg (add (emailQueue url) standup_job) = Some (q1, evs, j)
          /\ deliveries evs = [(t, mail)]
          /\ mail_to mail = "a@example.com"
          /\ mail_subject mail = JStr standup_subject
          /\ (is_ok (sendMail net t mail) = true ->
                j = completed standup_job
                /\ jobs q1 = [completed standup_job]
                /\ step h net cfg q1 = None
                /\ forall fuel, attempts_of (S fuel) (processor h net cfg) (fresh standup_job)
                                = (completed standup_job, 1%nat)))
  /\ includes "Standup" standup_subject = true
  /\ attemptsMade (completed standup_job) = 0
  /\ status (completed standup_job) = Completed
  /\ forall to data,
       match render h "BOOKING_CONFIRMATION" data with
       | Throw e =>
         printable "BOOKING_CONFIRMATION" data = false
         /\ send h net cfg to "BOOKING_CONFIRMATION" data = ([], Throw e)
       | Ok m =>
         printable "BOOKING_CONFIRMATION" data = true
         /\ exists title,
              ToString (prop data "title") = Ok title
              /\ subject m = JStr (cat ["✅ Booking Confirmed: "; dq; title; dq])
              /\ includes title (cat ["✅ Booking Confirmed: "; dq; title; dq]) = true
              /\ (EmailConfig.provider cfg = "mock" ->
                    In (ConsoleLog (cat ["     Subject : ";
                                         cat ["✅ Booking Confirmed: "; dq; title; dq]]))
                       (fst (send h net cfg to "BOOKING_CONFIRMATION" data)))
              /\ (forall t mail,
                    In (t, mail) (deliveries (fst (send h net cfg to "BOOKING_CONFIRMATION" data))) ->
                    mail_subject mail = JStr (cat ["✅ Booking Confirmed: "; dq; title; dq]))
       end.
Proof.
  pose proof (send_registered h net cfg "a@example.com" "BOOKING_CONFIRMATION" standup eq_refl)
    as Hsend.
  destruct (render_standup h) as (body & Hr). rewrite Hr in Hsend.
  destruct Hsend as (s & b & Heq & Hsend). injection Heq as <- <-.
  assert (Hproc : processor h net cfg (fresh standup_job)
                  = bind (emit (ConsoleLog (cat ["  [Job #"; "1"; "] Processing: ";
                                                 "BOOKING_CONFIRMATION"; " → "; "a@example.com"])))
                      (fun _ => bind (send h net cfg "a@example.com" "BOOKING_CONFIRMATION" standup)
                         (fun result =>
                            bind (emit (ConsoleLog (cat ["  [Job #"; "1";
                                                         "] ✅ Done (provider: "; provider result;
                                                         ", id: "; messageId result; ")"])))
                              (fun _ => ret result))))
    by reflexivity.
  split; [| split; [| split; [reflexivity | split; [reflexivity | split; [reflexivity |]]]]].
  - intros Hmock. apply String.eqb_eq in Hmock. rewrite Hmock in Hsend.
    assert (Hp : processor h net cfg (fresh standup_job)
                 = ([ConsoleLog (cat ["  [Job #"; "1"; "] Processing: "; "BOOKING_CONFIRMATION";
                                      " → "; "a@example.com"]);
                     SetTimeout 500;
                     ConsoleLog (cat [nl; "  📧 [MOCK EMAIL]"]);
                     ConsoleLog (cat ["     To      : "; "a@example.com"]);
                     ConsoleLog (cat ["     Subject : "; standup_subject]);
                     ConsoleLog (cat ["     Type    : "; "BOOKING_CONFIRMATION"]);
                     ConsoleLog (cat ["     (Set EMAIL_PROVIDER=gmail in .env to send real emails)"; nl]);
                     ConsoleLog (cat ["  [Job #"; "1"; "] ✅ Done (provider: "; "mock"; ", id: ";
                                      cat ["mock-"; of_Z (dateNow h)]; ")"])],
                    Ok (mock_result h))).
    { rewrite Hproc, Hsend. reflexivity. }
    split.
    + unfold step, step_with. rewrite add_policy, claim_fresh, Hp.
      eexists. split; [reflexivity |]. split; reflexivity.
    + intros fuel. cbn [attempts_of status fresh].
      change (promote (fresh standup_job)) with (fresh standup_job).
      rewrite Hp. cbn [snd].
      change (settle (fresh standup_job) (Ok (mock_result h))) with (completed standup_job).
      destruct fuel; reflexivity.
  - intros t Ht. pose proof (createTransporter_mock cfg t Ht) as Hnm.
    apply String.eqb_neq in Hnm. rewrite Hnm, Ht in Hsend. cbv zeta in Hsend.
    match type of Hsend with
    | context [sendMail net t ?mm] => set (mail := mm) in *
    end.
    exists mail.
    unfold step, step_with. rewrite add_policy, claim_fresh.
    destruct (sendMail net t mail) as [mid|e] eqn:Hsm.
    + assert (Hp : exists evs out, processor h net cfg (fresh standup_job) = (evs, Ok out)
                                   /\ deliveries evs = [(t, mail)]).
      { rewrite Hproc, Hsend. eexists _, _. split; reflexivity. }
      destruct Hp as (evs & out & Hp & Hd). rewrite Hp.
      eexists _, _, _. split; [reflexivity |].
      split; [rewrite deliveries_app, Hd; reflexivity |].
      split; [reflexivity |]. split; [reflexivity |].
      intros _. split; [reflexivity |]. split; [reflexivity |]. split; [reflexivity |].
      intros fuel. cbn [attempts_of status fresh].
      change (promote (fresh standup_job)) with (fresh standup_job).
      rewrite Hp. cbn [snd].
      change (settle (fresh standup_job) (Ok out)) with (completed standup_job).
      destruct fuel; reflexivity.
    + assert (Hp : exists evs, processor h net cfg (fresh standup_job) = (evs, Throw e)
                               /\ deliveries evs = [(t, mail)]).
      { rewrite Hproc, Hsend. eexists. split; reflexivity. }
      destruct Hp as (evs & Hp & Hd). rewrite Hp.
      eexists _, _, _. split; [reflexivity |].
      split; [rewrite deliveries_app, Hd; reflexivity |].
      split; [reflexivity |]. split; [reflexivity |].
      intros Hok. discriminate Hok.
  - intros to data.
    pose proof (send_registered h net cfg to "BOOKING_CONFIRMATION" data eq_refl) as Hs.
    pose proof (render_printable h "BOOKING_CONFIRMATION" data eq_refl) as Hp.
    destruct (render h "BOOKING_CONFIRMATION" data) as [m|e] eqn:Hm.
    2:{ split; [symmetry; exact Hp | exact Hs]. }
    split; [symmetry; exact Hp |].
    destruct (confirmation_subject h data m Hm) as (title & Ht & Hsub).
    exists title. split; [exact Ht |]. split; [exact Hsub |].
    split; [apply confirmation_subject_embeds_title |].
    destruct Hs as (s' & b' & -> & Hs). cbn [subject] in Hsub.
    injection Hsub as ->. rewrite Hs. split.
    + intros Hmock. apply String.eqb_eq in Hmock. rewrite Hmock.
      cbn [fst In]. tauto.
    + intros t mail.
      destruct (String.eqb (EmailConfig.provider cfg) "mock"); [intros [] |].
      destruct (createTransporter cfg) as [[t'|]|e']; try (intros []).
      cbv zeta. destruct (sendMail net t' _); cbn [fst deliveries In];
        intros [Heq | []]; injection Heq as <- <-; reflexivity.
Qed.

Lemma happy_path_witness :
  (exists q1 evs,
     step Hosts.utc unreachable default_config
       (add (emailQueue (Some "rediss://queue")) standup_job)
     = Some (q1, evs, completed standup_job)
     /\ In (ConsoleLog (cat ["     Subject : "; standup_subject])) evs)
  /\ (exists mail q1 evs j,
        step Hosts.utc accepting gmail_config
          (add (emailQueue (Some "rediss://queue")) standup_job) = Some (q1, evs, j)
        /\ deliveries evs = [(Gmail "app@gmail.com" "abcd efgh ijkl mnop", mail)]
        /\ mail_subject mail = JStr standup_subject
        /\ j = completed standup_job).
Proof.
  split.
  - destruct (happy_path (Some "rediss://queue") Hosts.utc unreachable default_config)
      as (Hmock & _).
    destruct (Hmock eq_refl) as ((q1 & Hstep & _) & _).
    eexists _, _. split; [exact Hstep |].
    cbn [In]. tauto.
  - destruct (happy_path (Some "rediss://queue") Hosts.utc accepting gmail_config)
      as (_ & Hreal & _).
    destruct (Hreal _ eq_refl) as (mail & q1 & evs & j & Hstep & Hd & _ & Hsub & Hok).
    exists mail, q1, evs, j. split; [exact Hstep |]. split; [exact Hd |].
    split; [exact Hsub |]. apply Hok. reflexivity.
Defined.

End Retry.

(* ===================================================================== *)
(** ** The producer routes *)

Section Routes.

Import Str Models EmailService EmailQueue BookingRoutes Props.

(** The outcomes of POST /bookings. *)
Lemma post_booking_cases (h : Host) (pg : Pg) (req : Request) (w : World) :
  let title := data_get (body req) "title" in
  let start := data_get (body req) "start" in
  let end_ := data_get (body req) "end" in
  (code (fst (post_booking h pg req w)) = 400 /\ snd (post_booking h pg req w) = w)
  \/ (exists e,
        BookingModel_create pg (db w) (user_id req) title start end_ = Throw e
        /\ code (fst (post_booking h pg req w)) = 500
        /\ snd (post_booking h pg req w)
           = {| db := db w; queue := queue w;
                trace := trace w ++ [BookingQueryRejected; LoggedError e] |})
  \/ (exists d1 b,
        BookingModel_create pg (db w) (user_id req) title start end_ = Ok (d1, b)
        /\ exists c d2 tail,
             fst (post_booking h pg req w) = c
             /\ (code c = 500 \/ code c = 201)
             /\ snd (post_booking h pg req w)
                = {| db := d2;
                     queue := add (queue w) (confirmation_job (user_email req) b);
                     trace := trace w ++ [BookingInserted b;
                                          Enqueued (confirmation_job (user_email req) b)]
                                      ++ tail |}
             /\ enqueued tail = []).
Proof.
  cbv zeta. unfold post_booking, try_catch.
  destruct (negb (truthy (data_get (body req) "title"))
            || negb (truthy (data_get (body req) "start"))
            || negb (truthy (data_get (body req) "end"))).
  { left. split; reflexivity. }
  destruct (invalid_date (newDate h (data_get (body req) "start"))
            || invalid_date (newDate h (data_get (body req) "end"))).
  { left. split; reflexivity. }
  destruct (date_lt (newDate h (data_get (body req) "start")) (Some (dateNow h))).
  { left. split; reflexivity. }
  destruct (date_le (newDate h (data_get (body req) "end"))
                    (newDate h (data_get (body req) "start"))).
  { left. split; reflexivity. }
  right. unfold bind, await_create.
  destruct (BookingModel_create pg (db w) (user_id req) (data_get (body req) "title")
              (data_get (body req) "start") (data_get (body req) "end"))
    as [[d1 b]|e].
  2:{ left. exists e. split; [reflexivity |]. split; [reflexivity |].
      unfold record. cbn [snd db queue trace]. rewrite <- !app_assoc. reflexivity. }
  right. exists d1, b. split; [reflexivity |].
  unfold emailQueue_add, await_notify, record, with_db, ret. cbn [db queue trace].
  destruct (NotificationModel_create pg d1 _ _ _ _ _) as [[d2 n]|e].
  - eexists _, d2, [NotificationInserted n]. split; [reflexivity |].
    split; [right; reflexivity |]. split; [| reflexivity].
    cbn [fst snd db queue trace]. rewrite <- !app_assoc. reflexivity.
  - eexists _, d1, [NotificationQueryRejected; LoggedError e]. split; [reflexivity |].
    split; [left; reflexivity |]. split; [| reflexivity].
    cbn [fst snd db queue trace]. rewrite <- !app_assoc. reflexivity.
Qed.

(** The outcomes of DELETE /bookings/:id. *)
Lemma delete_booking_cases (pg : Pg) (req : Request) (w : World) :
  (exists e,
     BookingModel_cancel pg (db w) (params_id req) (user_id req) = Throw e
     /\ code (fst (delete_booking pg req w)) = 500
     /\ snd (delete_booking pg req w)
        = {| db := db w; queue := queue w;
             trace := trace w ++ [BookingQueryRejected; LoggedError e] |})
  \/ (exists d1,
        BookingModel_cancel pg (db w) (params_id req) (user_id req) = Ok (d1, None)
        /\ code (fst (delete_booking pg req w)) = 404
        /\ snd (delete_booking pg req w)
           = {| db := d1; queue := queue w; trace := trace w ++ [NothingCancelled] |})
  \/ (exists d1 b,
        BookingModel_cancel pg (db w) (params_id req) (user_id req) = Ok (d1, Some b)
        /\ exists c d2 tail,
             fst (delete_booking pg req w) = c
             /\ (code c = 500 \/ code c = 200)
             /\ bookings d2 = bookings d1
             /\ snd (delete_booking pg req w)
                = {| db := d2;
                     queue := add (queue w) (cancellation_job (user_email req) b);
                     trace := trace w ++ [BookingCancelled b;
                                          Enqueued (cancellation_job (user_email req) b)]
                                      ++ tail |}
             /\ enqueued tail = []).
Proof.
  unfold delete_booking, try_catch, bind, await_cancel.
  destruct (BookingModel_cancel pg (db w) (params_id req) (user_id req))
    as [[d1 [b|]]|e].
  - right. right. exists d1, b. split; [reflexivity |].
    unfold emailQueue_add, await_notify, record, with_db, ret. cbn [db queue trace].
    destruct (NotificationModel_create pg d1 _ _ _ _ _) as [[d2 n]|e] eqn:Hn.
    + eexists _, d2, [NotificationInserted n]. split; [reflexivity |].
      split; [right; reflexivity |]. split.
      { unfold NotificationModel_create in Hn. repeat case_match; simplify_eq. reflexivity. }
      split; [| reflexivity].
      cbn [fst snd db queue trace]. rewrite <- !app_assoc. reflexivity.
    + eexists _, d1, [NotificationQueryRejected; LoggedError e]. split; [reflexivity |].
      split; [left; reflexivity |]. split; [reflexivity |]. split; [| reflexivity].
      cbn [fst snd db queue trace]. rewrite <- !app_assoc. reflexivity.
  - right. left. exists d1. split; [reflexivity |]. split; reflexivity.
  - left. exists e. split; [reflexivity |]. split; [reflexivity |].
    unfold record. cbn [snd db queue trace]. rewrite <- !app_assoc. reflexivity.
Qed.

(** In a handler's events [a; Enqueued d] ++ tail, with nothing enqueued
    in the tail and [a] a resolved booking write, every enqueue comes after
    that write. *)
Lemma enqueue_follows_write (a : REvent) (d : JobData) (tail : list REvent) :
  (exists b, a = BookingInserted b \/ a = BookingCancelled b) ->
  forall i d', ([a; Enqueued d] ++ tail)%list !! i = Some (Enqueued d') ->
               committed_before ([a; Enqueued d] ++ tail)%list i.
Proof.
  intros [b Ha] i d' Hi. destruct i as [|i].
  - cbn in Hi. destruct Ha as [-> | ->]; discriminate Hi.
  - exists 0%nat, b. split; [lia |]. cbn. destruct Ha as [-> | ->]; [left | right]; reflexivity.
Qed.

Lemma no_enqueue_lookup (evs : list REvent) :
  enqueued evs = [] -> forall i d, evs !! i <> Some (Enqueued d).
Proof.
  induction evs as [|e evs IH]; intros He i d Hi.
  - rewrite lookup_nil in Hi. discriminate.
  - destruct i as [|i]; cbn in Hi.
    + injection Hi as ->. discriminate He.
    + destruct e; cbn [enqueued] in He; try discriminate He; by eapply IH.
Qed.

(** C6: in both producer routes [emailQueue.add] comes only after the
    booking write has resolved.  The events a handler adds to the trace
    contain an enqueue only at a position after a resolved insertion
    (POST /bookings) or cancellation (DELETE /bookings/:id); when the
    validation rejects the request (status 400), and whenever the booking
    write rejects or, for the cancellation, changes no row, nothing is
    enqueued and the queue is left as it was. *)
Theorem enqueue_only_after_commit (h : Host) (pg : Pg) (req : Request) (w : World) :
  (exists evs,
     trace (snd (post_booking h pg req w)) = (trace w ++ evs)%list
     /\ (forall i d, evs !! i = Some (Enqueued d) -> committed_before evs i)
     /\ (code (fst (post_booking h pg req w)) = 400 ->
           enqueued evs = [] /\ snd (post_booking h pg req w) = w)
     /\ (is_ok (BookingModel_create pg (db w) (user_id req)
                  (data_get (body req) "title") (data_get (body req) "start")
                  (data_get (body req) "end")) = false ->
           enqueued evs = [] /\ queue (snd (post_booking h pg req w)) = queue w))
  /\ (exists evs,
        trace (snd (delete_booking pg req w)) = (trace w ++ evs)%list
        /\ (forall i d, evs !! i = Some (Enqueued d) -> committed_before evs i)
        /\ ((forall d1 b, BookingModel_cancel pg (db w) (params_id req) (user_id req)
                          <> Ok (d1, Some b)) ->
              enqueued evs = [] /\ queue (snd (delete_booking pg req w)) = queue w)).
Proof.
  split.
  - destruct (post_booking_cases h pg req w)
      as [[Hc Hw] | [(e & Hcr & Hc & Hw) | (d1 & b & Hcr & c & d2 & tail & Hr & Hc & Hw & Ht)]];
      cbv zeta in *.
    + exists []. rewrite Hw, app_nil_r. split; [reflexivity |].
      split; [intros i d Hi; rewrite lookup_nil in Hi; discriminate |].
      split; intros _; split; reflexivity.
    + exists [BookingQueryRejected; LoggedError e]. rewrite Hw. split; [reflexivity |].
      split; [intros i d Hi; exfalso; revert Hi; apply no_enqueue_lookup; reflexivity |].
      split; [intros H4; rewrite Hc in H4; discriminate |].
      intros _. split; reflexivity.
    + exists ([BookingInserted b; Enqueued (confirmation_job (user_email req) b)] ++ tail)%list.
      rewrite Hw. split; [reflexivity |].
      split; [apply enqueue_follows_write; eauto |].
      split; [intros H4; rewrite Hr in H4; destruct Hc as [Hc | Hc]; rewrite Hc in H4; discriminate |].
      intros Hf. rewrite Hcr in Hf. discriminate Hf.
  - destruct (delete_booking_cases pg req w)
      as [(e & Hcr & Hc & Hw) | [(d1 & Hcr & Hc & Hw)
          | (d1 & b & Hcr & c & d2 & tail & Hr & Hc & Hb & Hw & Ht)]].
    + exists [BookingQueryRejected; LoggedError e]. rewrite Hw. split; [reflexivity |].
      split; [intros i d Hi; exfalso; revert Hi; apply no_enqueue_lookup; reflexivity |].
      intros _. split; reflexivity.
    + exists [NothingCancelled]. rewrite Hw. split; [reflexivity |].
      split; [intros i d Hi; exfalso; revert Hi; apply no_enqueue_lookup; reflexivity |].
      intros _. split; reflexivity.
    + exists ([BookingCancelled b; Enqueued (cancellation_job (user_email req) b)] ++ tail)%list.
      rewrite Hw. split; [reflexivity |].
      split; [apply enqueue_follows_write; eauto |].
      intros Hno. destruct (Hno _ _ Hcr).
Qed.

Lemma enqueue_only_after_commit_witness :
  snd (post_booking Hosts.utc pg_up
         (create_request "2020-01-01T10:00:00Z" "2020-01-01T11:00:00Z")
         (world_with cancelled_booking))
  = world_with cancelled_booking
  /\ queue (snd (post_booking Hosts.utc pg_down
                   (create_request "2026-04-02T09:00:00Z" "2026-04-02T09:30:00Z")
                   (world_with cancelled_booking)))
     = queue (world_with cancelled_booking).
Proof.
  split.
  - destruct (proj1 (enqueue_only_after_commit Hosts.utc pg_up
                       (create_request "2020-01-01T10:00:00Z" "2020-01-01T11:00:00Z")
                       (world_with cancelled_booking)))
      as (evs & _ & _ & H400 & _).
    exact (proj2 (H400 eq_refl)).
  - destruct (proj1 (enqueue_only_after_commit Hosts.utc pg_down
                       (create_request "2026-04-02T09:00:00Z" "2026-04-02T09:30:00Z")
                       (world_with cancelled_booking)))
      as (evs & _ & _ & _ & Hfail).
    exact (proj2 (Hfail eq_refl)).
Defined.

Lemma NotificationModel_create_bookings (pg : Pg) (d d' : Db) (u : Z)
    (ty ti me md : string) (n : Notification) :
  NotificationModel_create pg d u ty ti me md = Ok (d', n) -> bookings d' = bookings d.
Proof.
  unfold NotificationModel_create. repeat case_match; intros Hn; simplify_eq. reflexivity.
Qed.

(** What [BookingModel.cancel] does to the table. *)
Lemma BookingModel_cancel_spec (pg : Pg) (d : Db) (bookingId : string) (userId : Z) :
  match BookingModel_cancel pg d bookingId userId with
  | Throw _ => booking_query_ok pg = false \/ int4_in pg bookingId = None
  | Ok (d', None) =>
    d' = d /\ booking_query_ok pg = true
    /\ exists key, int4_in pg bookingId = Some key
       /\ (bookings d !! key = None
           \/ exists b, bookings d !! key = Some b /\ cancellable b userId = false)
  | Ok (d', Some row) =>
    exists key b, int4_in pg bookingId = Some key
      /\ bookings d !! key = Some b /\ cancellable b userId = true
      /\ b_status row = "cancelled"
      /\ bookings d' = <[ key := row ]> (bookings d)
  end.
Proof.
  unfold BookingModel_cancel.
  destruct (booking_query_ok pg); cbn [negb]; [| by left].
  destruct (int4_in pg bookingId) as [key|]; [| by right].
  destruct (bookings d !! key) as [b|] eqn:Hb.
  - destruct (cancellable b userId) eqn:Hc.
    + exists key, b. repeat split; assumption || reflexivity.
    + split; [reflexivity |]. split; [reflexivity |]. exists key. split; [reflexivity |]. eauto.
  - split; [reflexivity |]. split; [reflexivity |]. exists key. split; [reflexivity |]. by left.
Qed.

Lemma cancellable_false (b : Booking) (userId : Z) :
  b_user_id b <> userId \/ b_status b = "cancelled" -> cancellable b userId = false.
Proof.
  unfold cancellable. intros [Hu | Hs].
  - apply Z.eqb_neq in Hu. rewrite Hu. reflexivity.
  - rewrite Hs. apply andb_false_r.
Qed.

(** C10: cancellation is terminal.  When the cancel query is executed for
    a booking that is missing, belongs to another user or is already
    cancelled, [BookingModel.cancel] changes no row and returns undefined,
    and DELETE /bookings/:id answers 404, leaves database and queue as they
    were and adds neither an e-mail job nor a notification.  And whatever
    the request and the server do, a booking whose status is 'cancelled' is
    the same row after the handler. *)
Theorem cancellation_is_terminal (pg : Pg) (req : Request) (w : World) :
  (forall key,
     booking_query_ok pg = true ->
     int4_in pg (params_id req) = Some key ->
     (bookings (db w) !! key = None
      \/ exists b, bookings (db w) !! key = Some b
                   /\ (b_user_id b <> user_id req \/ b_status b = "cancelled")) ->
     BookingModel_cancel pg (db w) (params_id req) (user_id req) = Ok (db w, None)
     /\ code (fst (delete_booking pg req w)) = 404
     /\ db (snd (delete_booking pg req w)) = db w
     /\ queue (snd (delete_booking pg req w)) = queue w
     /\ trace (snd (delete_booking pg req w)) = (trace w ++ [NothingCancelled])%list)
  /\ (forall key b,
        bookings (db w) !! key = Some b ->
        b_status b = "cancelled" ->
        bookings (db (snd (delete_booking pg req w))) !! key = Some b).
Proof.
  split.
  - intros key Hup Hkey Hstate.
    assert (Hcancel : BookingModel_cancel pg (db w) (params_id req) (user_id req)
                      = Ok (db w, None)).
    { unfold BookingModel_cancel. rewrite Hup, Hkey. cbn [negb].
      destruct Hstate as [-> | (b & -> & Hb)]; [reflexivity |].
      by rewrite (cancellable_false _ _ Hb). }
    split; [exact Hcancel |].
    unfold delete_booking, try_catch, bind, await_cancel. rewrite Hcancel.
    repeat split; reflexivity.
  - intros key b Hb Hs.
    pose proof (BookingModel_cancel_spec pg (db w) (params_id req) (user_id req)) as Hspec.
    destruct (delete_booking_cases pg req w)
      as [(e & Hcr & Hc & Hw) | [(d1 & Hcr & Hc & Hw)
          | (d1 & row & Hcr & c & d2 & tail & Hr & Hc & Hbk & Hw & Ht)]];
      rewrite Hcr in Hspec; rewrite Hw; cbn [db].
    + exact Hb.
    + destruct Hspec as [-> _]. exact Hb.
    + destruct Hspec as (key' & b' & _ & Hb' & Hc' & _ & Hd1).
      rewrite Hbk, Hd1.
      destruct (decide (key' = key)) as [-> | Hne].
      * rewrite Hb in Hb'. injection Hb' as <-.
        rewrite (cancellable_false b (user_id req)) in Hc' by (by right). discriminate.
      * by rewrite lookup_insert_ne.
Qed.

Lemma cancellation_is_terminal_witness :
  code (fst (delete_booking pg_up cancel_request (world_with cancelled_booking))) = 404
  /\ bookings (db (snd (delete_booking pg_up cancel_request (world_with cancelled_booking))))
     !! 1 = Some cancelled_booking.
Proof.
  split.
  - refine (proj1 (proj2 (proj1 (cancellation_is_terminal pg_up cancel_request
                                   (world_with cancelled_booking)) 1 eq_refl eq_refl _))).
    right. exists cancelled_booking. split; [reflexivity | right; reflexivity].
  - refine (proj2 (cancellation_is_terminal pg_up cancel_request
                     (world_with cancelled_booking)) 1 cancelled_booking _ eq_refl).
    reflexivity.
Defined.

End Routes.

(* ===================================================================== *)
(** * Further properties of the code *)

(** ** [toPlainText] *)

Section PlainText.

Import Str EmailService Vocab.

Lemma strip_tags_aux_invariant (s : string) :
  has_tag (fst (strip_tags_aux s)) = false
  /\ (forall x, snd (strip_tags_aux s) = Some x -> has_tag x = false)
  /\ (snd (strip_tags_aux s) = None ->
      contains_char ">" (fst (strip_tags_aux s)) = false)
  /\ (forall r, s = String ">" r ->
      exists y, fst (strip_tags_aux s) = String ">" y
                /\ snd (strip_tags_aux s) = Some y).
Proof.
  induction s as [|c r IH].
  - repeat split; try reflexivity; intros; discriminate.
  - cbn [strip_tags_aux].
    destruct (strip_tags_aux r) as [sr tr] eqn:Haux. cbn [fst snd] in IH.
    destruct IH as (I1 & I2 & I3 & I4).
    destruct (Ascii.eqb c "<") eqn:Elt.
    + apply Ascii.eqb_eq in Elt. subst c. cbn [Ascii.eqb Bool.eqb fst snd].
      assert (Hhere : has_tag (match r with
                               | String ">" _ => String "<" sr
                               | _ => default (String "<" sr) tr
                               end) = false
                      /\ (tr = None ->
                          contains_char ">" (match r with
                                             | String ">" _ => String "<" sr
                                             | _ => default (String "<" sr) tr
                                             end) = false)).
      { destruct r as [|d r'].
        - destruct tr as [x|]; cbn [default].
          + split; [by apply I2 | discriminate].
          + split; [| intros _; cbn; by apply I3].
            cbn [has_tag Ascii.eqb Bool.eqb]. rewrite I1, (I3 eq_refl).
            destruct sr; cbn [andb orb]; rewrite ?andb_false_r; reflexivity.
        - destruct (Ascii.eqb d ">") eqn:Egt.
          + apply Ascii.eqb_eq in Egt. subst d.
            destruct (I4 r' eq_refl) as (y & Hy & Ht). subst sr tr.
            split; [| discriminate].
            cbn [has_tag Ascii.eqb Bool.eqb negb andb orb] in *. exact I1.
          + assert (Hm : match String d r' with
                         | String ">" _ => String "<" sr
                         | _ => default (String "<" sr) tr
                         end = default (String "<" sr) tr).
            { destruct d as [[] [] [] [] [] [] [] []]; try reflexivity. discriminate Egt. }
            rewrite Hm. destruct tr as [x|]; cbn [default].
            * split; [by apply I2 | discriminate].
            * split; [| intros _; cbn; by apply I3].
              cbn [has_tag Ascii.eqb Bool.eqb]. rewrite I1, (I3 eq_refl).
              destruct sr; cbn [andb orb]; rewrite ?andb_false_r; reflexivity. }
      destruct Hhere as [H1 H3].
      split; [exact H1 |]. split; [exact I2 |]. split; [exact H3 |].
      intros r0 Hr0. discriminate Hr0.
    + cbn [fst snd].
      destruct (Ascii.eqb c ">") eqn:Egt.
      * apply Ascii.eqb_eq in Egt. subst c.
        split; [cbn [has_tag Ascii.eqb Bool.eqb andb orb]; exact I1 |].
        split; [intros x Hx; injection Hx as <-; exact I1 |].
        split; [discriminate |].
        intros r0 _. exists sr. split; reflexivity.
      * split; [cbn [has_tag]; rewrite Elt; exact I1 |].
        split; [exact I2 |].
        split; [intros Hn; cbn [contains_char]; rewrite Egt; by apply I3 |].
        intros r0 Hr0. injection Hr0 as -> _. discriminate Egt.
Qed.

Lemma strip_tags_without_lt (s : string) :
  contains_char "<" s = false ->
  strip_tags_aux s = (s, snd (strip_tags_aux s)).
Proof.
  induction s as [|c r IH]; [reflexivity |].
  cbn [contains_char]. intros H. apply orb_false_elim in H as [Hc Hr].
  specialize (IH Hr). cbn [strip_tags_aux].
  destruct (strip_tags_aux r) as [sr tr]. injection IH as ->.
  rewrite Hc. reflexivity.
Qed.

(** X1: [toPlainText] removes every tag in one pass: what [strip_tags] returns
    has no position that matches [<[^>]+>] any more; and a text without [<]
    is returned as it is. *)
Theorem strip_tags_leaves_no_tag (s : string) :
  has_tag (strip_tags s) = false
  /\ (contains_char "<" s = false -> strip_tags s = s).
Proof.
  split.
  - apply strip_tags_aux_invariant.
  - intros H. unfold strip_tags. rewrite (strip_tags_without_lt s H). reflexivity.
Qed.

Lemma strip_tags_leaves_no_tag_witness :
  strip_tags "Tom & Jerry > Mickey" = "Tom & Jerry > Mickey".
Proof.
  apply (proj2 (strip_tags_leaves_no_tag "Tom & Jerry > Mickey")). reflexivity.
Defined.

End PlainText.

(** ** [createTransporter], [send] and [verifyConnection] *)

Section Transport.

Import Str EmailService Vocab Props.

Lemma missing_false (v : option string) :
  EmailConfig.missing v = false ->
  exists s, v = Some s /\ s <> EmptyString.
Proof.
  destruct v as [s|]; cbn; [| discriminate].
  intros H. exists s. split; [reflexivity |]. by apply String.eqb_neq.
Qed.

(** X2: [createTransporter] builds a transporter only from complete
    credentials: a Gmail transporter means the provider is 'gmail' and
    user and app password are both set and not empty; an SMTP transporter
    means the provider is 'smtp', host, user and password are set and not
    empty, and port and secure flag are the configured ones.  It returns
    [null] exactly when the provider is neither 'gmail' nor 'smtp'. *)
Theorem createTransporter_complete_credentials (cfg : EmailConfig.t) :
  (forall u p, createTransporter cfg = Ok (Some (Gmail u p)) ->
     EmailConfig.provider cfg = "gmail"
     /\ EmailConfig.gmailUser cfg = Some u /\ u <> EmptyString
     /\ EmailConfig.gmailAppPassword cfg = Some p /\ p <> EmptyString)
  /\ (forall host port secure u p,
        createTransporter cfg = Ok (Some (Smtp host port secure u p)) ->
        EmailConfig.provider cfg = "smtp"
        /\ EmailConfig.smtpHost cfg = Some host /\ host <> EmptyString
        /\ EmailConfig.smtpUser cfg = Some u /\ u <> EmptyString
        /\ EmailConfig.smtpPassword cfg = Some p /\ p <> EmptyString
        /\ port = EmailConfig.smtpPort cfg /\ secure = EmailConfig.smtpSecure cfg)
  /\ (createTransporter cfg = Ok None <->
      EmailConfig.provider cfg <> "gmail" /\ EmailConfig.provider cfg <> "smtp").
Proof.
  unfold createTransporter.
  destruct (String.eqb (EmailConfig.provider cfg) "gmail") eqn:Eg.
  - apply String.eqb_eq in Eg.
    destruct (EmailConfig.missing (EmailConfig.gmailUser cfg)) eqn:Mu;
      [| destruct (EmailConfig.missing (EmailConfig.gmailAppPassword cfg)) eqn:Mp];
      cbn [orb].
    1,2: split; [intros u p H; discriminate H |];
         split; [intros host port secure u p H; discriminate H |];
         split; [discriminate | intros [H _]; congruence].
    destruct (missing_false _ Mu) as (u0 & Hu & Hu0).
    destruct (missing_false _ Mp) as (p0 & Hp & Hp0).
    rewrite Hu, Hp. cbn [default].
    split; [intros u p H; injection H as <- <-; auto |].
    split; [intros host port secure u p H; discriminate H |].
    split; [discriminate | intros [H _]; congruence].
  - apply String.eqb_neq in Eg.
    destruct (String.eqb (EmailConfig.provider cfg) "smtp") eqn:Es.
    + apply String.eqb_eq in Es.
      destruct (EmailConfig.missing (EmailConfig.smtpHost cfg)) eqn:Mh;
        [| destruct (EmailConfig.missing (EmailConfig.smtpUser cfg)) eqn:Mu;
           [| destruct (EmailConfig.missing (EmailConfig.smtpPassword cfg)) eqn:Mp]];
        cbn [orb].
      1,2,3: split; [intros u p H; discriminate H |];
             split; [intros host port secure u p H; discriminate H |];
             split; [discriminate | intros [_ H]; congruence].
      destruct (missing_false _ Mh) as (h0 & Hh & Hh0).
      destruct (missing_false _ Mu) as (u0 & Hu & Hu0).
      destruct (missing_false _ Mp) as (p0 & Hp & Hp0).
      rewrite Hh, Hu, Hp. cbn [default].
      split; [intros u p H; discriminate H |].
      split; [intros host port secure u p H; injection H as <- <- <- <- <-;
              repeat split; auto |].
      split; [discriminate | intros [_ H]; congruence].
    + apply String.eqb_neq in Es.
      split; [intros u p H; discriminate H |].
      split; [intros host port secure u p H; discriminate H |].
      split; [auto | reflexivity].
Qed.

Lemma createTransporter_complete_credentials_witness :
  EmailConfig.provider gmail_config = "gmail"
  /\ EmailConfig.gmailUser gmail_config = Some "app@gmail.com"
  /\ "app@gmail.com" <> EmptyString
  /\ EmailConfig.gmailAppPassword gmail_config = Some "abcd efgh ijkl mnop"
  /\ "abcd efgh ijkl mnop" <> EmptyString.
Proof.
  apply (proj1 (createTransporter_complete_credentials gmail_config)
           "app@gmail.com" "abcd efgh ijkl mnop").
  reflexivity.
Defined.

(** X3: An effect of [send] comes after a successful rendering, and at most
    one message is handed to a transporter: when the template throws,
    [send] has done nothing at all; in every case the number of
    [sendMail] calls is at most one, and a call is made only with a
    provider other than 'mock' whose transporter could be built. *)
Theorem send_at_most_one_delivery (h : Host) (net : Network) (cfg : EmailConfig.t)
    (to type : string) (data : Payload) :
  (List.length (deliveries (fst (send h net cfg to type data))) <= 1)%nat
  /\ (forall e, render h type data = Throw e ->
        send h net cfg to type data
        = ([], Throw (if falsy (lookup type) then unknown_type_error type else e)))
  /\ (deliveries (fst (send h net cfg to type data)) <> [] ->
        EmailConfig.provider cfg <> "mock"
        /\ exists t, createTransporter cfg = Ok (Some t)).
Proof.
  destruct (falsy (lookup type)) eqn:Hf.
  { rewrite unknown_type_thrown by assumption. cbn.
    split; [lia |]. split; [reflexivity | congruence]. }
  rewrite send_unfold by assumption. unfold render, bind, lift.
  destruct (call_member (lookup type) h data) as [m|e0].
  2:{ cbn. split; [lia |]. split; [intros e He; congruence | congruence]. }
  destruct (String.eqb (EmailConfig.provider cfg) "mock") eqn:Hp.
  { destruct (ToString (subject m)); cbn;
      (split; [lia |]; split; [discriminate | congruence]). }
  apply String.eqb_neq in Hp.
  destruct (createTransporter cfg) as [[t|]|e0].
  2,3: cbn; split; [lia |]; split; [discriminate | congruence].
  destruct (toPlainText (html m)) as [text|e0].
  2:{ cbn. split; [lia |]. split; [discriminate | congruence]. }
  match goal with
  | |- context [sendMail net t ?mm] => set (mail := mm)
  end.
  destruct (sendMail net t mail) as [mid|e0]; cbn;
    (split; [lia |]; split; [discriminate | intros _; split; [exact Hp | eauto]]).
Qed.

Lemma send_at_most_one_delivery_witness :
  send Hosts.utc accepting gmail_config "a@example.com" "WELCOME" (PScalar JNull)
  = ([], Throw (TypeErr "Cannot read properties of null (reading 'name')")).
Proof.
  apply (proj1 (proj2 (send_at_most_one_delivery Hosts.utc accepting gmail_config
                         "a@example.com" "WELCOME" (PScalar JNull)))).
  reflexivity.
Defined.

(** X4: A provider other than 'mock', 'gmail' and 'smtp' is not treated as
    mock by [send]: [createTransporter] returns [null] for it and [send]
    then fails on [transporter.sendMail], for every type, recipient and
    payload; nothing reaches a mail server.  [verifyConnection] logs the
    failure and resolves. *)
Theorem unknown_provider_always_fails (h : Host) (net : Network) (cfg : EmailConfig.t)
    (to type : string) (data : Payload) :
  known_provider (EmailConfig.provider cfg) = false ->
  is_ok (snd (send h net cfg to type data)) = false
  /\ forallb (fun e => negb (touches_network e))
             (fst (send h net cfg to type data)) = true
  /\ (forall m, render h type data = Ok m -> falsy (lookup type) = false ->
        send h net cfg to type data
        = ([], Throw (TypeErr "Cannot read properties of null (reading 'sendMail')")))
  /\ verifyConnection net cfg
     = ([connection_failed cfg
           (TypeErr "Cannot read properties of null (reading 'verify')")], Ok tt).
Proof.
  unfold known_provider. intros Hk.
  apply orb_false_elim in Hk as [Hk Hs]. apply orb_false_elim in Hk as [Hm Hg].
  assert (Hnull : createTransporter cfg = Ok None).
  { unfold createTransporter. rewrite Hg, Hs. reflexivity. }
  assert (Hv : verifyConnection net cfg
     = ([connection_failed cfg
           (TypeErr "Cannot read properties of null (reading 'verify')")], Ok tt)).
  { unfold verifyConnection. rewrite Hm, Hnull. reflexivity. }
  destruct (falsy (lookup type)) eqn:Hf.
  { rewrite unknown_type_thrown by assumption. cbn.
    split; [reflexivity |]. split; [reflexivity |]. split; [discriminate | exact Hv]. }
  rewrite send_unfold by assumption. unfold render, bind, lift.
  destruct (call_member (lookup type) h data) as [m|e0]; rewrite ?Hm, ?Hnull; cbn;
    (split; [reflexivity |]; split; [reflexivity |]; split; [| exact Hv]).
  - intros; reflexivity.
  - discriminate.
Qed.

Lemma unknown_provider_always_fails_witness :
  is_ok (snd (send Hosts.utc accepting (EmailConfig.load {[ "EMAIL_PROVIDER" := "sendgrid" ]})
                "a@example.com" "WELCOME" (PObj {[ "name" := JStr "Ann" ]}))) = false.
Proof.
  apply (unknown_provider_always_fails Hosts.utc accepting
           (EmailConfig.load {[ "EMAIL_PROVIDER" := "sendgrid" ]})
           "a@example.com" "WELCOME" (PObj {[ "name" := JStr "Ann" ]})).
  reflexivity.
Defined.

(** X5: [verifyConnection] never sends a message, and in mock mode it neither
    builds a transporter nor contacts a mail server; whenever it contacts
    one, the transporter was built from complete credentials. *)
Theorem verifyConnection_sends_nothing (net : Network) (cfg : EmailConfig.t) :
  deliveries (fst (verifyConnection net cfg)) = []
  /\ (EmailConfig.provider cfg = "mock" ->
        forallb (fun e => negb (touches_network e))
                (fst (verifyConnection net cfg)) = true)
  /\ (forall t, In (CallVerify t) (fst (verifyConnection net cfg)) ->
        createTransporter cfg = Ok (Some t)).
Proof.
  unfold verifyConnection.
  destruct (String.eqb (EmailConfig.provider cfg) "mock") eqn:Hm.
  { cbn. split; [reflexivity |]. split; [reflexivity |].
    intros t [H | []]. discriminate H. }
  apply String.eqb_neq in Hm.
  destruct (createTransporter cfg) as [[t|]|e]; cbn [bind lift throw].
  - destruct (verify net t) as [[]|e]; cbn;
      (split; [reflexivity |]; split; [congruence |]);
      intros t' H; repeat (destruct H as [H | H]; try discriminate H);
      try (injection H as <-; reflexivity); destruct H.
  - cbn. split; [reflexivity |]. split; [congruence |].
    intros t' H. repeat (destruct H as [H | H]; try discriminate H). destruct H.
  - cbn. split; [reflexivity |]. split; [congruence |].
    intros t' H. repeat (destruct H as [H | H]; try discriminate H). destruct H.
Qed.

Lemma verifyConnection_sends_nothing_witness :
  forallb (fun e => negb (touches_network e))
          (fst (verifyConnection unreachable default_config)) = true.
Proof.
  apply (proj1 (proj2 (verifyConnection_sends_nothing unreachable default_config))).
  reflexivity.
Defined.

End Transport.

(** ** The processor of worker.js *)

Section Processor.

Import Str EmailService EmailQueue Worker Vocab Props.

(** X6: The processor hands the outcome of [send] to the queue unchanged: it
    resolves with the result of [send], or rejects with the very error
    [send] rejected with, so no failure is swallowed.  Its events are the
    "Processing" line, the events of [send], and the "Done" line exactly
    when [send] succeeded; it hands to a transporter what [send] does. *)
Theorem processor_propagates_outcome (h : Host) (net : Network) (cfg : EmailConfig.t)
    (job : Job) :
  let sent := send h net cfg (email (job_data job)) (type (job_data job))
                (data (job_data job)) in
  snd (processor h net cfg job) = snd sent
  /\ deliveries (fst (processor h net cfg job)) = deliveries (fst sent)
  /\ exists processing_line,
       fst (processor h net cfg job)
       = (ConsoleLog processing_line :: fst sent
          ++ match snd sent with
             | Ok result =>
               [ConsoleLog (cat ["  [Job #"; of_Z (id job); "] ✅ Done (provider: ";
                                 provider result; ", id: "; messageId result; ")"])]
             | Throw _ => []
             end)%list.
Proof.
  cbv zeta. unfold processor.
  destruct (send h net cfg (email (job_data job)) (type (job_data job))
              (data (job_data job))) as [evs [result|e]];
    cbn [bind emit ret fst snd app].
  - split; [reflexivity |]. split.
    + cbn [deliveries]. rewrite deliveries_app. cbn [deliveries]. apply app_nil_r.
    + eexists. reflexivity.
  - split; [reflexivity |]. split.
    + cbn [deliveries]. reflexivity.
    + eexists. rewrite app_nil_r. reflexivity.
Qed.

End Processor.

(** ** config/email.js *)

Section Config.

Import Str Text.

Lemma read_digits_acc (l : Decimal.uint) (acc : positive) :
  read_digits 10 (Some (Z.pos acc)) (NilEmpty.string_of_uint l)
  = Some (Z.pos (Pos.of_uint_acc l acc)).
Proof.
  revert acc. induction l as [|l IH|l IH|l IH|l IH|l IH|l IH|l IH|l IH|l IH|l IH];
    intros acc; cbn [NilEmpty.string_of_uint Pos.of_uint_acc]; [reflexivity | ..];
    cbn [read_digits]; cbv [digit_val nat_of_ascii]; cbn -[Z.mul Z.add Pos.mul Pos.add read_digits];
    rewrite <- IH; f_equal; f_equal; lia.
Qed.

Lemma read_digits_uint (l : Decimal.uint) (start : option Z) :
  l <> Decimal.Nil -> start = None \/ start = Some 0 ->
  read_digits 10 start (NilEmpty.string_of_uint l) = Some (Z.of_N (Pos.of_uint l)).
Proof.
  revert start. induction l as [|l IH|l IH|l IH|l IH|l IH|l IH|l IH|l IH|l IH|l IH];
    intros start Hne Hstart; [congruence | ..];
    cbn [NilEmpty.string_of_uint Pos.of_uint read_digits];
    cbv [digit_val nat_of_ascii]; cbn -[Z.mul Z.add read_digits];
    try (destruct Hstart as [-> | ->]; cbn [default]; apply read_digits_acc).
  destruct l as [|l'|l'|l'|l'|l'|l'|l'|l'|l'|l'];
    [destruct Hstart as [-> | ->]; reflexivity | ..];
    (apply IH; [discriminate | right; destruct Hstart as [-> | ->]; reflexivity]).
Qed.

Lemma ws_len_decimal (c : ascii) (r : string) :
  (nat_of_ascii c =? 45)%nat || ((48 <=? nat_of_ascii c) && (nat_of_ascii c <=? 57))%nat = true ->
  ws_len (String c r) = 0%nat.
Proof.
  intros H. unfold ws_len. set (n := nat_of_ascii c) in *.
  assert (Hn : n = 45%nat \/ (48 <= n <= 57)%nat).
  { apply orb_true_iff in H as [H | H].
    - left. by apply Nat.eqb_eq.
    - right. apply andb_true_iff in H as [H1 H2].
      apply Nat.leb_le in H1, H2. lia. }
  assert (E1 : ((9 <=? n) && (n <=? 13) || (n =? 32))%nat = false).
  { destruct (Nat.leb_spec n 13); destruct (Nat.eqb_spec n 32);
      rewrite ?andb_false_r; cbn; try reflexivity; lia. }
  rewrite E1.
  assert (E2 : forall k, (192 <= k)%nat -> (n =? k)%nat = false).
  { intros k Hk. apply Nat.eqb_neq. lia. }
  destruct r as [|b r']; [reflexivity |].
  rewrite (E2 194%nat) by lia. cbn [andb].
  destruct r' as [|e r'']; [reflexivity |].
  rewrite (E2 225%nat), (E2 226%nat), (E2 227%nat), (E2 239%nat) by lia.
  reflexivity.
Qed.

Lemma skip_ws_decimal (c : ascii) (r : string) :
  (nat_of_ascii c =? 45)%nat || ((48 <=? nat_of_ascii c) && (nat_of_ascii c <=? 57))%nat = true ->
  skip_ws (String c r) = String c r.
Proof.
  intros H. unfold skip_ws. cbn [String.length skip_ws_fuel].
  rewrite (ws_len_decimal c r H). reflexivity.
Qed.

(** [parseInt] of a string of decimal digits (not empty), with or without
    a minus sign, is the number the digits write. *)
Lemma parseInt_uint (l : Decimal.uint) :
  l <> Decimal.Nil ->
  parseInt (NilEmpty.string_of_uint l) = Some (Z.of_N (Pos.of_uint l))
  /\ parseInt (String "-" (NilEmpty.string_of_uint l)) = Some (- Z.of_N (Pos.of_uint l)).
Proof.
  intros Hne.
  pose proof (read_digits_uint l None Hne (or_introl eq_refl)) as Hr.
  split; unfold parseInt.
  - destruct l as [|l'|l'|l'|l'|l'|l'|l'|l'|l'|l']; [congruence | ..];
      try (cbn [NilEmpty.string_of_uint] in *; rewrite skip_ws_decimal by reflexivity;
           cbv beta iota zeta; rewrite Hr; reflexivity).
    destruct l' as [|l'|l'|l'|l'|l'|l'|l'|l'|l'|l'];
      cbn [NilEmpty.string_of_uint] in *; rewrite skip_ws_decimal by reflexivity;
      cbv beta iota zeta; rewrite Hr; reflexivity.
  - rewrite skip_ws_decimal by reflexivity.
    destruct l as [|l'|l'|l'|l'|l'|l'|l'|l'|l'|l']; [congruence | ..];
      try (cbn [NilEmpty.string_of_uint] in *;
           cbv beta iota zeta; rewrite Hr; reflexivity).
    destruct l' as [|l'|l'|l'|l'|l'|l'|l'|l'|l'|l'];
      cbn [NilEmpty.string_of_uint] in *;
      cbv beta iota zeta; rewrite Hr; reflexivity.
Qed.

(** X7: [parseInt(String(n))] is [n] for every integer that a JavaScript
    number holds exactly, so a numeric setting written as a decimal number
    in the environment is read back as written: EMAIL_RETRY_ATTEMPTS and
    SMTP_PORT take the value written, except 0, for which the default (3
    and 587) is taken. *)
Theorem config_reads_decimal_settings (n : Z) (env : EmailConfig.Env) :
  Z.abs n <= 9007199254740992 ->
  parseInt (of_Z n) = Some n
  /\ EmailConfig.retryAttempts
       (EmailConfig.load (<[ "EMAIL_RETRY_ATTEMPTS" := of_Z n ]> env))
     = (if n =? 0 then 3 else n)
  /\ EmailConfig.smtpPort (EmailConfig.load (<[ "SMTP_PORT" := of_Z n ]> env))
     = (if n =? 0 then 587 else n).
Proof.
  intros _.
  assert (Hp : parseInt (of_Z n) = Some n).
  { unfold of_Z. destruct n as [|p|p].
    - reflexivity.
    - cbn [Z.to_int NilZero.string_of_int].
      pose proof (DecimalPos.Unsigned.to_uint_nonnil p) as Hne.
      pose proof (DecimalPos.Unsigned.of_to p) as Hof.
      destruct (parseInt_uint (Pos.to_uint p) Hne) as [H _].
      unfold NilZero.string_of_uint.
      destruct (Pos.to_uint p) eqn:E; try congruence; rewrite H, Hof; reflexivity.
    - cbn [Z.to_int NilZero.string_of_int].
      pose proof (DecimalPos.Unsigned.to_uint_nonnil p) as Hne.
      pose proof (DecimalPos.Unsigned.of_to p) as Hof.
      destruct (parseInt_uint (Pos.to_uint p) Hne) as [_ H].
      unfold NilZero.string_of_uint.
      destruct (Pos.to_uint p) eqn:E; try congruence; rewrite H, Hof; reflexivity. }
  split; [exact Hp |].
  unfold EmailConfig.load, EmailConfig.retryAttempts, EmailConfig.smtpPort,
    EmailConfig.env_int_or.
  rewrite !lookup_insert_eq, Hp. split; reflexivity.
Qed.

Lemma config_reads_decimal_settings_witness :
  EmailConfig.smtpPort (EmailConfig.load {[ "SMTP_PORT" := "465" ]}) = 465.
Proof.
  refine (proj2 (proj2 (config_reads_decimal_settings 465 ∅ _))). cbn. lia.
Defined.

(** X8: Whatever the environment holds, the loaded configuration has a
    provider and a sender address that are not empty and a port and a
    retry count that are not 0; with nothing set it is the mock provider,
    port 587 and 3 retries. *)
Theorem config_defaults (env : EmailConfig.Env) :
  EmailConfig.provider (EmailConfig.load env) <> EmptyString
  /\ EmailConfig.fromAddress (EmailConfig.load env) <> EmptyString
  /\ EmailConfig.smtpPort (EmailConfig.load env) <> 0
  /\ EmailConfig.retryAttempts (EmailConfig.load env) <> 0
  /\ (env !! "EMAIL_PROVIDER" = None \/ env !! "EMAIL_PROVIDER" = Some EmptyString ->
      EmailConfig.provider (EmailConfig.load env) = "mock").
Proof.
  unfold EmailConfig.load, EmailConfig.provider, EmailConfig.fromAddress,
    EmailConfig.smtpPort, EmailConfig.retryAttempts,
    EmailConfig.env_or, EmailConfig.env_int_or.
  repeat split.
  - destruct (env !! "EMAIL_PROVIDER") as [s|]; [| discriminate].
    destruct (String.eqb s EmptyString) eqn:E; [discriminate |]. by apply String.eqb_neq.
  - destruct (env !! "EMAIL_FROM") as [s|]; [| discriminate].
    destruct (String.eqb s EmptyString) eqn:E; [discriminate |]. by apply String.eqb_neq.
  - destruct (env !! "SMTP_PORT") as [s|]; [| discriminate].
    destruct (parseInt s) as [k|]; [| discriminate].
    destruct (Z.eqb_spec k 0); [discriminate | assumption].
  - destruct (env !! "EMAIL_RETRY_ATTEMPTS") as [s|]; [| discriminate].
    destruct (parseInt s) as [k|]; [| discriminate].
    destruct (Z.eqb_spec k 0); [discriminate | assumption].
  - intros [-> | ->]; reflexivity.
Qed.

End Config.

(** ** The booking routes *)

Section Bookings.

Import Str Models EmailService EmailQueue BookingRoutes BookingApi Vocab Props.

Lemma evolves_refl (who : Z) (b : Booking) : evolves who b b.
Proof. repeat split; auto. Qed.

Lemma evolves_trans (who : Z) (a b c : Booking) :
  evolves who a b -> evolves who b c -> evolves who a c.
Proof.
  intros (A1 & A2 & A3 & A4 & A5) (B1 & B2 & B3 & B4 & B5).
  split; [congruence |]. split; [congruence |]. split; [congruence |].
  split; [auto |].
  intros Hne. pose proof (A5 Hne) as ->. auto.
Qed.

Lemma db_step_same (who : Z) (d d' : Db) :
  bookings d' = bookings d -> next_booking_id d' = next_booking_id d ->
  well_formed d -> db_step who d d'.
Proof.
  intros Hb Hn Hwf. split; [| split; [lia | split]].
  - intros key b H. rewrite Hb in H. rewrite Hn. by apply Hwf.
  - intros key b H. exists b. rewrite Hb. split; [assumption | apply evolves_refl].
  - intros key b' H1 H2. rewrite Hb in H2. congruence.
Qed.

Lemma db_step_notified (who : Z) (d d1 d2 : Db) :
  bookings d2 = bookings d1 -> next_booking_id d2 = next_booking_id d1 ->
  db_step who d d1 -> db_step who d d2.
Proof.
  intros Hb Hn (Hwf & Hle & Hev & Hnew). split; [| split; [lia | split]].
  - intros key b H. rewrite Hb in H. rewrite Hn. by apply Hwf.
  - intros key b H. rewrite Hb. by apply Hev.
  - intros key b' H1 H2. rewrite Hb in H2. by apply Hnew.
Qed.

Lemma NotificationModel_create_step (pg : Pg) (d d' : Db) (u : Z)
    (ty ti me md : string) (n : Notification) :
  NotificationModel_create pg d u ty ti me md = Ok (d', n) ->
  bookings d' = bookings d /\ next_booking_id d' = next_booking_id d.
Proof.
  unfold NotificationModel_create. repeat case_match; intros Hn; simplify_eq.
  split; reflexivity.
Qed.

Lemma create_step (pg : Pg) (d d' : Db) (u : Z) (t s e : JVal) (b : Booking) :
  BookingModel_create pg d u t s e = Ok (d', b) ->
  b_id b = next_booking_id d /\ b_user_id b = u /\ b_status b = "confirmed"
  /\ bookings d' = <[ b_id b := b ]> (bookings d)
  /\ next_booking_id d' = next_booking_id d + 1
  /\ (well_formed d -> bookings d !! b_id b = None /\ db_step u d d').
Proof.
  unfold BookingModel_create. repeat case_match; intros Hcr; simplify_eq. cbn.
  do 5 (split; [reflexivity |]).
  intros Hwf.
  assert (Hfresh : bookings d !! next_booking_id d = None).
  { destruct (bookings d !! next_booking_id d) as [b0|] eqn:E; [| reflexivity].
    destruct (Hwf _ _ E). lia. }
  split; [exact Hfresh |].
  split; [| split; [cbn; lia | split]]; cbn.
  - intros key b Hb. cbn [bookings next_booking_id] in *.
    destruct (decide (key = next_booking_id d)) as [-> | Hne].
    + rewrite lookup_insert_eq in Hb. injection Hb as <-. cbn. split; [reflexivity | lia].
    + rewrite lookup_insert_ne in Hb by congruence.
      destruct (Hwf _ _ Hb). split; [assumption | lia].
  - intros key b Hb. cbn [bookings next_booking_id] in *.
    destruct (decide (key = next_booking_id d)) as [-> | Hne]; [congruence |].
    rewrite lookup_insert_ne by congruence. exists b. split; [assumption | apply evolves_refl].
  - intros key b' Hn Hs. cbn [bookings next_booking_id] in *.
    destruct (decide (key = next_booking_id d)) as [-> | Hne].
    + rewrite lookup_insert_eq in Hs. injection Hs as <-. repeat split.
    + rewrite lookup_insert_ne in Hs by congruence. congruence.
Qed.

(** Replacing the row under [key] by one it may evolve into. *)
Lemma db_step_replace (who : Z) (d d' : Db) (key : Z) (b row : Booking) :
  well_formed d ->
  bookings d !! key = Some b -> evolves who b row ->
  bookings d' = <[ key := row ]> (bookings d) ->
  next_booking_id d' = next_booking_id d ->
  db_step who d d'.
Proof.
  intros Hwf Hb Hev Hd Hn. split; [| split; [lia | split]].
  - intros k x Hx. rewrite Hd in Hx. rewrite Hn.
    destruct (decide (key = k)) as [<- | Hne].
    + rewrite lookup_insert_eq in Hx. injection Hx as <-.
      destruct (Hwf _ _ Hb) as [Hid Hlt]. destruct Hev as (E1 & _). split; [congruence | assumption].
    + rewrite lookup_insert_ne in Hx by assumption. by apply Hwf.
  - intros k x Hx. rewrite Hd.
    destruct (decide (key = k)) as [<- | Hne].
    + rewrite lookup_insert_eq. exists row. split; [reflexivity |]. congruence.
    + rewrite lookup_insert_ne by assumption. exists x. split; [assumption | apply evolves_refl].
  - intros k x Hnone Hx. rewrite Hd in Hx.
    destruct (decide (key = k)) as [<- | Hne]; [congruence |].
    rewrite lookup_insert_ne in Hx by assumption. congruence.
Qed.

Lemma cancel_step (pg : Pg) (d d' : Db) (bookingId : string) (u : Z) (r : option Booking) :
  BookingModel_cancel pg d bookingId u = Ok (d', r) ->
  well_formed d -> db_step u d d'.
Proof.
  intros Hc Hwf. unfold BookingModel_cancel in Hc.
  destruct (negb (booking_query_ok pg)); [discriminate |].
  destruct (int4_in pg bookingId) as [key|]; [| discriminate].
  destruct (bookings d !! key) as [b|] eqn:Hb.
  2:{ injection Hc as <- <-. by apply db_step_same. }
  destruct (cancellable b u) eqn:Hcan.
  2:{ injection Hc as <- <-. by apply db_step_same. }
  injection Hc as <- <-.
  unfold cancellable in Hcan. apply andb_true_iff in Hcan as [Hu _].
  apply Z.eqb_eq in Hu.
  eapply db_step_replace; [exact Hwf | exact Hb | | reflexivity | reflexivity].
  split; [reflexivity |]. split; [reflexivity |]. split; [reflexivity |].
  split; [reflexivity |]. intros Hne. congruence.
Qed.

Lemma assign_undefined {A} (read : JVal -> option A) (old : A) :
  BookingModel.assign read JUndefined old = Ok old.
Proof. reflexivity. Qed.

(** What [BookingModel.update] does to the table. *)
Lemma assign_given {A} (read : JVal -> option A) (v : JVal) (old x : A) :
  v <> JUndefined -> BookingModel.assign read v old = Ok x -> read v = Some x.
Proof.
  intros Hv. destruct v; cbn; try congruence;
    destruct (read _); congruence.
Qed.

Lemma update_spec (pg : Pg) (d : Db) (bookingId : string) (u : Z) (t s e : JVal) :
  match BookingModel.update pg d bookingId u t s e with
  | Throw _ => True
  | Ok (d', None) =>
    d' = d
    /\ ((t = JUndefined /\ s = JUndefined /\ e = JUndefined)
        \/ exists key, int4_in pg bookingId = Some key
             /\ (bookings d !! key = None
                 \/ exists b, bookings d !! key = Some b /\ b_user_id b <> u))
  | Ok (d', Some row) =>
    exists key b, int4_in pg bookingId = Some key
      /\ bookings d !! key = Some b /\ b_user_id b = u
      /\ BookingModel.assign (varchar255_in pg) t (b_title b) = Ok (b_title row)
      /\ BookingModel.assign (timestamp_in pg) s (b_start_time b) = Ok (b_start_time row)
      /\ BookingModel.assign (timestamp_in pg) e (b_end_time b) = Ok (b_end_time row)
      /\ b_id row = b_id b /\ b_user_id row = b_user_id b /\ b_status row = b_status b
      /\ b_created_at row = b_created_at b /\ b_updated_at row = current_timestamp pg
      /\ bookings d' = <[ key := row ]> (bookings d)
      /\ next_booking_id d' = next_booking_id d
      /\ notifications d' = notifications d
      /\ next_notification_id d' = next_notification_id d
  end.
Proof.
  unfold BookingModel.update.
  destruct (bool_decide (t = JUndefined) && bool_decide (s = JUndefined)
            && bool_decide (e = JUndefined)) eqn:Hall.
  { split; [reflexivity |]. left.
    apply andb_true_iff in Hall as [Hall He]. apply andb_true_iff in Hall as [Ht Hs].
    apply bool_decide_eq_true in Ht, Hs, He. auto. }
  destruct (negb (booking_query_ok pg)); [exact I |].
  destruct (negb (BookingModel.binds pg s && BookingModel.binds pg e)); [exact I |].
  destruct (int4_in pg bookingId) as [key|]; [| exact I].
  destruct (bookings d !! key) as [b|] eqn:Hb.
  2:{ split; [reflexivity |]. right. exists key. split; [reflexivity | by left]. }
  destruct (Z.eqb_spec (b_user_id b) u) as [Hu | Hu].
  2:{ split; [reflexivity |]. right. exists key. split; [reflexivity |]. right. eauto. }
  destruct (BookingModel.assign (varchar255_in pg) t (b_title b)) as [t'|] eqn:Et; [| exact I].
  destruct (BookingModel.assign (timestamp_in pg) s (b_start_time b)) as [s'|] eqn:Es; [| exact I].
  destruct (BookingModel.assign (timestamp_in pg) e (b_end_time b)) as [e'|] eqn:Ee; [| exact I].
  exists key, b. cbn. repeat split; auto.
Qed.

Lemma update_step (pg : Pg) (d d' : Db) (bookingId : string) (u : Z) (t s e : JVal)
    (r : option Booking) :
  BookingModel.update pg d bookingId u t s e = Ok (d', r) ->
  well_formed d -> db_step u d d'.
Proof.
  intros Hu Hwf.
  pose proof (update_spec pg d bookingId u t s e) as Hs. rewrite Hu in Hs.
  destruct r as [row|].
  - destruct Hs as (key & b & _ & Hb & Hown & _ & _ & _ & H1 & H2 & H3 & H4 & _ & Hd & Hn & _).
    eapply db_step_replace; eauto.
    repeat split; auto; try congruence.
  - destruct Hs as (-> & _). by apply db_step_same.
Qed.

Lemma post_booking_db (h : Host) (pg : Pg) (req : Request) (w : World) :
  (db (snd (post_booking h pg req w)) = db w
   /\ queue (snd (post_booking h pg req w)) = queue w
   /\ code (fst (post_booking h pg req w)) <> 201)
  \/ exists d1 b,
       BookingModel_create pg (db w) (user_id req) (data_get (body req) "title")
         (data_get (body req) "start") (data_get (body req) "end") = Ok (d1, b)
       /\ bookings (db (snd (post_booking h pg req w))) = bookings d1
       /\ next_booking_id (db (snd (post_booking h pg req w))) = next_booking_id d1
       /\ queue (snd (post_booking h pg req w))
          = add (queue w) (confirmation_job (user_email req) b)
       /\ (fst (post_booking h pg req w)
           = {| code := 201; json := JsonBooking "Booking created successfully" b |}
           \/ (code (fst (post_booking h pg req w)) = 500
               /\ is_ok (NotificationModel_create pg d1 (user_id req) "BOOKING_CONFIRMED"
                           (cat ["Booking "; dq; toStr (data_get (body req) "title"); dq;
                                 " confirmed"])
                           (cat ["Your booking is scheduled from ";
                                 dateToLocaleString h (newDate h (data_get (body req) "start"));
                                 " to ";
                                 dateToLocaleString h (newDate h (data_get (body req) "end"));
                                 "."])
                           (booking_metadata (b_id b))) = false)).
Proof.
  unfold post_booking, BookingRoutes.try_catch.
  destruct (negb (truthy (data_get (body req) "title"))
            || negb (truthy (data_get (body req) "start"))
            || negb (truthy (data_get (body req) "end"))).
  { left. repeat split. discriminate. }
  destruct (invalid_date (newDate h (data_get (body req) "start"))
            || invalid_date (newDate h (data_get (body req) "end"))).
  { left. repeat split. discriminate. }
  destruct (date_lt (newDate h (data_get (body req) "start")) (Some (dateNow h))).
  { left. repeat split. discriminate. }
  destruct (date_le (newDate h (data_get (body req) "end"))
                    (newDate h (data_get (body req) "start"))).
  { left. repeat split. discriminate. }
  unfold BookingRoutes.bind, await_create.
  destruct (BookingModel_create pg (db w) (user_id req) (data_get (body req) "title")
              (data_get (body req) "start") (data_get (body req) "end"))
    as [[d1 b]|e].
  2:{ left. repeat split. discriminate. }
  right. exists d1, b. split; [reflexivity |].
  unfold emailQueue_add, await_notify, record, with_db, BookingRoutes.ret.
  cbn [db queue trace].
  destruct (NotificationModel_create pg d1 _ _ _ _ _) as [[d2 n]|e] eqn:Hn.
  - destruct (NotificationModel_create_step _ _ _ _ _ _ _ _ _ Hn) as [Hb Hx].
    cbn [fst snd db queue]. repeat split; auto.
  - cbn [fst snd db queue]. repeat split; auto.
Qed.

Lemma delete_booking_db (pg : Pg) (req : Request) (w : World) :
  (db (snd (delete_booking pg req w)) = db w
   /\ queue (snd (delete_booking pg req w)) = queue w
   /\ code (fst (delete_booking pg req w)) <> 200)
  \/ exists d1 b,
       BookingModel_cancel pg (db w) (params_id req) (user_id req) = Ok (d1, Some b)
       /\ bookings (db (snd (delete_booking pg req w))) = bookings d1
       /\ next_booking_id (db (snd (delete_booking pg req w))) = next_booking_id d1
       /\ queue (snd (delete_booking pg req w))
          = add (queue w) (cancellation_job (user_email req) b)
       /\ (fst (delete_booking pg req w)
           = {| code := 200; json := JsonBooking "Booking cancelled successfully" b |}
           \/ (code (fst (delete_booking pg req w)) = 500
               /\ is_ok (NotificationModel_create pg d1 (user_id req) "BOOKING_CANCELLED"
                           (cat ["Booking "; dq; b_title b; dq; " cancelled"])
                           "Your booking has been successfully cancelled."
                           (booking_metadata (b_id b))) = false)).
Proof.
  unfold delete_booking, BookingRoutes.try_catch, BookingRoutes.bind, await_cancel.
  destruct (BookingModel_cancel pg (db w) (params_id req) (user_id req))
    as [[d1 [b|]]|e] eqn:Hc.
  - right. exists d1, b. split; [reflexivity |].
    unfold emailQueue_add, await_notify, record, with_db, BookingRoutes.ret.
    cbn [db queue trace].
    destruct (NotificationModel_create pg d1 _ _ _ _ _) as [[d2 n]|e] eqn:Hn.
    + destruct (NotificationModel_create_step _ _ _ _ _ _ _ _ _ Hn) as [Hb Hx].
      cbn [fst snd db queue]. repeat split; auto.
    + cbn [fst snd db queue]. repeat split; auto.
  - left. pose proof (BookingModel_cancel_spec pg (db w) (params_id req) (user_id req)) as Hs.
    rewrite Hc in Hs. destruct Hs as [-> _]. repeat split. discriminate.
  - left. repeat split. discriminate.
Qed.

Lemma get_booking_world (pg : Pg) (req : Request) (w : World) :
  db (snd (get_booking pg req w)) = db w /\ queue (snd (get_booking pg req w)) = queue w.
Proof.
  unfold get_booking, try_catch, BookingRoutes.bind, await_read, answer.
  destruct (BookingModel.findById pg (db w) (params_id req)) as [[b|]|e];
    [destruct (negb (b_user_id b =? user_id req)) | |]; split; reflexivity.
Qed.

Lemma get_bookings_world (pg : Pg) (order : JVal -> Z) (req : Request) (w : World) :
  db (snd (get_bookings pg order req w)) = db w
  /\ queue (snd (get_bookings pg order req w)) = queue w.
Proof.
  unfold get_bookings, try_catch, BookingRoutes.bind, await_read, answer.
  destruct (BookingModel.findAllByUser pg order (db w) (user_id req)); split; reflexivity.
Qed.

(** The outcomes of PATCH /bookings/:id. *)
Lemma patch_booking_cases (h : Host) (pg : Pg) (req : Request) (w : World) :
  let title := data_get (body req) "title" in
  let start := data_get (body req) "start" in
  let end_ := data_get (body req) "end" in
  (status (fst (patch_booking h pg req w)) = 400 /\ snd (patch_booking h pg req w) = w)
  \/ (truthy title || truthy start || truthy end_ = true
      /\ ((exists e, BookingModel.update pg (db w) (params_id req) (user_id req)
                       title start end_ = Throw e
                     /\ status (fst (patch_booking h pg req w)) = 500
                     /\ db (snd (patch_booking h pg req w)) = db w
                     /\ queue (snd (patch_booking h pg req w)) = queue w)
          \/ (BookingModel.update pg (db w) (params_id req) (user_id req)
                 title start end_ = Ok (db w, None)
              /\ fst (patch_booking h pg req w)
                 = {| status := 404; body_of := BodyError "Booking not found or not yours" |}
              /\ snd (patch_booking h pg req w) = w)
          \/ (exists d1 row,
                BookingModel.update pg (db w) (params_id req) (user_id req)
                  title start end_ = Ok (d1, Some row)
                /\ fst (patch_booking h pg req w)
                   = {| status := 200;
                        body_of := BodyMessage "Booking updated successfully" row |}
                /\ snd (patch_booking h pg req w)
                   = {| db := d1; queue := queue w; trace := trace w |}))).
Proof.
  cbv zeta. unfold patch_booking, try_catch.
  destruct (negb (truthy (data_get (body req) "title"))
            && negb (truthy (data_get (body req) "start"))
            && negb (truthy (data_get (body req) "end"))) eqn:Hnone.
  { left. split; reflexivity. }
  assert (Hsome : truthy (data_get (body req) "title")
                  || truthy (data_get (body req) "start")
                  || truthy (data_get (body req) "end") = true).
  { destruct (truthy (data_get (body req) "title")),
             (truthy (data_get (body req) "start")),
             (truthy (data_get (body req) "end")); try reflexivity; discriminate Hnone. }
  destruct (truthy (data_get (body req) "start")
            && invalid_date (newDate h (data_get (body req) "start"))).
  { left. split; reflexivity. }
  destruct (truthy (data_get (body req) "start")
            && date_lt (newDate h (data_get (body req) "start")) (Some (dateNow h))).
  { left. split; reflexivity. }
  destruct (truthy (data_get (body req) "end") && truthy (data_get (body req) "start")
            && date_le (newDate h (data_get (body req) "end"))
                       (newDate h (data_get (body req) "start"))).
  { left. split; reflexivity. }
  right. split; [exact Hsome |].
  unfold BookingRoutes.bind, await_update.
  pose proof (update_spec pg (db w) (params_id req) (user_id req)
                (data_get (body req) "title") (data_get (body req) "start")
                (data_get (body req) "end")) as Hs.
  destruct (BookingModel.update pg (db w) (params_id req) (user_id req)
              (data_get (body req) "title") (data_get (body req) "start")
              (data_get (body req) "end")) as [[d1 [row|]]|e].
  - right. right. exists d1, row. split; [reflexivity |]. split; reflexivity.
  - destruct Hs as [-> _]. right. left. split; [reflexivity |]. split; [reflexivity |].
    destruct w; reflexivity.
  - left. exists e. split; [reflexivity |]. split; [reflexivity |]. split; reflexivity.
Qed.

(** Every call of a booking route takes a well-formed table to a
    well-formed table in which the rows have evolved. *)
Lemma call_step (c : Call) (w : World) :
  well_formed (db w) -> db_step (caller c) (db w) (db (after c w)).
Proof.
  intros Hwf. destruct c as [h pg req | pg order req | pg req | h pg req | pg req];
    cbn [caller after].
  - destruct (post_booking_db h pg req w) as [(-> & _) | (d1 & b & Hc & Hb & Hn & _)].
    + by apply db_step_same.
    + destruct (create_step _ _ _ _ _ _ _ _ Hc) as (_ & _ & _ & _ & _ & Hstep).
      destruct (Hstep Hwf) as [_ Hs]. eapply db_step_notified; eauto.
  - destruct (get_bookings_world pg order req w) as [-> _]. by apply db_step_same.
  - destruct (get_booking_world pg req w) as [-> _]. by apply db_step_same.
  - destruct (patch_booking_cases h pg req w)
      as [[_ ->] | [_ [(e & _ & _ & -> & _) | [(_ & _ & ->) | (d1 & row & Hu & _ & ->)]]]];
      cbv zeta in *; try (by apply db_step_same).
    cbn [db]. eapply update_step; eauto.
  - destruct (delete_booking_db pg req w) as [(-> & _) | (d1 & b & Hc & Hb & Hn & _)].
    + by apply db_step_same.
    + eapply db_step_notified; [exact Hb | exact Hn |]. eapply cancel_step; eauto.
Qed.

Lemma after_all_step (cs : list Call) (w : World) :
  well_formed (db w) ->
  well_formed (db (after_all cs w))
  /\ next_booking_id (db w) <= next_booking_id (db (after_all cs w))
  /\ (forall key b, bookings (db w) !! key = Some b ->
        exists b', bookings (db (after_all cs w)) !! key = Some b'
                   /\ b_id b' = b_id b /\ b_user_id b' = b_user_id b
                   /\ b_created_at b' = b_created_at b
                   /\ (b_status b = "cancelled" -> b_status b' = "cancelled")
                   /\ ((forall c, c ∈ cs -> caller c <> b_user_id b) -> b' = b))
  /\ (forall key b', bookings (db w) !! key = None ->
        bookings (db (after_all cs w)) !! key = Some b' ->
        exists c, c ∈ cs /\ caller c = b_user_id b').
Proof.
  unfold after_all. revert w. induction cs as [|c cs IH]; intros w Hwf; cbn [fold_left].
  - split; [assumption |]. split; [lia |]. split.
    + intros key b Hb. exists b. repeat split; auto.
    + intros key b' Hn Hs. congruence.
  - destruct (call_step c w Hwf) as (Hwf1 & Hle1 & Hev1 & Hnew1).
    destruct (IH (after c w) Hwf1) as (Hwf2 & Hle2 & Hev2 & Hnew2).
    split; [assumption |]. split; [lia |]. split.
    + intros key b Hb.
      destruct (Hev1 key b Hb) as (b1 & Hb1 & E1 & E2 & E3 & E4 & E5).
      destruct (Hev2 key b1 Hb1) as (b2 & Hb2 & F1 & F2 & F3 & F4 & F5).
      exists b2. split; [assumption |].
      split; [congruence |]. split; [congruence |]. split; [congruence |].
      split; [auto |].
      intros Hothers.
      assert (b1 = b) as ->.
      { apply E5. intros Heq. apply (Hothers c); [apply elem_of_cons; by left | congruence]. }
      apply F5. intros c' Hc'. apply Hothers. apply elem_of_cons. by right.
    + intros key b' Hn Hs.
      destruct (bookings (db (after c w)) !! key) as [b1|] eqn:Hb1.
      * destruct (Hnew1 key b1 Hn Hb1) as (_ & _ & Hu & _).
        destruct (Hev2 key b1 Hb1) as (b2 & Hb2 & _ & F2 & _).
        exists c. split; [apply elem_of_cons; by left |]. congruence.
      * destruct (Hnew2 key b' Hb1 Hs) as (c' & Hc' & Hu).
        exists c'. split; [apply elem_of_cons; by right | assumption].
Qed.

(** X9: No sequence of calls of the five booking routes removes a booking,
    moves it to another id or owner, or takes a cancelled booking out of
    the status 'cancelled': from a well-formed table every row is still
    there afterwards, under its id, with its owner and creation time, and
    cancelled if it was; the table stays well formed (so POST never
    overwrites a row) and the SERIAL counter never goes back. *)
Theorem bookings_survive_and_cancelled_is_final (cs : list Call) (w : World) :
  well_formed (db w) ->
  well_formed (db (after_all cs w))
  /\ next_booking_id (db w) <= next_booking_id (db (after_all cs w))
  /\ forall key b, bookings (db w) !! key = Some b ->
       exists b', bookings (db (after_all cs w)) !! key = Some b'
                  /\ b_id b' = b_id b /\ b_user_id b' = b_user_id b
                  /\ b_created_at b' = b_created_at b
                  /\ (b_status b = "cancelled" -> b_status b' = "cancelled").
Proof.
  intros Hwf. destruct (after_all_step cs w Hwf) as (H1 & H2 & H3 & _).
  split; [assumption |]. split; [assumption |].
  intros key b Hb. destruct (H3 key b Hb) as (b' & Hb' & E1 & E2 & E3 & E4 & _).
  exists b'. auto.
Qed.

(** X10: Isolation between users: calls made by other users, in any number and
    order, leave the bookings of a user exactly as they were, and add
    none: afterwards the user has the same rows as before. *)
Theorem other_users_cannot_touch_my_bookings (cs : list Call) (w : World) (me : Z) :
  well_formed (db w) ->
  (forall c, c ∈ cs -> caller c <> me) ->
  forall key b, b_user_id b = me ->
    (bookings (db (after_all cs w)) !! key = Some b <-> bookings (db w) !! key = Some b).
Proof.
  intros Hwf Hothers key b Hme.
  destruct (after_all_step cs w Hwf) as (_ & _ & Hev & Hnew).
  split.
  - intros Hafter. destruct (bookings (db w) !! key) as [b0|] eqn:Hb0.
    + destruct (Hev key b0 Hb0) as (b' & Hb' & _ & Hu & _ & _ & Hsame).
      assert (b' = b) as -> by congruence.
      rewrite Hsame; [reflexivity |].
      intros c Hc. rewrite <- Hu, Hme. by apply Hothers.
    + destruct (Hnew key b Hb0 Hafter) as (c & Hc & Hu).
      destruct (Hothers c Hc). congruence.
  - intros Hb. destruct (Hev key b Hb) as (b' & Hb' & _ & _ & _ & _ & Hsame).
    rewrite Hb'. f_equal. apply Hsame. intros c Hc. rewrite Hme. by apply Hothers.
Qed.

Lemma get_booking_answer (pg : Pg) (req : Request) (w : World) (key : Z) :
  booking_query_ok pg = true -> int4_in pg (params_id req) = Some key ->
  match bookings (db w) !! key with
  | None =>
    fst (get_booking pg req w)
    = {| status := 404; body_of := BodyError "Booking not found" |}
  | Some b =>
    fst (get_booking pg req w)
    = if b_user_id b =? user_id req
      then {| status := 200; body_of := BodyBooking b |}
      else {| status := 403; body_of := BodyError "Forbidden: Not your booking" |}
  end.
Proof.
  unfold get_booking, try_catch, BookingRoutes.bind, await_read, answer,
    BookingModel.findById.
  intros Hok Hkey. rewrite Hok, Hkey. cbn [negb].
  destruct (bookings (db w) !! key) as [b0|]; [| reflexivity].
  destruct (b_user_id b0 =? user_id req); reflexivity.
Qed.

(** X11: GET /bookings/:id shows a booking to its owner only: an answer that
    carries a booking is a 200 whose booking is the stored row under the
    requested id and belongs to the requester; the row of another user is
    answered 403 and a missing one 404, both without the row; the route
    changes neither the database nor the queue. *)
Theorem get_booking_shows_own_booking_only (pg : Pg) (req : Request) (w : World) :
  db (snd (get_booking pg req w)) = db w
  /\ queue (snd (get_booking pg req w)) = queue w
  /\ (forall b, body_of (fst (get_booking pg req w)) = BodyBooking b ->
        status (fst (get_booking pg req w)) = 200
        /\ b_user_id b = user_id req
        /\ exists key, int4_in pg (params_id req) = Some key
                       /\ bookings (db w) !! key = Some b)
  /\ (forall key, booking_query_ok pg = true -> int4_in pg (params_id req) = Some key ->
        match bookings (db w) !! key with
        | None =>
          fst (get_booking pg req w)
          = {| status := 404; body_of := BodyError "Booking not found" |}
        | Some b =>
          fst (get_booking pg req w)
          = if b_user_id b =? user_id req
            then {| status := 200; body_of := BodyBooking b |}
            else {| status := 403; body_of := BodyError "Forbidden: Not your booking" |}
        end).
Proof.
  split; [apply get_booking_world |]. split; [apply get_booking_world |].
  unfold get_booking, try_catch, BookingRoutes.bind, await_read, answer,
    BookingModel.findById.
  split.
  - intros b.
    destruct (negb (booking_query_ok pg)); [discriminate |].
    destruct (int4_in pg (params_id req)) as [key|]; [| discriminate].
    destruct (bookings (db w) !! key) as [b0|] eqn:Hb0; [| discriminate].
    destruct (Z.eqb_spec (b_user_id b0) (user_id req)) as [Hu | Hu]; cbn; [| discriminate].
    intros Hb. injection Hb as <-. split; [reflexivity |]. split; [assumption |]. eauto.
  - intros key Hok Hkey.
    pose proof (get_booking_answer pg req w key Hok Hkey) as Ha.
    unfold get_booking, try_catch, BookingRoutes.bind, await_read, answer,
      BookingModel.findById in Ha. exact Ha.
Qed.

#[local] Instance by_start_desc_total (order : JVal -> Z) :
  Total (BookingModel.by_start_desc order).
Proof. intros a b. unfold BookingModel.by_start_desc. lia. Qed.

(** X12: GET /bookings lists exactly the requester's bookings, latest start
    first: when the query is executed the answer is a 200 whose rows are
    the rows of the table owned by the requester, each once, sorted by
    descending start time; otherwise it is a 500.  The route changes
    neither the database nor the queue. *)
Theorem get_bookings_lists_own_bookings (pg : Pg) (order : JVal -> Z)
    (req : Request) (w : World) :
  db (snd (get_bookings pg order req w)) = db w
  /\ queue (snd (get_bookings pg order req w)) = queue w
  /\ (booking_query_ok pg = false -> status (fst (get_bookings pg order req w)) = 500)
  /\ (booking_query_ok pg = true ->
      exists rows,
        fst (get_bookings pg order req w) = {| status := 200; body_of := BodyBookings rows |}
        /\ (forall b, b ∈ rows <->
                      b_user_id b = user_id req
                      /\ exists key, bookings (db w) !! key = Some b)
        /\ Sorted (BookingModel.by_start_desc order) rows
        /\ (well_formed (db w) -> NoDup rows)).
Proof.
  split; [apply get_bookings_world |]. split; [apply get_bookings_world |].
  unfold get_bookings, try_catch, BookingRoutes.bind, await_read, answer,
    BookingModel.findAllByUser.
  split; intros Hok; rewrite Hok; cbn [negb]; [reflexivity |].
  eexists. split; [reflexivity |]. split; [| split].
  - intros b. rewrite merge_sort_Permutation, list_elem_of_filter, list_elem_of_fmap.
    split.
    + intros [Hu ([key b0] & -> & Hin)]. apply elem_of_map_to_list in Hin. eauto.
    + intros [Hu (key & Hb)]. split; [assumption |].
      exists (key, b). split; [reflexivity | by apply elem_of_map_to_list].
  - apply Sorted_merge_sort. apply _.
  - intros Hwf. rewrite merge_sort_Permutation. apply NoDup_filter.
    apply NoDup_fmap_2_strong; [| apply NoDup_map_to_list].
    intros [k1 b1] [k2 b2] H1 H2 Heq. cbn in Heq. subst b2.
    apply elem_of_map_to_list in H1, H2.
    destruct (Hwf _ _ H1) as [E1 _]. destruct (Hwf _ _ H2) as [E2 _]. congruence.
Qed.

(** X13: PATCH /bookings/:id changes what it was given and nothing else.  It
    never enqueues an e-mail job nor writes a notification.  A 400 or 404
    answer leaves the world as it was.  A 200 answer carries the new row of
    the booking with the requested id, which belongs to the requester: a
    field the body gives (title, start, end) is stored with the given
    value, as the column type reads it, a field the body leaves out keeps
    its value, the time of the update is recorded, and status, owner and
    creation time are never changed (a cancelled booking can be edited and
    stays cancelled). *)
Theorem patch_changes_only_the_given_fields (h : Host) (pg : Pg) (req : Request)
    (w : World) :
  queue (snd (patch_booking h pg req w)) = queue w
  /\ notifications (db (snd (patch_booking h pg req w))) = notifications (db w)
  /\ (status (fst (patch_booking h pg req w)) = 400
      \/ status (fst (patch_booking h pg req w)) = 404 ->
      snd (patch_booking h pg req w) = w)
  /\ (match body_of (fst (patch_booking h pg req w)) with
        | BodyMessage _ row =>
          status (fst (patch_booking h pg req w)) = 200
          /\ exists key old,
               int4_in pg (params_id req) = Some key
               /\ bookings (db w) !! key = Some old
               /\ b_user_id old = user_id req
               /\ bookings (db (snd (patch_booking h pg req w)))
                  = <[ key := row ]> (bookings (db w))
               /\ b_id row = b_id old /\ b_user_id row = b_user_id old
               /\ b_status row = b_status old /\ b_created_at row = b_created_at old
               /\ (data_get (body req) "title" = JUndefined -> b_title row = b_title old)
               /\ (data_get (body req) "start" = JUndefined ->
                   b_start_time row = b_start_time old)
               /\ (data_get (body req) "end" = JUndefined ->
                   b_end_time row = b_end_time old)
               /\ (data_get (body req) "title" <> JUndefined ->
                   varchar255_in pg (data_get (body req) "title") = Some (b_title row))
               /\ (data_get (body req) "start" <> JUndefined ->
                   timestamp_in pg (data_get (body req) "start") = Some (b_start_time row))
               /\ (data_get (body req) "end" <> JUndefined ->
                   timestamp_in pg (data_get (body req) "end") = Some (b_end_time row))
               /\ b_updated_at row = current_timestamp pg
        | BodyError _ => status (fst (patch_booking h pg req w)) <> 200
        | _ => False
        end).
Proof.
  destruct (patch_booking_cases h pg req w)
    as [[Hc Hw] | [Hsome [(e & Hu & Hc & Hd & Hq)
                          | [(Hu & Hf & Hw) | (d1 & row & Hu & Hf & Hw)]]]];
    cbv zeta in *.
  - rewrite Hw. split; [reflexivity |]. split; [reflexivity |]. split; [reflexivity |].
    revert Hc. unfold patch_booking, try_catch.
    repeat match goal with
    | |- context [if ?c then _ else _] => destruct c
    end; cbn; try discriminate; try congruence.
    unfold BookingRoutes.bind, await_update.
    destruct (BookingModel.update _ _ _ _ _ _ _) as [[d1 [row|]]|e]; cbn; discriminate.
  - rewrite Hq, Hd. split; [reflexivity |]. split; [reflexivity |].
    split; [intros [H | H]; rewrite Hc in H; discriminate |].
    revert Hc. unfold patch_booking, try_catch.
    repeat match goal with
    | |- context [if ?c then _ else _] => destruct c
    end; cbn; try discriminate; try congruence.
    unfold BookingRoutes.bind, await_update. rewrite Hu. cbn. discriminate.
  - rewrite Hw, Hf. split; [reflexivity |]. split; [reflexivity |]. split; [reflexivity |].
    cbn. discriminate.
  - rewrite Hw, Hf. cbn [db queue fst status body_of].
    pose proof (update_spec pg (db w) (params_id req) (user_id req)
                  (data_get (body req) "title") (data_get (body req) "start")
                  (data_get (body req) "end")) as Hs.
    rewrite Hu in Hs.
    destruct Hs as (key & old & Hk & Hb & Hown & Ht & Hst & He & I1 & I2 & I3 & I4 & I5
                    & Hd & _ & Hn & _).
    split; [reflexivity |]. split; [assumption |].
    split; [intros [H | H]; discriminate H |].
    split; [reflexivity |].
    exists key, old. do 8 (split; [assumption |]).
    split; [intros E; rewrite E in Ht; cbn in Ht; congruence |].
    split; [intros E; rewrite E in Hst; cbn in Hst; congruence |].
    split; [intros E; rewrite E in He; cbn in He; congruence |].
    split; [intros E; by apply (assign_given _ _ _ _ E Ht) |].
    split; [intros E; by apply (assign_given _ _ _ _ E Hst) |].
    split; [intros E; by apply (assign_given _ _ _ _ E He) | exact I5].
Qed.

Lemma patch_changes_only_the_given_fields_witness :
  exists row,
    body_of (fst (patch_booking Hosts.utc pg_up Samples.rename_request
                    (world_with Samples.confirmed_booking)))
    = BodyMessage "Booking updated successfully" row
    /\ b_title row = "Weekly"
    /\ b_start_time row = b_start_time Samples.confirmed_booking
    /\ b_status row = b_status Samples.confirmed_booking.
Proof.
  pose proof (patch_changes_only_the_given_fields Hosts.utc pg_up Samples.rename_request
                (world_with Samples.confirmed_booking)) as (_ & _ & _ & H).
  destruct (body_of (fst (patch_booking Hosts.utc pg_up Samples.rename_request
                            (world_with Samples.confirmed_booking)))) as [| | msg row |]
    eqn:E; vm_compute in E; try discriminate E.
  injection E as <- E.
  destruct H as (_ & key & old & Hk & Hold & _ & _ & _ & _ & Hst & _ & _ & Hs & _
                 & Ht & _).
  vm_compute in Hk. injection Hk as <-.
  vm_compute in Hold. injection Hold as <-.
  exists row. split; [reflexivity |].
  split; [| split; [apply Hs; reflexivity | exact Hst]].
  assert (Hg : Some "Weekly"%string = Some (b_title row)) by (apply Ht; discriminate).
  by injection Hg as <-.
Defined.

Lemma well_formed_world_with (b : Booking) : well_formed (db (world_with b)).
Proof.
  intros key b0 H. cbn in H. apply lookup_singleton_Some in H as [<- <-]. cbn. lia.
Qed.

Lemma bookings_survive_and_cancelled_is_final_witness :
  exists b', bookings (db (after_all [PATCH Hosts.utc pg_up Samples.rename_request;
                                      DELETE pg_up cancel_request]
                             (world_with cancelled_booking))) !! 1 = Some b'
             /\ b_status b' = "cancelled".
Proof.
  destruct (bookings_survive_and_cancelled_is_final
              [PATCH Hosts.utc pg_up Samples.rename_request; DELETE pg_up cancel_request]
              (world_with cancelled_booking)
              (well_formed_world_with cancelled_booking))
    as (_ & _ & H).
  destruct (H 1 cancelled_booking eq_refl) as (b' & Hb' & _ & _ & _ & Hs).
  exists b'. split; [exact Hb' | exact (Hs eq_refl)].
Defined.

Lemma other_users_cannot_touch_my_bookings_witness :
  bookings (db (after_all [PATCH Hosts.utc pg_up Samples.intruder_request;
                           DELETE pg_up Samples.intruder_request]
                  (world_with Samples.confirmed_booking))) !! 1
  = Some Samples.confirmed_booking.
Proof.
  apply (other_users_cannot_touch_my_bookings
           [PATCH Hosts.utc pg_up Samples.intruder_request;
            DELETE pg_up Samples.intruder_request]
           (world_with Samples.confirmed_booking) 7
           (well_formed_world_with Samples.confirmed_booking)).
  - intros c Hc. apply elem_of_cons in Hc as [-> | Hc]; [cbn; lia |].
    apply elem_of_cons in Hc as [-> | Hc]; [cbn; lia |].
    by apply elem_of_nil in Hc.
  - reflexivity.
  - reflexivity.
Defined.

Lemma delete_booking_refused (pg : Pg) (req : Request) (w : World) (key : Z) (b : Booking) :
  booking_query_ok pg = true -> int4_in pg (params_id req) = Some key ->
  bookings (db w) !! key = Some b -> cancellable b (user_id req) = false ->
  code (fst (delete_booking pg req w)) = 404
  /\ db (snd (delete_booking pg req w)) = db w
  /\ queue (snd (delete_booking pg req w)) = queue w.
Proof.
  intros Hok Hkey Hb Hcan.
  unfold delete_booking, BookingRoutes.try_catch, BookingRoutes.bind, await_cancel,
    BookingModel_cancel.
  rewrite Hok, Hkey, Hb, Hcan. cbn. repeat split; reflexivity.
Qed.

Lemma delete_booking_accepted (pg : Pg) (req : Request) (w : World) (key : Z) (b : Booking) :
  booking_query_ok pg = true -> int4_in pg (params_id req) = Some key ->
  bookings (db w) !! key = Some b -> cancellable b (user_id req) = true ->
  let row := {| b_id := b_id b; b_user_id := b_user_id b;
                b_title := b_title b; b_start_time := b_start_time b;
                b_end_time := b_end_time b; b_status := "cancelled";
                b_created_at := b_created_at b;
                b_updated_at := current_timestamp pg |} in
  bookings (db (snd (delete_booking pg req w))) = <[ key := row ]> (bookings (db w))
  /\ queue (snd (delete_booking pg req w))
     = add (queue w) (cancellation_job (user_email req) row)
  /\ (if notification_query_ok pg
      then notifications (db (snd (delete_booking pg req w))) = notifications (db w)
           \/ code (fst (delete_booking pg req w)) = 200
      else notifications (db (snd (delete_booking pg req w))) = notifications (db w)
           /\ code (fst (delete_booking pg req w)) = 500).
Proof.
  intros Hok Hkey Hb Hcan row.
  unfold delete_booking, BookingRoutes.try_catch, BookingRoutes.bind, await_cancel,
    BookingModel_cancel.
  rewrite Hok, Hkey, Hb, Hcan. cbn [negb].
  unfold emailQueue_add, await_notify, record, with_db, BookingRoutes.ret,
    NotificationModel_create.
  cbn [db queue trace].
  destruct (notification_query_ok pg); cbn [negb].
  - destruct (varchar255_in pg _); cbn; repeat split; auto.
  - cbn. repeat split; auto.
Qed.

(** X14: A booking that POST /bookings has created (201) can be viewed by its
    owner and by nobody else, cancelled once by its owner, and not again:
    on the world after the POST, GET /bookings/:id with its id answers 200
    with the very row for the owner and 403 for another user; DELETE by
    another user answers 404 and changes neither table nor queue; DELETE
    by the owner leaves the row cancelled, under the same id, title and
    owner, and enqueues the cancellation job, and a second DELETE answers
    404. *)
Theorem created_booking_round_trip (h : Host) (pg pg2 : Pg) (req req2 : Request)
    (w : World) (b : Booking) :
  well_formed (db w) ->
  fst (post_booking h pg req w)
  = {| code := 201; json := JsonBooking "Booking created successfully" b |} ->
  booking_query_ok pg2 = true ->
  int4_in pg2 (params_id req2) = Some (b_id b) ->
  let w1 := snd (post_booking h pg req w) in
  let w2 := snd (delete_booking pg2 req2 w1) in
  b_user_id b = user_id req /\ b_status b = "confirmed"
  /\ bookings (db w) !! b_id b = None
  /\ bookings (db w1) !! b_id b = Some b
  /\ fst (get_booking pg2 req2 w1)
     = (if b_user_id b =? user_id req2
        then {| status := 200; body_of := BodyBooking b |}
        else {| status := 403; body_of := BodyError "Forbidden: Not your booking" |})
  /\ (user_id req2 <> user_id req ->
      code (fst (delete_booking pg2 req2 w1)) = 404
      /\ db w2 = db w1 /\ queue w2 = queue w1)
  /\ (user_id req2 = user_id req ->
      (exists row, bookings (db w2) !! b_id b = Some row
                   /\ b_status row = "cancelled" /\ b_title row = b_title b
                   /\ b_user_id row = b_user_id b)
      /\ (exists row, queue w2 = add (queue w1) (cancellation_job (user_email req2) row)
                      /\ b_id row = b_id b /\ b_title row = b_title b)
      /\ code (fst (delete_booking pg2 req2 w2)) = 404).
Proof.
  intros Hwf H201 Hok Hkey. cbv zeta.
  destruct (post_booking_db h pg req w) as [(_ & _ & Hne) | (d1 & b0 & Hc & Hb & Hn & Hq & Hans)].
  { rewrite H201 in Hne. cbn in Hne. congruence. }
  assert (b0 = b) as ->.
  { destruct Hans as [Hans | [Hans _]]; rewrite H201 in Hans; [| discriminate Hans].
    injection Hans as ->. reflexivity. }
  destruct (create_step _ _ _ _ _ _ _ _ Hc) as (Hid & Hu & Hst & Hd1 & _ & Hfresh).
  destruct (Hfresh Hwf) as [Hnone _].
  assert (Hrow : bookings (db (snd (post_booking h pg req w))) !! b_id b = Some b).
  { rewrite Hb, Hd1. apply lookup_insert_eq. }
  split; [assumption |]. split; [assumption |]. split; [assumption |].
  split; [assumption |].
  split.
  { pose proof (get_booking_answer pg2 req2 (snd (post_booking h pg req w)) (b_id b) Hok Hkey)
      as Ha. rewrite Hrow in Ha. exact Ha. }
  set (w1 := snd (post_booking h pg req w)) in *.
  split.
  - intros Hother.
    apply (delete_booking_refused pg2 req2 w1 (b_id b) b Hok Hkey Hrow).
    apply cancellable_false. left. congruence.
  - intros Hsame.
    assert (Hcan : cancellable b (user_id req2) = true).
    { unfold cancellable. rewrite Hu, Hsame, Z.eqb_refl, Hst. reflexivity. }
    destruct (delete_booking_accepted pg2 req2 w1 (b_id b) b Hok Hkey Hrow Hcan)
      as (Hb2 & Hq2 & _).
    split; [| split].
    + eexists. split; [rewrite Hb2; apply lookup_insert_eq |]. repeat split.
    + eexists. split; [exact Hq2 |]. split; reflexivity.
    + eapply (delete_booking_refused pg2 req2 _ (b_id b) _ Hok Hkey).
      * rewrite Hb2. apply lookup_insert_eq.
      * apply cancellable_false. right. reflexivity.
Qed.

Lemma created_booking_round_trip_witness :
  code (fst (delete_booking pg_up cancel_request
               (snd (delete_booking pg_up cancel_request
                       (snd (post_booking Hosts.utc pg_up Samples.standup_request
                               Samples.empty_world)))))) = 404.
Proof.
  assert (Hwf : well_formed (db Samples.empty_world)).
  { intros key b0 Hb0. cbn in Hb0. by rewrite lookup_empty in Hb0. }
  assert (H201 : fst (post_booking Hosts.utc pg_up Samples.standup_request
                        Samples.empty_world)
                 = {| code := 201;
                      json := JsonBooking "Booking created successfully"
                        {| b_id := 1; b_user_id := 7; b_title := "Standup";
                           b_start_time := JStr "2026-04-02T09:00:00Z";
                           b_end_time := JStr "2026-04-02T09:30:00Z";
                           b_status := "confirmed";
                           b_created_at := current_timestamp pg_up;
                           b_updated_at := current_timestamp pg_up |} |}).
  { vm_compute. reflexivity. }
  pose proof (created_booking_round_trip Hosts.utc pg_up pg_up
                Samples.standup_request cancel_request Samples.empty_world _
                Hwf H201 eq_refl eq_refl) as H.
  destruct H as (_ & _ & _ & _ & _ & _ & H).
  destruct (H eq_refl) as (_ & _ & H404). exact H404.
Defined.

(** X15: The handlers do not undo a write when a later step fails.  If a POST
    is answered 201 with booking b, the same request against a server that
    differs only in rejecting the notification insert is answered 500,
    and yet b is stored and its confirmation job is enqueued; no
    notification is stored. *)
Theorem failed_notification_keeps_the_booking (h : Host) (pg : Pg) (req : Request)
    (w : World) (b : Booking) :
  fst (post_booking h pg req w)
  = {| code := 201; json := JsonBooking "Booking created successfully" b |} ->
  let r := post_booking h (Samples.without_notifications pg) req w in
  fst r = server_error
  /\ bookings (db (snd r)) = <[ b_id b := b ]> (bookings (db w))
  /\ queue (snd r) = add (queue w) (confirmation_job (user_email req) b)
  /\ notifications (db (snd r)) = notifications (db w).
Proof.
  cbv zeta. unfold post_booking, BookingRoutes.try_catch.
  destruct (negb (truthy (data_get (body req) "title"))
            || negb (truthy (data_get (body req) "start"))
            || negb (truthy (data_get (body req) "end"))); [discriminate |].
  destruct (invalid_date (newDate h (data_get (body req) "start"))
            || invalid_date (newDate h (data_get (body req) "end"))); [discriminate |].
  destruct (date_lt (newDate h (data_get (body req) "start")) (Some (dateNow h)));
    [discriminate |].
  destruct (date_le (newDate h (data_get (body req) "end"))
                    (newDate h (data_get (body req) "start"))); [discriminate |].
  unfold BookingRoutes.bind, await_create.
  change (BookingModel_create (Samples.without_notifications pg))
    with (BookingModel_create pg).
  destruct (BookingModel_create pg (db w) (user_id req) (data_get (body req) "title")
              (data_get (body req) "start") (data_get (body req) "end"))
    as [[d1 b1]|e] eqn:Hc; [| discriminate].
  destruct (create_step _ _ _ _ _ _ _ _ Hc) as (_ & _ & _ & Hd1 & _ & _).
  assert (Hnot : notifications d1 = notifications (db w)).
  { revert Hc. unfold BookingModel_create. repeat case_match; intros Hcr; simplify_eq.
    reflexivity. }
  unfold emailQueue_add, await_notify, record, with_db, BookingRoutes.ret.
  cbn [db queue trace].
  destruct (NotificationModel_create pg d1 _ _ _ _ _) as [[d2 n]|e] eqn:Hn;
    cbn [fst snd]; [| discriminate].
  intros Heq. injection Heq as ->.
  unfold NotificationModel_create. cbn.
  repeat split; assumption.
Qed.

Lemma failed_notification_keeps_the_booking_witness :
  code (fst (post_booking Hosts.utc (Samples.without_notifications pg_up) Samples.standup_request
               (world_with cancelled_booking))) = 500
  /\ is_Some (bookings (db (snd (post_booking Hosts.utc (Samples.without_notifications pg_up)
                                   Samples.standup_request (world_with cancelled_booking)))) !! 2).
Proof.
  destruct (failed_notification_keeps_the_booking Hosts.utc pg_up Samples.standup_request
              (world_with cancelled_booking)
              {| b_id := 2; b_user_id := 7; b_title := "Standup";
                 b_start_time := JStr "2026-04-02T09:00:00Z";
                 b_end_time := JStr "2026-04-02T09:30:00Z";
                 b_status := "confirmed";
                 b_created_at := current_timestamp pg_up;
                 b_updated_at := current_timestamp pg_up |})
    as (H1 & H2 & _).
  - vm_compute. reflexivity.
  - split; [rewrite H1; reflexivity |].
    rewrite H2. cbn [b_id]. rewrite lookup_insert_eq. eexists. reflexivity.
Defined.

(** X16: The same for DELETE: when the cancel query updates a row and the
    notification insert is rejected, the answer is 500 although the row
    is now cancelled and the cancellation job is enqueued; repeating the
    request is answered 404. *)
Theorem failed_notification_keeps_the_cancellation (pg : Pg) (req : Request)
    (w : World) (key : Z) (b : Booking) :
  booking_query_ok pg = true -> notification_query_ok pg = false ->
  int4_in pg (params_id req) = Some key ->
  bookings (db w) !! key = Some b ->
  b_user_id b = user_id req -> b_status b <> "cancelled" ->
  let r := delete_booking pg req w in
  code (fst r) = 500
  /\ (exists row, bookings (db (snd r)) !! key = Some row /\ b_status row = "cancelled")
  /\ (exists row, queue (snd r) = add (queue w) (cancellation_job (user_email req) row)
                  /\ b_id row = b_id b /\ b_title row = b_title b)
  /\ notifications (db (snd r)) = notifications (db w)
  /\ code (fst (delete_booking pg req (snd r))) = 404.
Proof.
  intros Hok Hnot Hkey Hb Hu Hst. cbv zeta.
  assert (Hcan : cancellable b (user_id req) = true).
  { unfold cancellable. rewrite Hu, Z.eqb_refl. cbn.
    apply negb_true_iff. by apply String.eqb_neq. }
  destruct (delete_booking_accepted pg req w key b Hok Hkey Hb Hcan) as (Hb2 & Hq2 & Hn2).
  rewrite Hnot in Hn2. destruct Hn2 as [Hn2 Hcode].
  split; [assumption |]. split; [| split; [| split; [assumption |]]].
  - eexists. split; [rewrite Hb2; apply lookup_insert_eq | reflexivity].
  - eexists. split; [exact Hq2 |]. split; reflexivity.
  - eapply (delete_booking_refused pg req _ key _ Hok Hkey).
    + rewrite Hb2. apply lookup_insert_eq.
    + apply cancellable_false. right. reflexivity.
Qed.

Lemma failed_notification_keeps_the_cancellation_witness :
  code (fst (delete_booking (Samples.without_notifications pg_up) cancel_request
               (world_with Samples.confirmed_booking))) = 500.
Proof.
  refine (proj1 (failed_notification_keeps_the_cancellation (Samples.without_notifications pg_up)
                   cancel_request (world_with Samples.confirmed_booking) 1
                   Samples.confirmed_booking eq_refl eq_refl eq_refl eq_refl eq_refl _)).
  discriminate.
Defined.

End Bookings.

(* ===================================================================== *)
(** ** The notification routes *)

Section Notifications.

Import Str Models BookingRoutes NotificationModel NotificationRoutes Api Props.

Example query_limit_examples :
  query_limit None = 50 /\ query_limit (Some "10") = 10
  /\ query_limit (Some "0") = 50 /\ query_limit (Some "abc") = 50
  /\ query_limit (Some "-3") = -3 /\ query_limit (Some "7,8") = 7.
Proof. repeat split; reflexivity. Qed.

Example get_notifications_example :
  fst (get_notifications pg_up (Some "2") cancel_request Samples.inbox)
  = {| reply_status := 200;
       reply_body := NRows [Samples.note 1 7 false 100; Samples.note 2 7 true 200] |}
  /\ reply_status (fst (get_notifications pg_up (Some "-1") cancel_request Samples.inbox))
     = 500.
Proof. split; vm_compute; reflexivity. Qed.

Lemma with_notifications_same (d : Db) : with_notifications d (notifications d) = d.
Proof. destruct d. reflexivity. Qed.

Lemma read_read (n : Notification) : read (read n) = read n.
Proof. reflexivity. Qed.

Lemma unread_of_spec (u : Z) (n : Notification) :
  unread_of u n <-> n_user_id n = u /\ n_is_read n = false.
Proof.
  unfold unread_of. rewrite andb_True, Is_true_true, Z.eqb_eq, Is_true_true, negb_true_iff.
  reflexivity.
Qed.

Lemma is_row_spec (key u : Z) (n : Notification) :
  is_row key u n <-> n_id n = key /\ n_user_id n = u.
Proof.
  unfold is_row. rewrite andb_True, !Is_true_true, !Z.eqb_eq. reflexivity.
Qed.

Lemma of_user_spec (u : Z) (n : Notification) : of_user u n <-> n_user_id n = u.
Proof. unfold of_user. rewrite Is_true_true, Z.eqb_eq. reflexivity. Qed.

(** A write that changes rows of one user only leaves the rows of the
    others as they are. *)
Lemma filter_of_user_fmap (me : Z) (f : Notification -> Notification)
    (l : list Notification) :
  (forall n, n_user_id (f n) = n_user_id n) ->
  (forall n, n_user_id n = me -> f n = n) ->
  filter (fun n => of_user me n) (f <$> l) = filter (fun n => of_user me n) l.
Proof.
  intros Hu Hme. induction l as [| n l IH]; [reflexivity |].
  rewrite fmap_cons, !filter_cons.
  destruct (decide (of_user me (f n))) as [H1 | H1];
    destruct (decide (of_user me n)) as [H2 | H2].
  - rewrite IH. f_equal. apply Hme. by apply of_user_spec.
  - apply of_user_spec in H1. rewrite Hu in H1. by apply of_user_spec in H1.
  - apply of_user_spec in H2. rewrite <- Hu in H2. by apply of_user_spec in H2.
  - exact IH.
Qed.

Lemma filter_of_user_filter (me : Z) (P : Notification -> bool)
    (l : list Notification) :
  (forall n, n_user_id n = me -> P n = true) ->
  filter (fun n => of_user me n) (filter (fun n => P n) l)
  = filter (fun n => of_user me n) l.
Proof.
  intros Hme. induction l as [| n l IH]; [reflexivity |].
  rewrite !filter_cons.
  destruct (decide (P n)) as [H1 | H1].
  - rewrite filter_cons. destruct (decide (of_user me n)); by rewrite IH.
  - destruct (decide (of_user me n)) as [H2 | H2]; [| exact IH].
    apply of_user_spec in H2. rewrite (Hme n H2) in H1. by destruct H1.
Qed.

Lemma filter_unread_read_all (u : Z) (l : list Notification) :
  filter (fun n => unread_of u n)
    ((fun n => if unread_of u n then read n else n) <$> l) = [].
Proof.
  induction l as [| n l IH]; [reflexivity |].
  rewrite fmap_cons, filter_cons, IH.
  destruct (decide _) as [H | H]; [| reflexivity].
  exfalso. destruct (unread_of u n) eqn:E.
  - apply unread_of_spec in H as [_ H]. discriminate H.
  - rewrite E in H. exact H.
Qed.

#[local] Instance newest_first_total : Total newest_first.
Proof. intros a b. unfold newest_first. lia. Qed.

#[local] Instance newest_first_trans : Transitive newest_first.
Proof. intros a b c. unfold newest_first. lia. Qed.

#[local] Instance unread_then_newest_total : Total unread_then_newest.
Proof.
  intros a b. unfold unread_then_newest.
  destruct (n_is_read a), (n_is_read b); repeat case_bool_decide;
    try congruence; auto; lia.
Qed.

#[local] Instance unread_then_newest_trans : Transitive unread_then_newest.
Proof.
  intros a b c. unfold unread_then_newest.
  destruct (n_is_read a), (n_is_read b), (n_is_read c); repeat case_bool_decide;
    try congruence; auto; lia.
Qed.

(** X17: PATCH /notifications/read-all leaves the requester nothing unread.
    When the query is executed the answer is a 200 that reports the
    number of the requester's unread notifications; afterwards each of
    the requester's notifications is read, GET /count reports 0 and
    GET /unread lists nothing; no row is added or deleted, the rows of
    other users are as they were, and bookings and queue are untouched. *)
Theorem read_all_leaves_nothing_unread (pg : Pg) (req : Request) (w : World) :
  notification_query_ok pg = true ->
  let r := patch_read_all pg req w in
  fst r = {| reply_status := 200;
             reply_body := NUpdated "All notifications marked as read"
               (Z.of_nat (List.length (filter (fun n => unread_of (user_id req) n)
                                         (notifications (db w))))) |}
  /\ (forall n, n ∈ notifications (db (snd r)) -> n_user_id n = user_id req ->
        n_is_read n = true)
  /\ fst (get_count pg req (snd r)) = {| reply_status := 200; reply_body := NUnread 0 |}
  /\ fst (get_unread pg req (snd r)) = {| reply_status := 200; reply_body := NRows [] |}
  /\ n_id <$> notifications (db (snd r)) = n_id <$> notifications (db w)
  /\ (forall u, u <> user_id req ->
        filter (fun n => of_user u n) (notifications (db (snd r)))
        = filter (fun n => of_user u n) (notifications (db w)))
  /\ bookings (db (snd r)) = bookings (db w) /\ queue (snd r) = queue w.
Proof.
  intros Hok. cbv zeta.
  unfold patch_read_all, get_count, get_unread, try_catch, BookingRoutes.bind, await_write,
    await_read, markAllAsRead, getUnreadCount, findUnreadByUser, reply.
  rewrite Hok. cbn [negb fst snd db with_db with_notifications notifications queue bookings].
  rewrite filter_unread_read_all. cbn.
  split; [reflexivity |]. split; [| split; [reflexivity | split; [reflexivity |]]].
  - intros n Hn Hu. apply list_elem_of_fmap in Hn as (m & -> & Hm).
    destruct (unread_of (user_id req) m) eqn:E; [reflexivity |].
    destruct (n_is_read m) eqn:R; [reflexivity |].
    assert (H : unread_of (user_id req) m) by (apply unread_of_spec; auto).
    rewrite E in H. destruct H.
  - split; [| split; [| split; reflexivity]].
    + rewrite <- list_fmap_compose. apply list_fmap_ext. intros i n _. cbn.
      destruct (unread_of (user_id req) n); reflexivity.
    + intros u Hu. apply filter_of_user_fmap.
      * intros n. destruct (unread_of (user_id req) n); reflexivity.
      * intros n Hn. destruct (unread_of (user_id req) n) eqn:E; [| reflexivity].
        assert (H : unread_of (user_id req) n) by (rewrite E; exact I).
        apply unread_of_spec in H as [H _]. congruence.
Qed.

(** X18: GET /notifications/count counts what GET /notifications/unread
    lists: when the count is answered, the list is answered too, it has
    as many rows as counted, and its rows are the unread notifications of
    the requester in the table, each as often as it is stored, the newest
    first; the two routes change nothing. *)
Theorem unread_count_matches_unread_list (pg : Pg) (req : Request) (w : World) (k : Z) :
  reply_body (fst (get_count pg req w)) = NUnread k ->
  snd (get_count pg req w) = w /\ snd (get_unread pg req w) = w
  /\ exists rows,
       fst (get_unread pg req w) = {| reply_status := 200; reply_body := NRows rows |}
       /\ Z.of_nat (List.length rows) = k
       /\ rows ≡ₚ filter (fun n => n_user_id n = user_id req /\ n_is_read n = false)
                    (notifications (db w))
       /\ Sorted newest_first rows.
Proof.
  unfold get_count, get_unread, try_catch, BookingRoutes.bind, await_read,
    getUnreadCount, findUnreadByUser, reply.
  destruct (negb (notification_query_ok pg)); [discriminate |].
  cbv zeta. destruct (2147483647 <? _); [discriminate |].
  cbn. intros Hk. injection Hk as <-.
  split; [reflexivity |]. split; [reflexivity |].
  eexists. split; [reflexivity |].
  split; [by rewrite merge_sort_Permutation |].
  split; [| apply Sorted_merge_sort; apply _].
  rewrite merge_sort_Permutation.
  erewrite list_filter_iff; [reflexivity |]. intros n. apply unread_of_spec.
Qed.

Lemma fmap_unaffected (f : Notification -> Notification) (l : list Notification) :
  (forall n, n ∈ l -> f n = n) -> f <$> l = l.
Proof.
  intros H. induction l as [| n l IH]; [reflexivity |].
  rewrite fmap_cons, H by apply list_elem_of_here.
  rewrite IH; [reflexivity |]. intros m Hm. apply H. by apply list_elem_of_further.
Qed.

Lemma filter_none (P : Notification -> bool) (l : list Notification) :
  (forall n, n ∈ l -> P n = false) -> filter (fun n => P n) l = [].
Proof.
  intros H. induction l as [| n l IH]; [reflexivity |].
  rewrite filter_cons, H by apply list_elem_of_here. cbn.
  apply IH. intros m Hm. apply H. by apply list_elem_of_further.
Qed.

Lemma filter_all (P : Notification -> bool) (l : list Notification) :
  (forall n, n ∈ l -> P n = true) -> filter (fun n => P n) l = l.
Proof.
  intros H. induction l as [| n l IH]; [reflexivity |].
  rewrite filter_cons, H by apply list_elem_of_here. cbn.
  rewrite IH; [reflexivity |]. intros m Hm. apply H. by apply list_elem_of_further.
Qed.

Lemma is_row_false (key u : Z) (n : Notification) :
  ~ (n_id n = key /\ n_user_id n = u) -> is_row key u n = false.
Proof.
  intros H. destruct (is_row key u n) eqn:E; [| reflexivity].
  exfalso. apply H. apply is_row_spec. rewrite E. exact I.
Qed.

Lemma is_row_true (key u : Z) (n : Notification) :
  n_id n = key -> n_user_id n = u -> is_row key u n = true.
Proof. intros <- <-. unfold is_row. by rewrite !Z.eqb_refl. Qed.

(** The rows an UPDATE by id and owner matches, after the update. *)
Lemma filter_is_row_marked (key u : Z) (l : list Notification) :
  filter (fun n => is_row key u n)
    ((fun n => if is_row key u n then read n else n) <$> l)
  = read <$> filter (fun n => is_row key u n) l.
Proof.
  induction l as [| n l IH]; [reflexivity |].
  rewrite fmap_cons, !filter_cons. destruct (is_row key u n) eqn:E.
  - change (is_row key u (read n)) with (is_row key u n). rewrite E. cbn.
    rewrite IH. reflexivity.
  - rewrite E. cbn. exact IH.
Qed.

Lemma head_filter_some (P : Notification -> bool) (l : list Notification) (n : Notification) :
  n ∈ l -> P n = true ->
  exists m, head (filter (fun n => P n) l) = Some m /\ m ∈ l /\ P m = true.
Proof.
  intros Hn HP.
  assert (Hin : n ∈ filter (fun n => P n) l).
  { apply list_elem_of_filter. split; [by rewrite HP | assumption]. }
  destruct (filter (fun n => P n) l) as [| m l'] eqn:E; [by apply elem_of_nil in Hin |].
  exists m. split; [reflexivity |].
  assert (Hm : m ∈ filter (fun n => P n) l) by (rewrite E; apply list_elem_of_here).
  apply list_elem_of_filter in Hm as [Hm1 Hm2]. split; [assumption |].
  by apply Is_true_true.
Qed.

(** X19: PATCH /notifications/:id/read marks the requester's notification
    with that id, and nothing else.  With the query executed and the id
    read as [key]: when the requester has no notification [key] the
    answer is 404 and the database is as it was (so nobody can mark the
    notification of another user); otherwise the answer is a 200 with a
    notification of that id and owner that is read and stored, and the
    same request again is answered the same; every row with another id or
    owner is as before, and afterwards each row with this id and owner is
    read. *)
Theorem mark_as_read_marks_own_notification (pg : Pg) (req : Request) (w : World)
    (key : Z) :
  notification_query_ok pg = true -> int4_in pg (params_id req) = Some key ->
  let r := patch_read pg req w in
  let mine n := n_id n = key /\ n_user_id n = user_id req in
  ((forall n, n ∈ notifications (db w) -> ~ mine n) ->
     fst r = {| reply_status := 404; reply_body := NError "Notification not found" |}
     /\ db (snd r) = db w)
  /\ (forall n, n ∈ notifications (db w) -> mine n ->
      exists m, fst r = {| reply_status := 200;
                           reply_body := NMarked "Notification marked as read" m |}
                /\ mine m /\ n_is_read m = true /\ m ∈ notifications (db (snd r))
                /\ fst (patch_read pg req (snd r)) = fst r)
  /\ (forall n, ~ mine n ->
      (n ∈ notifications (db (snd r)) <-> n ∈ notifications (db w)))
  /\ (forall n, n ∈ notifications (db (snd r)) -> mine n -> n_is_read n = true)
  /\ List.length (notifications (db (snd r))) = List.length (notifications (db w))
  /\ bookings (db (snd r)) = bookings (db w) /\ queue (snd r) = queue w.
Proof.
  intros Hok Hkey. cbv zeta.
  unfold patch_read, try_catch, BookingRoutes.bind, await_write, markAsRead, reply.
  rewrite Hok, Hkey. cbn [negb fst snd db with_db with_notifications notifications].
  set (l := notifications (db w)).
  set (f := fun n => if is_row key (user_id req) n then read n else n).
  split; [| split; [| split; [| split; [| split]]]].
  - intros Hnone.
    rewrite (filter_none (is_row key (user_id req)) l)
      by (intros n Hn; apply is_row_false; by apply Hnone).
    cbn. split; [reflexivity |].
    rewrite (fmap_unaffected f l).
    + apply with_notifications_same.
    + intros n Hn. unfold f. rewrite is_row_false; [reflexivity | by apply Hnone].
  - intros n Hn [Hid Hu].
    destruct (head_filter_some (is_row key (user_id req)) l n Hn (is_row_true _ _ _ Hid Hu))
      as (m & Hhead & Hm & Hrow).
    assert (Hh : head (read <$> filter (fun n => is_row key (user_id req) n) l)
                 = Some (read m)).
    { destruct (filter (fun n => is_row key (user_id req) n) l); [discriminate |].
      cbn in *. congruence. }
    rewrite Hh. cbn [fst snd db with_db with_notifications notifications].
    exists (read m). split; [reflexivity |].
    assert (Hspec : is_row key (user_id req) m) by (rewrite Hrow; exact I).
    apply is_row_spec in Hspec.
    split; [exact Hspec |]. split; [reflexivity |].
    split.
    + apply list_elem_of_fmap. exists m. split; [| assumption]. unfold f. by rewrite Hrow.
    + unfold f. rewrite filter_is_row_marked, <- list_fmap_compose.
      rewrite (list_fmap_ext (read ∘ read) read
                 (filter (fun n => is_row key (user_id req) n) l)) by reflexivity.
      rewrite Hh. reflexivity.
  - intros n Hn.
    destruct (head (read <$> _)); cbn [snd db notifications].
    all: split.
    all: try (intros Hin; apply list_elem_of_fmap in Hin as (m & -> & Hm); unfold f in *;
              destruct (is_row key (user_id req) m) eqn:E; [| assumption];
              exfalso; apply Hn; apply (is_row_spec key (user_id req) m);
              rewrite E; exact I).
    all: intros Hin; apply list_elem_of_fmap; exists n; split; [| assumption];
         unfold f; by rewrite (is_row_false _ _ _ Hn).
  - intros n Hin Hmine.
    assert (Hin' : n ∈ f <$> l) by (destruct (head (read <$> _)); exact Hin).
    apply list_elem_of_fmap in Hin' as (m & -> & Hm). unfold f in *.
    destruct (is_row key (user_id req) m) eqn:E; [reflexivity |].
    apply (is_row_spec key (user_id req) m) in Hmine. rewrite E in Hmine. destruct Hmine.
  - destruct (head (read <$> _)); cbn [snd db notifications]; apply length_fmap.
  - destruct (head (read <$> _)); split; reflexivity.
Qed.

(** X20: DELETE /notifications/:id deletes the requester's notification with
    that id, and nothing else.  With the query executed and the id read
    as [key]: when the requester has no notification [key] the answer is
    404 and the database is as it was; otherwise the answer is 200 and
    the same request again is answered 404; afterwards the table holds
    the rows it held with another id or owner, and the rows of every
    other user are as before. *)
Theorem delete_removes_own_notification (pg : Pg) (req : Request) (w : World)
    (key : Z) :
  notification_query_ok pg = true -> int4_in pg (params_id req) = Some key ->
  let r := delete_notification pg req w in
  let mine n := n_id n = key /\ n_user_id n = user_id req in
  ((forall n, n ∈ notifications (db w) -> ~ mine n) ->
     fst r = {| reply_status := 404; reply_body := NError "Notification not found" |}
     /\ db (snd r) = db w)
  /\ (forall n, n ∈ notifications (db w) -> mine n ->
      fst r = {| reply_status := 200; reply_body := NMessage "Notification deleted" |}
      /\ fst (delete_notification pg req (snd r))
         = {| reply_status := 404; reply_body := NError "Notification not found" |})
  /\ (forall n, n ∈ notifications (db (snd r)) <-> n ∈ notifications (db w) /\ ~ mine n)
  /\ (forall u, u <> user_id req ->
        filter (fun n => of_user u n) (notifications (db (snd r)))
        = filter (fun n => of_user u n) (notifications (db w)))
  /\ bookings (db (snd r)) = bookings (db w) /\ queue (snd r) = queue w.
Proof.
  intros Hok Hkey. cbv zeta.
  unfold delete_notification, try_catch, BookingRoutes.bind, await_write, deleteById, reply.
  rewrite Hok, Hkey. cbn [negb fst snd db with_db with_notifications notifications].
  set (l := notifications (db w)).
  assert (Hmem : forall n, n ∈ filter (fun n => negb (is_row key (user_id req) n)) l
                           <-> n ∈ l /\ ~ (n_id n = key /\ n_user_id n = user_id req)).
  { intros n. rewrite list_elem_of_filter, <- is_row_spec.
    destruct (is_row key (user_id req) n); cbn; tauto. }
  split; [| split; [| split; [| split]]].
  - intros Hnone.
    rewrite (filter_none (is_row key (user_id req)) l)
      by (intros n Hn; apply is_row_false; by apply Hnone).
    cbn. split; [reflexivity |].
    rewrite (filter_all (fun n => negb (is_row key (user_id req) n)) l).
    + apply with_notifications_same.
    + intros n Hn. rewrite is_row_false; [reflexivity | by apply Hnone].
  - intros n Hn [Hid Hu].
    destruct (head_filter_some (is_row key (user_id req)) l n Hn (is_row_true _ _ _ Hid Hu))
      as (m & Hhead & Hm & Hrow).
    rewrite Hhead.
    cbn [fmap option_fmap option_map fst snd db with_db with_notifications notifications].
    split; [reflexivity |].
    rewrite (filter_none (is_row key (user_id req))
               (filter (fun n => negb (is_row key (user_id req) n)) l)).
    + reflexivity.
    + intros x Hx. apply Hmem in Hx as [_ Hx]. by apply is_row_false.
  - intros n. destruct (n_id <$> head _); cbn [snd db notifications]; apply Hmem.
  - intros u Hu.
    assert (Hf : filter (fun n => of_user u n)
                   (filter (fun n => negb (is_row key (user_id req) n)) l)
                 = filter (fun n => of_user u n) l).
    { apply (filter_of_user_filter u (fun n => negb (is_row key (user_id req) n))).
      intros n Hn. rewrite is_row_false; [reflexivity |]. intros [_ Hx]. congruence. }
    destruct (n_id <$> head _); cbn [snd db notifications]; exact Hf.
  - destruct (n_id <$> head _); split; reflexivity.
Qed.

(** X21: GET /notifications sends the requester's first rows in the order
    unread first, then newest first, as many as [limit] allows.  The
    limit is never 0, and 50 when the query has none.  With the query
    executed and a limit that a JavaScript number holds exactly: a
    negative limit is answered 500; a positive one is answered 200 with
    rows of the requester from the table, none more often than stored,
    as many as the limit allows, in that order, and every row of the
    requester that is left out may stand after every row that is sent.
    The route changes neither the database nor the queue. *)
Theorem notification_list_honours_limit (pg : Pg) (limit : option string)
    (req : Request) (w : World) :
  notification_query_ok pg = true ->
  query_limit limit <= 9007199254740992 ->
  let n := query_limit limit in
  let mine := filter (fun x => n_user_id x = user_id req) (notifications (db w)) in
  let r := get_notifications pg limit req w in
  n <> 0 /\ (limit = None -> n = 50)
  /\ db (snd r) = db w /\ queue (snd r) = queue w
  /\ (n < 0 -> reply_status (fst r) = 500)
  /\ (0 < n ->
      exists rows,
        fst r = {| reply_status := 200; reply_body := NRows rows |}
        /\ List.length rows = Nat.min (Z.to_nat n) (List.length mine)
        /\ rows ⊆+ mine
        /\ Sorted unread_then_newest rows
        /\ (forall x y, x ∈ rows -> y ∈ mine -> y ∉ rows -> unread_then_newest x y)).
Proof.
  intros Hok Hmax. cbv zeta.
  assert (Hmine : filter (fun x => n_user_id x = user_id req) (notifications (db w))
                  = filter (fun x => of_user (user_id req) x) (notifications (db w))).
  { apply list_filter_iff. intros x. symmetry. apply of_user_spec. }
  rewrite Hmine.
  set (sorted := merge_sort unread_then_newest
                   (filter (fun x => of_user (user_id req) x) (notifications (db w)))).
  assert (Hperm : sorted ≡ₚ filter (fun x => of_user (user_id req) x) (notifications (db w)))
    by apply merge_sort_Permutation.
  split.
  { unfold query_limit. destruct limit as [s|]; [| discriminate].
    destruct (Text.parseInt s) as [n|]; [| discriminate].
    destruct (Z.eqb_spec n 0); [discriminate | assumption]. }
  split; [by intros -> |].
  unfold get_notifications, try_catch, BookingRoutes.bind, await_read, findAllByUser, reply.
  rewrite Hok. cbn [negb].
  destruct (Z.ltb_spec (query_limit limit) 0) as [Hneg | Hpos]; cbn [orb].
  { repeat split; try reflexivity. intros H. lia. }
  destruct (Z.ltb_spec int8_max (query_limit limit)) as [Hbig | _].
  { unfold int8_max in Hbig. lia. }
  cbn [fst snd]. split; [reflexivity |]. split; [reflexivity |].
  split; [intros H; lia |].
  intros Hn. fold sorted. eexists. split; [reflexivity |].
  split; [| split; [| split]].
  - rewrite length_take, <- Hperm. reflexivity.
  - rewrite <- Hperm. apply sublist_submseteq, sublist_take.
  - assert (Hs : Sorted unread_then_newest (take (Z.to_nat (query_limit limit)) sorted
                                            ++ drop (Z.to_nat (query_limit limit)) sorted)).
    { rewrite take_drop. apply Sorted_merge_sort. apply _. }
    apply Sorted_StronglySorted in Hs; [| apply _].
    apply StronglySorted_app_1_l in Hs. by apply StronglySorted_Sorted.
  - intros x y Hx Hy Hnot.
    assert (Hs : StronglySorted unread_then_newest
                   (take (Z.to_nat (query_limit limit)) sorted
                    ++ drop (Z.to_nat (query_limit limit)) sorted)).
    { rewrite take_drop. apply StronglySorted_merge_sort; apply _. }
    apply (StronglySorted_app_1_elem_of _ _ _ x y Hs Hx).
    rewrite <- Hperm, <- (take_drop (Z.to_nat (query_limit limit)) sorted) in Hy.
    apply elem_of_app in Hy as [Hy | Hy]; [contradiction | assumption].
Qed.

Lemma BookingModel_create_notifications (pg : Pg) (d d' : Db) (u : Z) (t s e : JVal)
    (b : Booking) :
  BookingModel_create pg d u t s e = Ok (d', b) ->
  notifications d' = notifications d /\ next_notification_id d' = next_notification_id d.
Proof.
  unfold BookingModel_create. repeat case_match; intros Hcr; simplify_eq.
  split; reflexivity.
Qed.

Lemma BookingModel_cancel_notifications (pg : Pg) (d d' : Db) (bookingId : string) (u : Z)
    (r : option Booking) :
  BookingModel_cancel pg d bookingId u = Ok (d', r) ->
  notifications d' = notifications d /\ next_notification_id d' = next_notification_id d.
Proof.
  unfold BookingModel_cancel. repeat case_match; intros Hcr; simplify_eq;
    split; reflexivity.
Qed.

Lemma NotificationModel_create_row (pg : Pg) (d d' : Db) (u : Z)
    (ty ti me md : string) (n : Notification) :
  NotificationModel_create pg d u ty ti me md = Ok (d', n) ->
  notifications d' = (notifications d ++ [n])%list
  /\ n_user_id n = u /\ n_is_read n = false /\ n_type n = ty
  /\ n_id n = next_notification_id d /\ n_metadata n = md.
Proof.
  unfold NotificationModel_create. repeat case_match; intros Hn; simplify_eq.
  repeat split; reflexivity.
Qed.

Lemma post_booking_notifications (h : Host) (pg : Pg) (req : Request) (w : World) :
  (code (fst (post_booking h pg req w)) <> 201
   /\ notifications (db (snd (post_booking h pg req w))) = notifications (db w))
  \/ (exists b n,
        fst (post_booking h pg req w)
        = {| code := 201; json := JsonBooking "Booking created successfully" b |}
        /\ written "BOOKING_CONFIRMED" (user_id req) (db w)
             (db (snd (post_booking h pg req w))) n
        /\ n_metadata n = booking_metadata (b_id b)).
Proof.
  unfold post_booking, BookingRoutes.try_catch.
  destruct (negb (truthy (data_get (body req) "title"))
            || negb (truthy (data_get (body req) "start"))
            || negb (truthy (data_get (body req) "end"))).
  { left. split; [discriminate | reflexivity]. }
  destruct (invalid_date (newDate h (data_get (body req) "start"))
            || invalid_date (newDate h (data_get (body req) "end"))).
  { left. split; [discriminate | reflexivity]. }
  destruct (date_lt (newDate h (data_get (body req) "start")) (Some (dateNow h))).
  { left. split; [discriminate | reflexivity]. }
  destruct (date_le (newDate h (data_get (body req) "end"))
                    (newDate h (data_get (body req) "start"))).
  { left. split; [discriminate | reflexivity]. }
  unfold BookingRoutes.bind, await_create.
  destruct (BookingModel_create pg (db w) (user_id req) (data_get (body req) "title")
              (data_get (body req) "start") (data_get (body req) "end"))
    as [[d1 b]|e] eqn:Hc.
  2:{ left. split; [discriminate | reflexivity]. }
  destruct (BookingModel_create_notifications _ _ _ _ _ _ _ _ Hc) as [Hn1 Hx1].
  unfold emailQueue_add, await_notify, record, with_db, BookingRoutes.ret.
  cbn [db queue trace].
  destruct (NotificationModel_create pg d1 _ _ _ _ _) as [[d2 n]|e] eqn:Hn.
  - right. exists b, n. cbn [fst snd db]. split; [reflexivity |].
    destruct (NotificationModel_create_row _ _ _ _ _ _ _ _ _ Hn)
      as (E1 & E2 & E3 & E4 & E5 & E6).
    unfold written. rewrite <- Hn1, <- Hx1. auto 10.
  - left. cbn [fst snd db]. split; [discriminate | assumption].
Qed.

Lemma delete_booking_notifications (pg : Pg) (req : Request) (w : World) :
  (code (fst (delete_booking pg req w)) <> 200
   /\ notifications (db (snd (delete_booking pg req w))) = notifications (db w))
  \/ (exists b n,
        fst (delete_booking pg req w)
        = {| code := 200; json := JsonBooking "Booking cancelled successfully" b |}
        /\ written "BOOKING_CANCELLED" (user_id req) (db w)
             (db (snd (delete_booking pg req w))) n
        /\ n_metadata n = booking_metadata (b_id b)).
Proof.
  unfold delete_booking, BookingRoutes.try_catch, BookingRoutes.bind, await_cancel.
  destruct (BookingModel_cancel pg (db w) (params_id req) (user_id req))
    as [[d1 [b|]]|e] eqn:Hc.
  - destruct (BookingModel_cancel_notifications _ _ _ _ _ _ Hc) as [Hn1 Hx1].
    unfold emailQueue_add, await_notify, record, with_db, BookingRoutes.ret.
    cbn [db queue trace].
    destruct (NotificationModel_create pg d1 _ _ _ _ _) as [[d2 n]|e] eqn:Hn.
    + right. exists b, n. cbn [fst snd db]. split; [reflexivity |].
      destruct (NotificationModel_create_row _ _ _ _ _ _ _ _ _ Hn)
        as (E1 & E2 & E3 & E4 & E5 & E6).
      unfold written. rewrite <- Hn1, <- Hx1. auto 10.
    + left. cbn [fst snd db]. split; [discriminate | assumption].
  - destruct (BookingModel_cancel_notifications _ _ _ _ _ _ Hc) as [Hn1 _].
    left. cbn. split; [discriminate | assumption].
  - left. split; [discriminate | reflexivity].
Qed.

Lemma patch_booking_notifications (h : Host) (pg : Pg) (req : Request) (w : World) :
  notifications (db (snd (BookingApi.patch_booking h pg req w))) = notifications (db w).
Proof.
  destruct (patch_booking_cases h pg req w)
    as [[_ Hw] | [_ [(e & _ & _ & Hd & _) | [(_ & _ & Hw) | (d1 & row & Hu & _ & Hw)]]]];
    cbv zeta in *.
  - by rewrite Hw.
  - by rewrite Hd.
  - by rewrite Hw.
  - rewrite Hw. cbn [db].
    pose proof (update_spec pg (db w) (params_id req) (user_id req)
                  (data_get (body req) "title") (data_get (body req) "start")
                  (data_get (body req) "end")) as Hs.
    rewrite Hu in Hs.
    destruct Hs as (key & old & _ & _ & _ & _ & _ & _ & _ & _ & _ & _ & _ & _ & _ & Hn & _).
    exact Hn.
Qed.

Lemma filter_of_user_written (ty : string) (u me : Z) (d d' : Db) (n : Notification) :
  written ty u d d' n -> u <> me ->
  filter (fun n => of_user me n) (notifications d')
  = filter (fun n => of_user me n) (notifications d).
Proof.
  intros (Hd & Hu & _) Hne. rewrite Hd, filter_app, filter_cons, filter_nil.
  destruct (decide (of_user me n)) as [H | H].
  - apply of_user_spec in H. congruence.
  - apply app_nil_r.
Qed.

Lemma call_keeps_notifications_of_others (c : Call) (w : World) (me : Z) :
  caller c <> me ->
  filter (fun n => of_user me n) (notifications (db (after c w)))
  = filter (fun n => of_user me n) (notifications (db w)).
Proof.
  destruct c as [[h pg req | pg order req | pg req | h pg req | pg req]
                 | pg limit req | pg req | pg req | pg req | pg req | pg req];
    cbn [caller BookingApi.caller after BookingApi.after]; intros Hne.
  - destruct (post_booking_notifications h pg req w) as [[_ ->] | (b & n & _ & Hw & _)];
      [reflexivity |].
    by apply (filter_of_user_written _ _ _ _ _ _ Hw).
  - destruct (get_bookings_world pg order req w) as [-> _]. reflexivity.
  - destruct (get_booking_world pg req w) as [-> _]. reflexivity.
  - by rewrite patch_booking_notifications.
  - destruct (delete_booking_notifications pg req w) as [[_ ->] | (b & n & _ & Hw & _)];
      [reflexivity |].
    by apply (filter_of_user_written _ _ _ _ _ _ Hw).
  - unfold get_notifications, try_catch, BookingRoutes.bind, await_read, reply.
    destruct (findAllByUser _ _ _ _); reflexivity.
  - unfold get_unread, try_catch, BookingRoutes.bind, await_read, reply.
    destruct (findUnreadByUser _ _ _); reflexivity.
  - unfold get_count, try_catch, BookingRoutes.bind, await_read, reply.
    destruct (getUnreadCount _ _ _); reflexivity.
  - unfold patch_read_all, try_catch, BookingRoutes.bind, await_write, reply, markAllAsRead.
    destruct (negb (notification_query_ok pg)); [reflexivity |].
    cbn [fst snd db with_db with_notifications notifications].
    apply filter_of_user_fmap.
    + intros n. destruct (unread_of (user_id req) n); reflexivity.
    + intros n Hn. destruct (unread_of (user_id req) n) eqn:E; [| reflexivity].
      assert (H : unread_of (user_id req) n) by (rewrite E; exact I).
      apply unread_of_spec in H as [H _]. congruence.
  - unfold patch_read, try_catch, BookingRoutes.bind, await_write, reply, markAsRead.
    destruct (negb (notification_query_ok pg)); [reflexivity |].
    destruct (int4_in pg (params_id req)) as [key|]; [| reflexivity].
    assert (Hf : filter (fun n => of_user me n)
                   ((fun n => if is_row key (user_id req) n then read n else n)
                      <$> notifications (db w))
                 = filter (fun n => of_user me n) (notifications (db w))).
    { apply filter_of_user_fmap.
      - intros n. destruct (is_row key (user_id req) n); reflexivity.
      - intros n Hn. destruct (is_row key (user_id req) n) eqn:E; [| reflexivity].
        assert (H : is_row key (user_id req) n) by (rewrite E; exact I).
        apply is_row_spec in H as [_ H]. congruence. }
    destruct (head (read <$> _)); exact Hf.
  - unfold delete_notification, try_catch, BookingRoutes.bind, await_write, reply,
      deleteById.
    destruct (negb (notification_query_ok pg)); [reflexivity |].
    destruct (int4_in pg (params_id req)) as [key|]; [| reflexivity].
    assert (Hf : filter (fun n => of_user me n)
                   (filter (fun n => negb (is_row key (user_id req) n))
                      (notifications (db w)))
                 = filter (fun n => of_user me n) (notifications (db w))).
    { apply (filter_of_user_filter me (fun n => negb (is_row key (user_id req) n))).
      intros n Hn. rewrite is_row_false; [reflexivity |]. intros [_ Hx]. congruence. }
    destruct (n_id <$> head _); exact Hf.
Qed.

(** X22: Isolation between users in the notifications table: calls of the
    eleven booking and notification routes made by other users, in any
    number and order, leave the notifications of a user exactly as they
    were. *)
Theorem other_users_cannot_touch_my_notifications (cs : list Call) (w : World) (me : Z) :
  (forall c, c ∈ cs -> caller c <> me) ->
  filter (fun n => n_user_id n = me) (notifications (db (after_all cs w)))
  = filter (fun n => n_user_id n = me) (notifications (db w)).
Proof.
  assert (Hiff : forall l : list Notification, filter (fun n => n_user_id n = me) l
                           = filter (fun n => of_user me n) l).
  { intros l. apply list_filter_iff. intros x. symmetry. apply of_user_spec. }
  rewrite !Hiff. clear Hiff. unfold after_all.
  revert w. induction cs as [| c cs IH]; intros w Hothers; [reflexivity |].
  cbn [fold_left]. rewrite IH.
  - apply call_keeps_notifications_of_others. apply Hothers. apply list_elem_of_here.
  - intros c' Hc'. apply Hothers. by apply list_elem_of_further.
Qed.

Lemma unread_count_written (pg : Pg) (req : Request) (w w' : World) (ty : string)
    (n : Notification) (k : Z) :
  fst (get_count pg req w) = {| reply_status := 200; reply_body := NUnread k |} ->
  k < 2147483647 ->
  written ty (user_id req) (db w) (db w') n ->
  fst (get_count pg req w') = {| reply_status := 200; reply_body := NUnread (k + 1) |}.
Proof.
  unfold get_count, try_catch, BookingRoutes.bind, await_read, getUnreadCount, reply.
  destruct (negb (notification_query_ok pg)); [discriminate |]. cbv zeta.
  destruct (2147483647 <? _); [discriminate |].
  cbn. intros Hk Hlt (Hd & Hu & Hr & _). injection Hk as <-.
  rewrite Hd, filter_app, filter_cons, filter_nil.
  destruct (decide (unread_of (user_id req) n)) as [H | H].
  2:{ exfalso. apply H. apply unread_of_spec. auto. }
  rewrite length_app. cbn [List.length].
  rewrite Nat2Z.inj_add. change (Z.of_nat 1) with 1.
  destruct (Z.ltb_spec 2147483647
              (Z.of_nat (List.length (filter (fun n => unread_of (user_id req) n)
                                        (notifications (db w)))) + 1)); [lia |].
  reflexivity.
Qed.

(** X23: A booking created or cancelled is one more unread notification for
    the requester.  When GET /notifications/count reports k unread
    notifications, then after a POST /bookings answered 201, and after a
    DELETE /bookings/:id answered 200, it reports k + 1: the route added
    one row, unread, for the requester, of type BOOKING_CONFIRMED or
    BOOKING_CANCELLED, whose metadata name the booking.  After any other
    answer of the two routes the notifications are as they were. *)
Theorem booking_routes_notify_the_requester (h : Host) (pg pg2 : Pg) (req : Request)
    (w : World) (k : Z) :
  fst (get_count pg2 req w) = {| reply_status := 200; reply_body := NUnread k |} ->
  k < 2147483647 ->
  let post := post_booking h pg req w in
  let del := delete_booking pg req w in
  (forall b, fst post = {| code := 201;
                            json := JsonBooking "Booking created successfully" b |} ->
     fst (get_count pg2 req (snd post))
     = {| reply_status := 200; reply_body := NUnread (k + 1) |}
     /\ exists n, written "BOOKING_CONFIRMED" (user_id req) (db w) (db (snd post)) n
                  /\ n_metadata n = booking_metadata (b_id b))
  /\ (code (fst post) <> 201 -> notifications (db (snd post)) = notifications (db w))
  /\ (forall b, fst del = {| code := 200;
                             json := JsonBooking "Booking cancelled successfully" b |} ->
     fst (get_count pg2 req (snd del))
     = {| reply_status := 200; reply_body := NUnread (k + 1) |}
     /\ exists n, written "BOOKING_CANCELLED" (user_id req) (db w) (db (snd del)) n
                  /\ n_metadata n = booking_metadata (b_id b))
  /\ (code (fst del) <> 200 -> notifications (db (snd del)) = notifications (db w)).
Proof.
  intros Hk Hlt. cbv zeta.
  split; [| split; [| split]].
  - intros b Hb.
    destruct (post_booking_notifications h pg req w) as [[Hne _] | (b' & n & Hb' & Hw & Hm)].
    { rewrite Hb in Hne. cbn in Hne. congruence. }
    rewrite Hb in Hb'. injection Hb' as <-.
    split; [exact (unread_count_written _ _ _ _ _ _ _ Hk Hlt Hw) | eauto].
  - intros Hne.
    destruct (post_booking_notifications h pg req w) as [[_ He] | (b' & n & Hb' & _)];
      [assumption |].
    rewrite Hb' in Hne. cbn in Hne. congruence.
  - intros b Hb.
    destruct (delete_booking_notifications pg req w) as [[Hne _] | (b' & n & Hb' & Hw & Hm)].
    { rewrite Hb in Hne. cbn in Hne. congruence. }
    rewrite Hb in Hb'. injection Hb' as <-.
    split; [exact (unread_count_written _ _ _ _ _ _ _ Hk Hlt Hw) | eauto].
  - intros Hne.
    destruct (delete_booking_notifications pg req w) as [[_ He] | (b' & n & Hb' & _)];
      [assumption |].
    rewrite Hb' in Hne. cbn in Hne. congruence.
Qed.

Lemma read_all_leaves_nothing_unread_witness :
  fst (get_count pg_up cancel_request
         (snd (patch_read_all pg_up cancel_request Samples.inbox)))
  = {| reply_status := 200; reply_body := NUnread 0 |}.
Proof.
  destruct (read_all_leaves_nothing_unread pg_up cancel_request Samples.inbox eq_refl)
    as (_ & _ & H & _).
  exact H.
Defined.

Lemma unread_count_matches_unread_list_witness :
  exists rows,
    fst (get_unread pg_up cancel_request Samples.inbox)
    = {| reply_status := 200; reply_body := NRows rows |}
    /\ Z.of_nat (List.length rows) = 1.
Proof.
  destruct (unread_count_matches_unread_list pg_up cancel_request Samples.inbox 1 eq_refl)
    as (_ & _ & rows & H1 & H2 & _).
  exists rows. split; assumption.
Defined.

Lemma mark_as_read_marks_own_notification_witness :
  exists m, fst (patch_read pg_up cancel_request Samples.inbox)
            = {| reply_status := 200;
                 reply_body := NMarked "Notification marked as read" m |}
            /\ n_is_read m = true.
Proof.
  destruct (mark_as_read_marks_own_notification pg_up cancel_request Samples.inbox 1
              eq_refl eq_refl) as (_ & H & _).
  destruct (H (Samples.note 1 7 false 100)) as (m & H1 & _ & H2 & _).
  - apply list_elem_of_here.
  - split; reflexivity.
  - exists m. split; assumption.
Defined.

Lemma delete_removes_own_notification_witness :
  fst (delete_notification pg_up Samples.intruder_request Samples.inbox)
  = {| reply_status := 404; reply_body := NError "Notification not found" |}.
Proof.
  destruct (delete_removes_own_notification pg_up Samples.intruder_request Samples.inbox 1
              eq_refl eq_refl) as (H & _).
  apply H. intros n Hn [Hid Hu].
  apply elem_of_cons in Hn as [-> | Hn]; [discriminate Hu |].
  apply elem_of_cons in Hn as [-> | Hn]; [discriminate Hid |].
  apply elem_of_cons in Hn as [-> | Hn]; [discriminate Hid |].
  by apply elem_of_nil in Hn.
Defined.

Lemma notification_list_honours_limit_witness :
  exists rows,
    fst (get_notifications pg_up (Some "1") cancel_request Samples.inbox)
    = {| reply_status := 200; reply_body := NRows rows |}
    /\ List.length rows = 1%nat.
Proof.
  destruct (notification_list_honours_limit pg_up (Some "1") cancel_request Samples.inbox
              eq_refl) as (_ & _ & _ & _ & _ & H).
  - vm_compute. discriminate.
  - destruct H as (rows & H1 & H2 & _); [reflexivity |].
    exists rows. split; [exact H1 | exact H2].
Defined.

Lemma other_users_cannot_touch_my_notifications_witness :
  filter (fun n => n_user_id n = 7)
    (notifications (db (after_all [READ_ALL pg_up Samples.intruder_request;
                                   DELETE pg_up Samples.intruder_request]
                          Samples.inbox)))
  = [Samples.note 1 7 false 100; Samples.note 2 7 true 200].
Proof.
  rewrite (other_users_cannot_touch_my_notifications
             [READ_ALL pg_up Samples.intruder_request;
              DELETE pg_up Samples.intruder_request] Samples.inbox 7).
  - reflexivity.
  - intros c Hc. apply elem_of_cons in Hc as [-> | Hc]; [cbn; lia |].
    apply elem_of_cons in Hc as [-> | Hc]; [cbn; lia |].
    by apply elem_of_nil in Hc.
Defined.

Lemma booking_routes_notify_the_requester_witness :
  fst (get_count pg_up Samples.standup_request
         (snd (post_booking Hosts.utc pg_up Samples.standup_request Samples.empty_world)))
  = {| reply_status := 200; reply_body := NUnread 1 |}.
Proof.
  destruct (booking_routes_notify_the_requester Hosts.utc pg_up pg_up
              Samples.standup_request Samples.empty_world 0 eq_refl eq_refl)
    as (H & _).
  destruct (H {| b_id := 1; b_user_id := 7; b_title := "Standup";
                 b_start_time := JStr "2026-04-02T09:00:00Z";
                 b_end_time := JStr "2026-04-02T09:30:00Z";
                 b_status := "confirmed";
                 b_created_at := current_timestamp pg_up;
                 b_updated_at := current_timestamp pg_up |}) as (Hc & _).
  - vm_compute. reflexivity.
  - exact Hc.
Defined.

End Notifications.

(* ===================================================================== *)
(** ** The auth guard *)

Section Guard.

Import Str Vocab AuthMiddleware.

Example split_space_examples :
  split_space "Bearer abc def" = ("Bearer", ["abc"; "def"])
  /\ split_space "Bearer " = ("Bearer", [EmptyString])
  /\ split_space "Bearer" = ("Bearer", []).
Proof. repeat split; reflexivity. Qed.

Lemma prefix_inv (p s : string) :
  String.prefix p s = true -> exists x, s = p ++ x.
Proof.
  revert s. induction p as [| a p IH]; intros s H.
  - exists s. reflexivity.
  - destruct s as [| b s]; [discriminate H |]. cbn in H.
    destruct (ascii_dec a b) as [-> | _]; [| discriminate H].
    destruct (IH s H) as [x ->]. exists x. reflexivity.
Qed.

Lemma append_empty_r (s : string) : s ++ EmptyString = s.
Proof.
  induction s as [| a s IH]; [reflexivity |].
  change (String a s ++ EmptyString) with (String a (s ++ EmptyString)).
  by rewrite IH.
Qed.

Lemma split_space_first (s : string) :
  contains_char " " (fst (split_space s)) = false.
Proof.
  induction s as [| c r IH]; [reflexivity |]. cbn.
  destruct (split_space r) as [seg rest]. cbn in IH.
  destruct (Ascii.eqb c " ") eqn:E; [reflexivity |]. cbn. rewrite E. exact IH.
Qed.

Lemma split_space_shape (s : string) :
  (s = fst (split_space s) /\ snd (split_space s) = [])
  \/ exists r, s = fst (split_space s) ++ " " ++ r
               /\ snd (split_space s) = fst (split_space r) :: snd (split_space r).
Proof.
  induction s as [| c r IH]; [left; split; reflexivity |]. cbn.
  destruct (split_space r) as [seg rest] eqn:Hr. cbn in IH.
  destruct (Ascii.eqb_spec c " ") as [-> | Hc].
  - right. exists r. rewrite Hr. split; reflexivity.
  - destruct IH as [[H1 H2] | (x & H1 & H2)].
    + left. cbn. split; [congruence | assumption].
    + right. exists x. cbn. split; [| assumption].
      rewrite H1 at 1. reflexivity.
Qed.

Lemma split_space_token (token rest : string) :
  contains_char " " token = false ->
  rest = EmptyString \/ (exists r, rest = " " ++ r) ->
  fst (split_space (token ++ rest)) = token.
Proof.
  induction token as [| c t IH]; intros Hc Hrest.
  - destruct Hrest as [-> | [r ->]]; [reflexivity |].
    change (EmptyString ++ " " ++ r) with (String " " r). cbn.
    destruct (split_space r). reflexivity.
  - cbn in Hc. apply orb_false_iff in Hc as [Hc1 Hc2].
    change (String c t ++ rest) with (String c (t ++ rest)). cbn.
    specialize (IH Hc2 Hrest). destruct (split_space (t ++ rest)) as [seg more].
    rewrite Hc1. cbn in *. congruence.
Qed.

(** The token the middleware verifies, for a header that starts with
    'Bearer '. *)
Lemma authMiddleware_bearer (verify : Jwt) (x : string) :
  authMiddleware verify (Some ("Bearer " ++ x))
  = match verify (fst (split_space x)) with
    | Some decoded => Next decoded
    | None => Unauthorized "Unauthorized: Invalid token"
    end.
Proof.
  unfold authMiddleware, startsWith.
  change ("Bearer " ++ x) with
    (String "B" (String "e" (String "a" (String "r" (String "e" (String "r"
       (String " " x))))))).
  cbn.
  replace (String.prefix EmptyString x) with true by (destruct x; reflexivity).
  destruct (split_space x) as [seg rest]. reflexivity.
Qed.

(** X24: authMiddleware lets a request pass only with a verified token, and
    hands on what the token holds.  It calls next() with user u exactly
    when the Authorization header is 'Bearer ', then a token without a
    space that jwt.verify accepts with payload u, then nothing or a space
    and anything; every other request is answered 401.  So text after the
    token is ignored, and a header without the word Bearer is refused
    whatever jwt.verify would say: the outcome does not depend on it. *)
Theorem authMiddleware_passes_verified_tokens_only (verify : Jwt)
    (authorization : option string) :
  (forall u, authMiddleware verify authorization = Next u <->
     exists token rest,
       authorization = Some ("Bearer " ++ token ++ rest)
       /\ contains_char " " token = false
       /\ (rest = EmptyString \/ exists r, rest = " " ++ r)
       /\ verify token = Some u)
  /\ (forall token junk, contains_char " " token = false ->
      authMiddleware verify (Some ("Bearer " ++ token ++ " " ++ junk))
      = authMiddleware verify (Some ("Bearer " ++ token)))
  /\ ((forall x, authorization <> Some ("Bearer " ++ x)) ->
      forall verify', authMiddleware verify' authorization
                      = Unauthorized "Unauthorized: No token provided").
Proof.
  split; [| split].
  - intros u. split.
    + destruct authorization as [h|]; [| discriminate].
      destruct (startsWith "Bearer " h) eqn:Hp.
      2:{ unfold authMiddleware. rewrite Hp, orb_true_r. discriminate. }
      apply prefix_inv in Hp as [x ->]. rewrite authMiddleware_bearer.
      destruct (verify (fst (split_space x))) as [d|] eqn:Hv; [| discriminate].
      intros Hu. injection Hu as ->.
      exists (fst (split_space x)).
      destruct (split_space_shape x) as [[Hx _] | (r & Hx & _)].
      * exists EmptyString.
        split; [by rewrite append_empty_r, <- Hx |].
        split; [apply split_space_first |]. auto.
      * exists (" " ++ r). split; [by rewrite <- Hx |].
        split; [apply split_space_first |]. split; [right; eauto | assumption].
    + intros (token & rest & -> & Hc & Hrest & Hv).
      rewrite authMiddleware_bearer, (split_space_token token rest Hc Hrest), Hv.
      reflexivity.
  - intros token junk Hc. rewrite !authMiddleware_bearer.
    rewrite (split_space_token token (" " ++ junk) Hc) by (right; eauto).
    pose proof (split_space_token token EmptyString Hc (or_introl eq_refl)) as H.
    rewrite append_empty_r in H. rewrite H. reflexivity.
  - intros Hno verify'. destruct authorization as [h|]; [| reflexivity].
    unfold authMiddleware. destruct (String.eqb h EmptyString); [reflexivity |]. cbn [orb].
    destruct (startsWith "Bearer " h) eqn:Hp; [| reflexivity].
    apply prefix_inv in Hp as [x ->]. destruct (Hno x). reflexivity.
Qed.

End Guard.

(* ===================================================================== *)
(** ** Registration and login *)

Section Accounts.

Import Str Models EmailService EmailQueue Worker Vocab Props Auth.

Example emailRegex_test_examples :
  emailRegex_test "ann@example.com" = true /\ emailRegex_test "a@b.c.d" = true
  /\ emailRegex_test "a@b..c" = true /\ emailRegex_test "a@b" = false
  /\ emailRegex_test "a@b." = false /\ emailRegex_test "a@.c" = false
  /\ emailRegex_test "@b.c" = false /\ emailRegex_test "a@@b.c" = false
  /\ emailRegex_test "a b@c.d" = false /\ emailRegex_test "a@b.c " = false
  /\ emailRegex_test "true" = false.
Proof. repeat split; reflexivity. Qed.

Example utf16_length_examples :
  utf16_length "secret" = 6%nat /\ utf16_length "héllo" = 5%nat
  /\ utf16_length "🎉🎉🎉" = 6%nat /\ utf16_length "✅✅✅" = 3%nat.
Proof. repeat split; reflexivity. Qed.

Lemma create_spec (sv : Services) (pg : Pg) (w w1 : State) (name email : JVal)
    (passwordHash : string) (u : User) :
  create sv pg w name email passwordHash = Ok (w1, u) ->
  users w1 = (users w ++ [u])%list /\ emails w1 = emails w
  /\ (forall v, v ∈ users w -> u_id v <> u_id u /\ u_email v <> u_email u)
  /\ u_role u = "member"
  /\ varchar100_in sv name = Some (u_name u)
  /\ varchar255_in pg email = Some (u_email u)
  /\ u_id u = users_id_seq sv.
Proof.
  unfold create.
  destruct (negb (users_query_ok sv)); [discriminate |].
  destruct (varchar100_in sv name) as [n|]; [| discriminate].
  destruct (varchar255_in pg email) as [e|]; [| discriminate].
  destruct (varchar255_in pg (JStr passwordHash)) as [p|]; [| discriminate].
  destruct (existsb _ (users w)) eqn:Hex; [discriminate |].
  intros H. injection H as <- <-. cbn.
  split; [reflexivity |]. split; [reflexivity |].
  split; [| repeat split; reflexivity].
  intros v Hv.
  assert (Hnot : (u_id v =? users_id_seq sv) || String.eqb (u_email v) e = false).
  { destruct ((u_id v =? users_id_seq sv) || String.eqb (u_email v) e) eqn:E;
      [| reflexivity].
    assert (Ht : existsb (fun u => (u_id u =? users_id_seq sv) || String.eqb (u_email u) e)
                   (users w) = true).
    { apply existsb_exists. exists v. split; [by apply list_elem_of_In | exact E]. }
    congruence. }
  apply orb_false_iff in Hnot as [H1 H2].
  split; [by apply Z.eqb_neq | by apply String.eqb_neq].
Qed.

(** The outcomes of [register], in the order of the code. *)
Lemma register_cases (sv : Services) (pg : Pg) (body : Obj) (w : State) :
  (Auth.status (fst (register sv pg body w)) = 400 /\ snd (register sv pg body w) = w)
  \/ (fst (register sv pg body w) = server_error /\ snd (register sv pg body w) = w)
  \/ (emailRegex_test (toStr (data_get body "email")) = true
      /\ too_short (data_get body "password") = false
      /\ findByEmail sv w (data_get body "email") = Ok None
      /\ exists passwordHash w1 u,
           bcrypt_hash sv (data_get body "password") = Ok passwordHash
           /\ create sv pg w (data_get body "name") (data_get body "email") passwordHash
              = Ok (w1, u)
           /\ ((exists e, generateToken sv u = Throw e
                          /\ fst (register sv pg body w) = server_error
                          /\ snd (register sv pg body w) = w1)
               \/ (exists token, generateToken sv u = Ok token
                     /\ fst (register sv pg body w)
                        = {| Auth.status := 201;
                             body_of := ARegistered "User registered successfully" token
                                          (u_id u) (u_name u) (u_email u) |}
                     /\ snd (register sv pg body w)
                        = {| users := users w1;
                             emails := add (emails w1) (welcome_job u) |}))).
Proof.
  unfold register.
  destruct (negb (truthy (data_get body "name")) || negb (truthy (data_get body "email"))
            || negb (truthy (data_get body "password"))).
  { left. split; reflexivity. }
  destruct (too_short (data_get body "password")).
  { left. split; reflexivity. }
  destruct (emailRegex_test (toStr (data_get body "email"))); cbn [negb].
  2:{ left. split; reflexivity. }
  destruct (findByEmail sv w (data_get body "email")) as [[existing|]|e].
  { left. split; reflexivity. }
  2:{ right. left. split; reflexivity. }
  destruct (bcrypt_hash sv (data_get body "password")) as [passwordHash|e].
  2:{ right. left. split; reflexivity. }
  destruct (create sv pg w _ _ passwordHash) as [[w1 u]|e] eqn:Hc.
  2:{ right. left. split; reflexivity. }
  right. right. do 3 (split; [reflexivity |]).
  exists passwordHash, w1, u. split; [reflexivity |]. split; [exact Hc |].
  destruct (generateToken sv u) as [token|e] eqn:Hg.
  - right. exists token. repeat split; reflexivity.
  - left. exists e. repeat split; reflexivity.
Qed.

(** X25: POST /auth/register enqueues the welcome e-mail for a stored user and
    for nobody else.  The answer is 201, 400 or 500.  A 400 changes
    nothing.  The queue changes only with a 201, and then by exactly one
    WELCOME job, addressed to the e-mail address of the row just stored,
    with the stored name as its data; the answer names that row, and its
    token is the one signed for the row's id, address and role
    'member'.  The table changes by at most one row, whose id and address
    no row had before, and only for a request whose e-mail has the form
    a@b.c and whose password, when a string, has at least 6 UTF-16
    code units. *)
Theorem register_welcomes_stored_user (sv : Services) (pg : Pg) (body : Obj)
    (w : State) :
  let r := register sv pg body w in
  (Auth.status (fst r) = 201 \/ Auth.status (fst r) = 400 \/ Auth.status (fst r) = 500)
  /\ (Auth.status (fst r) = 400 -> snd r = w)
  /\ (Auth.status (fst r) <> 201 -> emails (snd r) = emails w)
  /\ (users (snd r) = users w
      \/ exists u, users (snd r) = (users w ++ [u])%list
           /\ (forall v, v ∈ users w -> u_id v <> u_id u /\ u_email v <> u_email u)
           /\ u_role u = "member"
           /\ emailRegex_test (toStr (data_get body "email")) = true
           /\ (forall s, data_get body "password" = JStr s -> (6 <= utf16_length s)%nat))
  /\ (Auth.status (fst r) = 201 ->
      exists u token,
        fst r = {| Auth.status := 201;
                   body_of := ARegistered "User registered successfully" token
                                (u_id u) (u_name u) (u_email u) |}
        /\ users (snd r) = (users w ++ [u])%list
        /\ emails (snd r) = add (emails w) (welcome_job u)
        /\ jwt_sign sv (u_id u) (u_email u) "member" = Ok token).
Proof.
  cbv zeta.
  destruct (register_cases sv pg body w)
    as [[Hs Hw] | [[Hs Hw] | (Hre & Hpw & _ & ph & w1 & u & _ & Hc & Hrest)]].
  - rewrite Hw, Hs.
    split; [auto |]. split; [reflexivity |]. split; [reflexivity |].
    split; [by left | discriminate].
  - rewrite Hw, Hs. cbn.
    split; [auto |]. split; [reflexivity |]. split; [reflexivity |].
    split; [by left | discriminate].
  - destruct (create_spec _ _ _ _ _ _ _ _ Hc) as (Hu & He & Hfresh & Hrole & _ & _ & _).
    assert (Hlen : forall s, data_get body "password" = JStr s -> (6 <= utf16_length s)%nat).
    { intros s Hs. rewrite Hs in Hpw. unfold too_short in Hpw.
      destruct (Nat.ltb_spec (utf16_length s) 6); [discriminate | assumption]. }
    destruct Hrest as [(e & Hg & Hs & Hw) | (token & Hg & Hs & Hw)].
    + rewrite Hw, Hs. cbn.
      split; [auto |]. split; [discriminate |]. split; [auto |].
      split; [right; exists u; auto |]. discriminate.
    + rewrite Hw, Hs. cbn.
      split; [auto |]. split; [discriminate |]. split; [congruence |].
      split; [right; exists u; auto |].
      intros _. exists u, token. split; [reflexivity |]. split; [assumption |].
      split; [by rewrite He |].
      unfold generateToken in Hg. by rewrite Hrole in Hg.
Qed.

Lemma findByEmail_none (sv : Services) (w : State) (email : JVal) :
  findByEmail sv w email = Ok None ->
  users_query_ok sv = true
  /\ filter (fun u => u_email u = toStr email) (users w) = [].
Proof.
  unfold findByEmail. destruct (users_query_ok sv); [| discriminate]. cbn.
  destruct (filter _ (users w)); [auto | discriminate].
Qed.

(** X26: A registration is not undone when signing the token fails.  If a
    request is answered 201, the same request served by a process whose
    jwt.sign throws (no JWT_SECRET) is answered 500 after the same row
    has been stored, and no welcome job is enqueued; when the address is
    stored as it was sent, repeating the request is answered 400 'Email
    already in use'. *)
Theorem register_is_not_undone_when_signing_fails (sv : Services) (pg : Pg)
    (body : Obj) (w : State) (e : Exn) :
  Auth.status (fst (register sv pg body w)) = 201 ->
  varchar255_in pg (data_get body "email") = Some (toStr (data_get body "email")) ->
  let r := register (without_secret sv e) pg body w in
  fst r = server_error
  /\ users (snd r) = users (snd (register sv pg body w))
  /\ users (snd r) <> users w
  /\ emails (snd r) = emails w
  /\ fst (register (without_secret sv e) pg body (snd r))
     = bad_request "Email already in use".
Proof.
  intros H201 Hstored. cbv zeta.
  destruct (register_cases sv pg body w)
    as [[Hs _] | [[Hs _] | (Hre & Hpw & Hfind & ph & w1 & u & Hh & Hc & Hrest)]];
    [congruence | rewrite Hs in H201; discriminate H201 |].
  destruct Hrest as [(e' & _ & Hs & _) | (token & _ & _ & Hw)];
    [rewrite Hs in H201; discriminate H201 |].
  destruct (create_spec _ _ _ _ _ _ _ _ Hc) as (Hu & He & _ & _ & _ & Hmail & _).
  destruct (findByEmail_none _ _ _ Hfind) as [Hok Hnone].
  assert (Hreg : register (without_secret sv e) pg body w = (server_error, w1)).
  { revert H201. unfold register.
    destruct (negb (truthy (data_get body "name")) || negb (truthy (data_get body "email"))
              || negb (truthy (data_get body "password"))); [discriminate |].
    rewrite Hpw, Hre. cbn [negb].
    change (findByEmail (without_secret sv e) w) with (findByEmail sv w). rewrite Hfind.
    change (bcrypt_hash (without_secret sv e)) with (bcrypt_hash sv). rewrite Hh.
    change (create (without_secret sv e)) with (create sv). rewrite Hc.
    reflexivity. }
  rewrite Hreg, Hw. cbn [fst snd users emails].
  split; [reflexivity |]. split; [reflexivity |].
  split.
  { rewrite Hu. intros Hx. apply (f_equal List.length) in Hx.
    rewrite length_app in Hx. cbn in Hx. lia. }
  split; [assumption |].
  unfold register.
  destruct (negb (truthy (data_get body "name")) || negb (truthy (data_get body "email"))
            || negb (truthy (data_get body "password"))) eqn:Hreq.
  { revert H201. unfold register. rewrite Hreq. discriminate. }
  rewrite Hpw, Hre. cbn [negb].
  unfold findByEmail. cbn [users_query_ok without_secret]. rewrite Hok. cbn [negb].
  rewrite Hu, filter_app, Hnone, filter_cons, filter_nil.
  rewrite Hstored in Hmail. injection Hmail as Hmail.
  destruct (decide (u_email u = toStr (data_get body "email"))); [reflexivity | congruence].
Qed.

Lemma processor_of_send (h : Host) (net : Network) (cfg : EmailConfig.t) (j : Job) :
  snd (processor h net cfg j)
  = snd (send h net cfg (email (job_data j)) (type (job_data j)) (data (job_data j)))
  /\ deliveries (fst (processor h net cfg j))
     = deliveries (fst (send h net cfg (email (job_data j)) (type (job_data j))
                          (data (job_data j)))).
Proof.
  unfold processor.
  destruct (send h net cfg (email (job_data j)) (type (job_data j))
              (data (job_data j))) as [evs [result|e]];
    cbn [EmailService.bind emit EmailService.ret fst snd app].
  - split; [reflexivity |].
    cbn [deliveries]. rewrite deliveries_app. cbn [deliveries]. apply app_nil_r.
  - split; reflexivity.
Qed.

(** X27: The welcome job greets the stored name at the stored address.  For
    the job that register enqueues for user u, on every host, mail server
    and configuration: the template renders, with the subject 'Welcome to
    Scheduling App, <name of u>!'; with the mock provider the worker's
    processor resolves and hands nothing to a transporter; with any
    provider, a message it hands to a transporter is addressed to the
    e-mail address of u and carries that subject. *)
Theorem welcome_job_greets_the_stored_name (h : Host) (net : Network)
    (cfg : EmailConfig.t) (j : Job) (u : User) :
  job_data j = welcome_job u ->
  let greeting := JStr (cat ["👋 Welcome to Scheduling App, "; u_name u; "!"]) in
  (exists b, render h "WELCOME" (data (job_data j))
             = Ok {| subject := greeting; html := JStr b |})
  /\ (EmailConfig.provider cfg = "mock" ->
      snd (processor h net cfg j) = Ok (mock_result h)
      /\ deliveries (fst (processor h net cfg j)) = [])
  /\ (forall t m, In (t, m) (deliveries (fst (processor h net cfg j))) ->
        mail_to m = u_email u /\ mail_subject m = greeting).
Proof.
  intros Hj. cbv zeta.
  destruct (processor_of_send h net cfg j) as [Hres Hdel].
  rewrite Hres, Hdel, Hj. cbn [welcome_job email type data].
  assert (Hr : exists b, render h "WELCOME" (PObj {[ "name" := JStr (u_name u) ]})
                 = Ok {| subject := JStr (cat ["👋 Welcome to Scheduling App, "; u_name u; "!"]);
                         html := JStr b |}).
  { unfold render. change (lookup "WELCOME") with (OwnTemplate WELCOME).
    cbn [call_member]. unfold WELCOME. rewrite reading_present by reflexivity.
    assert (Hname : prop (PObj {[ "name" := JStr (u_name u) ]}) "name"
                    = PScalar (JStr (u_name u))).
    { unfold prop, PObj. by rewrite lookup_fmap, lookup_singleton_eq. }
    rewrite Hname. cbn [ToString toStr and_then]. eexists. reflexivity. }
  destruct Hr as (b & Hr). split; [by exists b |].
  pose proof (send_registered h net cfg (u_email u) "WELCOME"
                (PObj {[ "name" := JStr (u_name u) ]}) eq_refl) as Hs.
  rewrite Hr in Hs. destruct Hs as (s' & b' & Heq & Hs).
  injection Heq as <- <-. rewrite Hs.
  split.
  - intros Hmock. rewrite Hmock. split; reflexivity.
  - intros t m.
    destruct (String.eqb (EmailConfig.provider cfg) "mock"); [intros [] |].
    destruct (createTransporter cfg) as [[t0|]|e0]; try (intros []).
    cbv zeta. destruct (sendMail net t0 _) as [mid|e0]; cbn [fst deliveries In];
      intros [H | []]; injection H as <- <-; split; reflexivity.
Qed.

(** X28: POST /auth/login checks the password of the account and changes
    nothing.  A 200 means that a stored user has the e-mail address sent
    and that bcrypt.compare accepted the password sent against the hash
    stored for that user; the answer names that user and the token is
    signed for the user's id, address and role.  When the users query is
    executed and both fields are sent, an address that nobody has and a
    password that bcrypt.compare refuses get the same answer, 401
    'Invalid credentials'. *)
Theorem login_checks_the_password (sv : Services) (body : Obj) (w : State) :
  let r := login sv body w in
  let email := data_get body "email" in
  let password := data_get body "password" in
  snd r = w
  /\ (Auth.status (fst r) = 200 ->
      exists u token,
        u ∈ users w /\ u_email u = toStr email
        /\ bcrypt_compare sv password (u_password_hash u) = Ok true
        /\ jwt_sign sv (u_id u) (u_email u) (u_role u) = Ok token
        /\ fst r = {| Auth.status := 200;
                      body_of := ALoggedIn "Login successful" token (u_id u) (u_name u)
                                   (u_email u) (u_role u) |})
  /\ (users_query_ok sv = true -> truthy email = true -> truthy password = true ->
      ((forall u, u ∈ users w -> u_email u <> toStr email) -> fst r = unauthorized)
      /\ (forall u, findByEmail sv w email = Ok (Some u) ->
            bcrypt_compare sv password (u_password_hash u) = Ok false ->
            fst r = unauthorized)).
Proof.
  cbv zeta. unfold login.
  destruct (negb (truthy (data_get body "email"))
            || negb (truthy (data_get body "password"))) eqn:Hreq.
  { split; [reflexivity |]. split; [discriminate |].
    intros _ He Hp. rewrite He, Hp in Hreq. discriminate Hreq. }
  destruct (findByEmail sv w (data_get body "email")) as [[u|]|e] eqn:Hfind.
  - assert (Hu : u ∈ users w /\ u_email u = toStr (data_get body "email")).
    { revert Hfind. unfold findByEmail.
      destruct (negb (users_query_ok sv)); [discriminate |].
      intros Hh. injection Hh as Hh. apply head_Some_elem_of in Hh.
      apply list_elem_of_filter in Hh. tauto. }
    destruct (bcrypt_compare sv (data_get body "password") (u_password_hash u))
      as [[|]|e] eqn:Hcmp.
    + destruct (generateToken sv u) as [token|e] eqn:Hg.
      * split; [reflexivity |]. split.
        -- intros _. exists u, token. destruct Hu. auto 10.
        -- intros _ _ _. split.
           ++ intros Hnone. destruct Hu as [Hin Hm]. destruct (Hnone u Hin Hm).
           ++ intros u' Hu' Hf. injection Hu' as <-. congruence.
      * split; [reflexivity |]. split; [discriminate |].
        intros _ _ _. split.
        -- intros Hnone. destruct Hu as [Hin Hm]. destruct (Hnone u Hin Hm).
        -- intros u' Hu' Hf. injection Hu' as <-. congruence.
    + split; [reflexivity |]. split; [discriminate |].
      intros _ _ _. split; reflexivity.
    + split; [reflexivity |]. split; [discriminate |].
      intros _ _ _. split.
      * intros Hnone. destruct Hu as [Hin Hm]. destruct (Hnone u Hin Hm).
      * intros u' Hu' Hf. injection Hu' as <-. congruence.
  - split; [reflexivity |]. split; [discriminate |].
    intros _ _ _. split; [reflexivity |]. intros u' Hu'. discriminate Hu'.
  - split; [reflexivity |]. split; [discriminate |].
    intros Hok _ _. revert Hfind. unfold findByEmail. rewrite Hok. discriminate.
Qed.

Lemma register_is_not_undone_when_signing_fails_witness :
  fst (register (without_secret Samples.services
                   (Error "secretOrPrivateKey must have a value"))
         pg_up Samples.ann_request Samples.no_users) = server_error.
Proof.
  refine (proj1 (register_is_not_undone_when_signing_fails Samples.services pg_up
                   Samples.ann_request Samples.no_users
                   (Error "secretOrPrivateKey must have a value") _ _)).
  - vm_compute. reflexivity.
  - vm_compute. reflexivity.
Defined.

Lemma welcome_job_greets_the_stored_name_witness :
  snd (processor Hosts.utc unreachable default_config
         (fresh (welcome_job Samples.ann))) = Ok (mock_result Hosts.utc).
Proof.
  destruct (welcome_job_greets_the_stored_name Hosts.utc unreachable default_config
              (fresh (welcome_job Samples.ann)) Samples.ann eq_refl) as (_ & H & _).
  exact (proj1 (H eq_refl)).
Defined.

End Accounts.
